(** * ZMK battery monitor: a shallow embedding of [main.py]

    The development follows the class [BatteryMonitor]: the configuration
    store ([load_config], [save_config]), the device locator
    ([find_keyboard]), the report resolver ([read_battery_levels]), the
    series writer ([log_battery_levels]), the tray update ([update_tray])
    and the worker loop ([monitoring_loop], [stop_monitoring]).

    Python objects are modelled as the code uses them: [self.config] is a
    dictionary from strings to JSON values (a [gmap]), a feature report is
    a list of integers, [valid_reports] is an insertion-ordered association
    list, and an exception is an explicit [Raise] result.  Calls to the
    logger have no effect on the state the program reads back and are left
    out.  JSON numbers with a fraction or an exponent (Python floats) are not
    modelled: a configuration value is null, a boolean, an integer, a
    string, a list or an object. *)

From Stdlib Require Import ZArith String Ascii List DecimalString.
From stdpp Require Import base gmap strings list fin_maps.

Set Warnings "-register-all".
Local Open Scope string_scope.
Local Open Scope Z_scope.

(** ** Python values and exceptions *)

Inductive json : Type :=
| JNull
| JBool (b : bool)
| JInt (n : Z)
| JStr (s : string)
| JList (l : list json)
| JDict (kvs : list (string * json)).

Inductive exn : Type := KeyError | TypeError | IndexError | OSError.

Inductive result (A : Type) : Type :=
| Ok (a : A)
| Raise (e : exn).
Arguments Ok {A} a.
Arguments Raise {A} e.

(** [bool(v)] *)
Definition truthy (v : json) : bool :=
  match v with
  | JNull => false
  | JBool b => b
  | JInt n => negb (n =? 0)
  | JStr s => negb (String.eqb s "")
  | JList l => match l with [] => false | _ => true end
  | JDict kvs => match kvs with [] => false | _ => true end
  end.

(** The integer a value stands for in arithmetic and comparisons
    ([bool] is a subclass of [int]); [None] where Python raises TypeError. *)
Definition as_int (v : json) : option Z :=
  match v with
  | JInt n => Some n
  | JBool b => Some (if b then 1 else 0)
  | _ => None
  end.

(** [v == n] for an integer [n] *)
Definition py_eq_int (v : json) (n : Z) : bool :=
  match as_int v with
  | Some m => m =? n
  | None => false
  end.

(** [str(n)] *)
Definition str_of_int (n : Z) : string :=
  NilZero.string_of_int (Z.to_int n).

(** [s.lower()] as it acts on ASCII text.  Python lowers by the Unicode
    tables (the Kelvin sign, for one, becomes "k"); these are not
    reproduced here: the lowering the program uses is a component of its
    surroundings ([str_lower] below), and this function is the one the
    sample surroundings take, whose device strings are ASCII. *)
Definition lower_ascii (c : ascii) : ascii :=
  let n := nat_of_ascii c in
  if (Nat.leb 65 n && Nat.leb n 90)%bool then ascii_of_nat (n + 32) else c.

Fixpoint lower (s : string) : string :=
  match s with
  | EmptyString => EmptyString
  | String c s' => String (lower_ascii c) (lower s')
  end.

(** [needle in hay] for two strings.  Strings are UTF-8 text; a needle of
    ASCII letters occurs in a text exactly when its bytes occur in the
    bytes of the text. *)
Fixpoint contains (needle hay : string) : bool :=
  if String.prefix needle hay then true
  else match hay with
       | EmptyString => false
       | String _ hay' => contains needle hay'
       end.

(** ** Configuration store *)

Definition default_items : list (string * json) :=
  [ ("update_interval", JInt 300);
    ("low_battery_threshold", JInt 20);
    ("critical_battery_threshold", JInt 10);
    ("vendor_id", JNull);
    ("product_id", JNull);
    ("device_name", JNull);
    ("report_id", JNull);
    ("left_battery_index", JNull);
    ("right_battery_index", JNull) ].

Definition DEFAULT_CONFIG : gmap string json := list_to_map default_items.

(** What [CONFIG_FILE] holds: nothing; content on which [open] or
    [json.load] raises; a JSON object, given as the dictionary that
    [json.load] returns for it; or a document with any other top-level
    value.  [json.dump] followed by [json.load] is taken to give the
    dictionary back. *)
Inductive config_file_state : Type :=
| Absent
| Unparseable
| Document (d : gmap string json)
| Other (v : json).

(** What [load_config] returns: a dictionary, or the list or string that
    [json.load] returned when the merge loop found every default key in
    it. *)
Inductive loaded : Type :=
| Dict (c : gmap string json)
| NotDict (v : json).

(** The loop [for key, value in DEFAULT_CONFIG.items()] on a dictionary *)
Definition merge_defaults (config : gmap string json) : gmap string json :=
  foldl (fun c kv => match c !! kv.1 with
                     | Some _ => c
                     | None => <[kv.1 := kv.2]> c
                     end) config default_items.

(** [key in l] for a list: some element equals the string [key]. *)
Definition key_in_list (key : string) (l : list json) : bool :=
  existsb (fun x => match x with
                    | JStr s => String.eqb s key
                    | _ => false
                    end) l.

(** The dictionary [json.load] builds from the members of an object: a
    later member replaces an earlier one of the same name. *)
Definition dict_of (kvs : list (string * json)) : gmap string json :=
  foldl (fun d kv => <[kv.1 := kv.2]> d) ∅ kvs.

(** [load_config].  On a value that is not a dictionary the test
    [key not in config] raises for [null], a boolean or a number; on a
    list or a string it is a membership or substring test, and the
    assignment [config[key] = value] raises at the first key that is
    missing.  Every exception gives the defaults; a list or string with
    no key missing is returned as it is. *)
Definition load_config (f : config_file_state) : loaded :=
  match f with
  | Absent => Dict DEFAULT_CONFIG
  | Unparseable => Dict DEFAULT_CONFIG
  | Document d => Dict (merge_defaults d)
  | Other v =>
      match v with
      | JDict kvs => Dict (merge_defaults (dict_of kvs))
      | JList l =>
          if forallb (fun kv => key_in_list kv.1 l) default_items
          then NotDict v else Dict DEFAULT_CONFIG
      | JStr s =>
          if forallb (fun kv => contains kv.1 s) default_items
          then NotDict v else Dict DEFAULT_CONFIG
      | _ => Dict DEFAULT_CONFIG
      end
  end.

(** ** The monitor object and its surroundings *)

(** One entry of [hid.enumerate()] *)
Record hid_info : Type := {
  vendor_id : Z;
  product_id : Z;
  path : string;
  manufacturer_string : string;
  product_string : string
}.

(** [self.battery_levels] *)
Record reading : Type := {
  left_battery : option Z;
  right_battery : option Z;
  timestamp : option string
}.

(** One call of [show_notification(title, message, is_warning)] *)
Record notification : Type := {
  title : string;
  message : string;
  is_warning : bool
}.

(** The fields of [BatteryMonitor] together with what the program leaves
    outside itself: the two files, the tooltips and notifications handed to
    the user interface, and the feature reports asked of the device. *)
Record monitor : Type := {
  config : gmap string json;
  battery_levels : reading;
  running : bool;
  monitor_thread : bool;
  icon : bool;
  config_file : config_file_state;
  log_file : option string;
  tooltips : list string;
  notifications : list notification;
  requests : list Z
}.

(** What one call of [save_config] does to the file: [open] raises and
    the file stays as it was; [open] has emptied the file and [json.dump]
    raises before the document is complete; or the document is written. *)
Inductive write_outcome : Type := Written | Truncated | Refused.

(** The places of a cycle that call [save_config]: [find_keyboard] after
    it has selected a device, and [read_battery_levels] after it has
    stored a mapping.  A cycle passes each at most once. *)
Inductive save_site : Type := OnSelect | OnLearn.

(** What one cycle finds around it. [hid_get_feature_report k report_id]
    is the answer to the [k]-th request made on the open device ([None]
    when the call raises), so a device may answer the same request
    differently the second time.  [str_lower] is [str.lower] of the
    Python runtime.  [config_write site] is what the save at [site]
    does, so the two saves of one cycle may fare differently. *)
Record environment : Type := {
  str_lower : string -> string;
  hid_enumerate : result (list hid_info);
  hid_open : Z -> Z -> bool;
  hid_get_feature_report : nat -> Z -> option (list Z);
  clock : string;
  config_write : save_site -> write_outcome;
  log_writable : bool;
  gui_available : bool
}.

Definition set_config (c : gmap string json) (m : monitor) : monitor :=
  {| config := c; battery_levels := battery_levels m; running := running m;
     monitor_thread := monitor_thread m; icon := icon m;
     config_file := config_file m; log_file := log_file m;
     tooltips := tooltips m; notifications := notifications m;
     requests := requests m |}.

Definition set_battery_levels (b : reading) (m : monitor) : monitor :=
  {| config := config m; battery_levels := b; running := running m;
     monitor_thread := monitor_thread m; icon := icon m;
     config_file := config_file m; log_file := log_file m;
     tooltips := tooltips m; notifications := notifications m;
     requests := requests m |}.

Definition set_running (b : bool) (m : monitor) : monitor :=
  {| config := config m; battery_levels := battery_levels m; running := b;
     monitor_thread := monitor_thread m; icon := icon m;
     config_file := config_file m; log_file := log_file m;
     tooltips := tooltips m; notifications := notifications m;
     requests := requests m |}.

Definition set_monitor_thread (b : bool) (m : monitor) : monitor :=
  {| config := config m; battery_levels := battery_levels m; running := running m;
     monitor_thread := b; icon := icon m;
     config_file := config_file m; log_file := log_file m;
     tooltips := tooltips m; notifications := notifications m;
     requests := requests m |}.

Definition set_icon (b : bool) (m : monitor) : monitor :=
  {| config := config m; battery_levels := battery_levels m; running := running m;
     monitor_thread := monitor_thread m; icon := b;
     config_file := config_file m; log_file := log_file m;
     tooltips := tooltips m; notifications := notifications m;
     requests := requests m |}.

Definition set_config_file (f : config_file_state) (m : monitor) : monitor :=
  {| config := config m; battery_levels := battery_levels m; running := running m;
     monitor_thread := monitor_thread m; icon := icon m;
     config_file := f; log_file := log_file m;
     tooltips := tooltips m; notifications := notifications m;
     requests := requests m |}.

Definition set_log_file (f : option string) (m : monitor) : monitor :=
  {| config := config m; battery_levels := battery_levels m; running := running m;
     monitor_thread := monitor_thread m; icon := icon m;
     config_file := config_file m; log_file := f;
     tooltips := tooltips m; notifications := notifications m;
     requests := requests m |}.

Definition add_tooltip (t : string) (m : monitor) : monitor :=
  {| config := config m; battery_levels := battery_levels m; running := running m;
     monitor_thread := monitor_thread m; icon := icon m;
     config_file := config_file m; log_file := log_file m;
     tooltips := tooltips m ++ [t]; notifications := notifications m;
     requests := requests m |}.

Definition show_notification (n : notification) (m : monitor) : monitor :=
  {| config := config m; battery_levels := battery_levels m; running := running m;
     monitor_thread := monitor_thread m; icon := icon m;
     config_file := config_file m; log_file := log_file m;
     tooltips := tooltips m; notifications := notifications m ++ [n];
     requests := requests m |}.

Definition add_requests (ids : list Z) (m : monitor) : monitor :=
  {| config := config m; battery_levels := battery_levels m; running := running m;
     monitor_thread := monitor_thread m; icon := icon m;
     config_file := config_file m; log_file := log_file m;
     tooltips := tooltips m; notifications := notifications m;
     requests := requests m ++ ids |}.

(** The object [BatteryMonitor.__init__] builds around the dictionary [c]
    that [load_config] returned *)
Definition blank (c : gmap string json) (f : config_file_state)
    (log : option string) : monitor :=
  {| config := c;
     battery_levels := {| left_battery := None; right_battery := None; timestamp := None |};
     running := false; monitor_thread := false; icon := false;
     config_file := f; log_file := log;
     tooltips := []; notifications := []; requests := [] |}.

(** [BatteryMonitor.__init__].  The monitor is modelled with a dictionary
    as its configuration.  When [load_config] returns a list or a string,
    the object the code builds has that value as [self.config], and every
    [self.config["..."]] raises TypeError; this object is outside the
    model ([None]). *)
Definition init (f : config_file_state) (log : option string) : option monitor :=
  match load_config f with
  | Dict c => Some (blank c f log)
  | NotDict _ => None
  end.

(** Every save of the cycle writes its document. *)
Definition config_writable (e : environment) : bool :=
  match config_write e OnSelect, config_write e OnLearn with
  | Written, Written => true
  | _, _ => false
  end.

(** [save_config]: [open(CONFIG_FILE, 'w')] and [json.dump(self.config, f)]
    in a [try].  A file that was emptied and then not completed holds no
    JSON document. *)
Definition save_config (e : environment) (site : save_site) (m : monitor) : monitor :=
  match config_write e site with
  | Written => set_config_file (Document (config m)) m
  | Truncated => set_config_file Unparseable m
  | Refused => m
  end.

(** ** Device locator *)

(** The filter for potential ZMK devices *)
Definition is_candidate (e : environment) (device : hid_info) : bool :=
  contains "keyboard" (str_lower e (product_string device))
  || contains "zmk" (str_lower e (product_string device))
  || contains "zmk" (str_lower e (manufacturer_string device)).

(** [self.config["vendor_id"] and self.config["product_id"]]: the pair of
    configured identifiers when both are truthy. *)
Definition configured_ids (c : gmap string json) : result (option (json * json)) :=
  match c !! "vendor_id" with
  | None => Raise KeyError
  | Some vid =>
      if truthy vid then
        match c !! "product_id" with
        | None => Raise KeyError
        | Some pid => if truthy pid then Ok (Some (vid, pid)) else Ok None
        end
      else Ok None
  end.

Definition matches_configured (ids : json * json) (device : hid_info) : bool :=
  py_eq_int ids.1 (vendor_id device) && py_eq_int ids.2 (product_id device).

Definition configured_present (ids : option (json * json)) (devices : list hid_info) : bool :=
  match ids with
  | Some p => existsb (matches_configured p) devices
  | None => false
  end.

Definition device_name_of (device : hid_info) : string :=
  manufacturer_string device +:+ " " +:+ product_string device.

Definition select_device (device : hid_info) (c : gmap string json) : gmap string json :=
  <["device_name" := JStr (device_name_of device)]>
    (<["product_id" := JInt (product_id device)]>
       (<["vendor_id" := JInt (vendor_id device)]> c)).

(** [find_keyboard].  The message logged for a configured device that is
    connected reads [self.config['device_name']]; the configuration of a
    monitor has this key, as every dictionary that [load_config] returns
    has it and nothing removes a key, so the lookup is left out with the
    message. *)
Definition find_keyboard (e : environment) (m : monitor) : result bool * monitor :=
  match hid_enumerate e with
  | Raise x => (Raise x, m)
  | Ok devices =>
      match configured_ids (config m) with
      | Raise x => (Raise x, m)
      | Ok ids =>
          if configured_present ids devices then (Ok true, m)
          else
            match List.filter (is_candidate e) devices with
            | [] => (Ok false, m)
            | device :: _ =>
                (Ok true, save_config e OnSelect (set_config (select_device device (config m)) m))
            end
      end
  end.

(** ** Report resolver *)

Definition report_ids : list Z := [1; 2; 3; 4; 5; 6; 7; 8].

(** [0 <= b <= 100] *)
Definition in_range (b : Z) : bool := (0 <=? b) && (b <=? 100).

(** The first loop of [read_battery_levels]: ask for every probe report
    and keep those longer than two bytes, in the order of the requests.
    [k] counts the requests made so far. *)
Fixpoint collect_valid_reports (get : nat -> Z -> option (list Z)) (k : nat)
    (ids : list Z) : list (Z * list Z) :=
  match ids with
  | [] => []
  | report_id :: ids' =>
      match get k report_id with
      | Some report =>
          if (2 <? length report)%nat
          then (report_id, report) :: collect_valid_reports get (S k) ids'
          else collect_valid_reports get (S k) ids'
      | None => collect_valid_reports get (S k) ids'
      end
  end.

(** [for i in range(1, min(5, len(report)))]: the positions whose byte is
    a percentage, each with its byte. *)
Definition potential_battery_values (report : list Z) : list (nat * Z) :=
  flat_map (fun i => match report !! i with
                     | Some b => if in_range b then [(i, b)] else []
                     | None => []
                     end)
           (seq 1 (Nat.min 5 (length report) - 1)).

(** [self.config.get("report_id") != report_id] *)
Definition report_id_differs (c : gmap string json) (report_id : Z) : bool :=
  match c !! "report_id" with
  | Some v => negb (py_eq_int v report_id)
  | None => true
  end.

Definition store_mapping (report_id : Z) (left_idx : nat) (right_idx : option nat)
    (c : gmap string json) : gmap string json :=
  <["right_battery_index" := match right_idx with
                             | Some i => JInt (Z.of_nat i)
                             | None => JNull
                             end]>
    (<["left_battery_index" := JInt (Z.of_nat left_idx)]>
       (<["report_id" := JInt report_id]> c)).

(** The guarded update of the mapping, followed by [save_config] *)
Definition learn (e : environment) (report_id : Z) (left_idx : nat)
    (right_idx : option nat) (m : monitor) : monitor :=
  if report_id_differs (config m) report_id
  then save_config e OnLearn (set_config (store_mapping report_id left_idx right_idx (config m)) m)
  else m.

(** The second loop: [for report_id, report in valid_reports.items()],
    left at the first report with a potential battery value. *)
Fixpoint scan_reports (e : environment) (valid_reports : list (Z * list Z))
    (m : monitor) : option Z * option Z * monitor :=
  match valid_reports with
  | [] => (None, None, m)
  | (report_id, report) :: rest =>
      match potential_battery_values report with
      | (left_idx, left_b) :: (right_idx, right_b) :: _ =>
          (Some left_b, Some right_b, learn e report_id left_idx (Some right_idx) m)
      | [(idx, value)] =>
          (Some value, None, learn e report_id idx None m)
      | [] => scan_reports e rest m
      end
  end.

(** [report[i]] for a Python integer [i]; [None] is IndexError. *)
Definition py_index (report : list Z) (i : Z) : option Z :=
  if 0 <=? i then report !! Z.to_nat i
  else if - Z.of_nat (length report) <=? i
       then report !! Z.to_nat (Z.of_nat (length report) + i)
       else None.

(** The byte at a stored index, when the index is not [None], lies below
    [len(report)] and the byte is a percentage. *)
Definition stored_value (index : json) (report : list Z) : result (option Z) :=
  match index with
  | JNull => Ok None
  | _ =>
      match as_int index with
      | None => Raise TypeError
      | Some i =>
          if i <? Z.of_nat (length report) then
            match py_index report i with
            | Some b => Ok (if in_range b then Some b else None)
            | None => Raise IndexError
            end
          else Ok None
      end
  end.

(** The block under ["report_id" in self.config]: the levels it leaves in
    [left_battery] and [right_battery] and the request it makes.  Every
    exception of the block is caught by its own handler; the assignments
    made before it stay. *)
Definition read_stored (get : nat -> Z -> option (list Z)) (k : nat)
    (c : gmap string json) : option Z * option Z * list Z :=
  match c !! "report_id" with
  | None => (None, None, [])
  | Some v =>
      match as_int v with
      | None => (None, None, [])
      | Some report_id =>
          match get k report_id with
          | None => (None, None, [report_id])
          | Some report =>
              match c !! "left_battery_index" with
              | None => (None, None, [report_id])
              | Some li =>
                  match stored_value li report with
                  | Raise _ => (None, None, [report_id])
                  | Ok l =>
                      match c !! "right_battery_index" with
                      | None => (l, None, [report_id])
                      | Some ri =>
                          match stored_value ri report with
                          | Raise _ => (l, None, [report_id])
                          | Ok r => (l, r, [report_id])
                          end
                      end
                  end
              end
          end
      end
  end.

(** [device.open(self.config["vendor_id"], self.config["product_id"])];
    [false] when the call raises. *)
Definition open_device (e : environment) (c : gmap string json) : bool :=
  match c !! "vendor_id", c !! "product_id" with
  | Some vid, Some pid =>
      match as_int vid, as_int pid with
      | Some v, Some p => hid_open e v p
      | _, _ => false
      end
  | _, _ => false
  end.

(** The body of the outer [try] of [read_battery_levels] *)
Definition resolve (e : environment) (m : monitor) : option Z * option Z * monitor :=
  if open_device e (config m) then
    let valid_reports :=
      collect_valid_reports (hid_get_feature_report e) 0 report_ids in
    let '(l, r, m1) := scan_reports e valid_reports (add_requests report_ids m) in
    match l, r with
    | None, None =>
        let '(l', r', asked) :=
          read_stored (hid_get_feature_report e) (length report_ids) (config m1) in
        (l', r', add_requests asked m1)
    | _, _ => (l, r, m1)
    end
  else (None, None, m).

(** ** Persisted series *)

Definition newline : string := String (ascii_of_nat 10) "".

Definition header : string := "timestamp,left_battery,right_battery" +:+ newline.

(** [f"{x}"] for a level and for the timestamp *)
Definition field (level : option Z) : string :=
  match level with
  | Some n => str_of_int n
  | None => ""
  end.

Definition str_of_timestamp (t : option string) : string :=
  match t with
  | Some s => s
  | None => "None"
  end.

Definition row (b : reading) : string :=
  str_of_timestamp (timestamp b) +:+ "," +:+ field (left_battery b) +:+ ","
    +:+ field (right_battery b) +:+ newline.

Definition log_battery_levels (e : environment) (m : monitor) : result unit * monitor :=
  if log_writable e then
    let content := match log_file m with
                   | None => header
                   | Some text => text
                   end in
    (Ok tt, set_log_file (Some (content +:+ row (battery_levels m))) m)
  else (Raise OSError, m).

Definition read_battery_levels (e : environment) (m : monitor) : result reading * monitor :=
  let '(l, r, m1) := resolve e m in
  let m2 := set_battery_levels
              {| left_battery := l; right_battery := r; timestamp := Some (clock e) |} m1 in
  match log_battery_levels e m2 with
  | (Ok _, m3) => (Ok (battery_levels m3), m3)
  | (Raise x, m3) => (Raise x, m3)
  end.

(** ** Tray update *)

(** [level <= self.config[key]] *)
Definition at_most (level : Z) (c : gmap string json) (key : string) : result bool :=
  match c !! key with
  | None => Raise KeyError
  | Some v =>
      match as_int v with
      | Some t => Ok (level <=? t)
      | None => Raise TypeError
      end
  end.

Inductive colour : Type := Gray | Red | Orange | Green.

Definition get_color (c : gmap string json) (level : option Z) : result colour :=
  match level with
  | None => Ok Gray
  | Some n =>
      match at_most n c "critical_battery_threshold" with
      | Raise x => Raise x
      | Ok true => Ok Red
      | Ok false =>
          match at_most n c "low_battery_threshold" with
          | Raise x => Raise x
          | Ok true => Ok Orange
          | Ok false => Ok Green
          end
      end
  end.

(** The icon is drawn from the two colours; [None] without a GUI. *)
Definition generate_tray_icon (e : environment) (m : monitor)
  : result (option (colour * colour)) :=
  if gui_available e then
    match get_color (config m) (left_battery (battery_levels m)) with
    | Raise x => Raise x
    | Ok lc =>
        match get_color (config m) (right_battery (battery_levels m)) with
        | Raise x => Raise x
        | Ok rc => Ok (Some (lc, rc))
        end
    end
  else Ok None.

Definition percent (level : option Z) : string :=
  match level with
  | Some n => str_of_int n +:+ "%"
  | None => "Unknown"
  end.

Definition tooltip_of (b : reading) : string :=
  "ZMK Battery Monitor - Left: " +:+ percent (left_battery b)
    +:+ ", Right: " +:+ percent (right_battery b).

Definition critical_warning (side : string) (level : Z) : notification :=
  {| title := "Critical Battery Warning";
     message := side +:+ " keyboard half battery is critically low ("
                  +:+ str_of_int level +:+ "%)";
     is_warning := true |}.

(** The [if]/[elif] at the end of [update_tray] *)
Definition notify_critical (m : monitor) : result unit * monitor :=
  let c := config m in
  let right_branch :=
    match right_battery (battery_levels m) with
    | None => (Ok tt, m)
    | Some r =>
        match at_most r c "critical_battery_threshold" with
        | Raise x => (Raise x, m)
        | Ok true => (Ok tt, show_notification (critical_warning "Right" r) m)
        | Ok false => (Ok tt, m)
        end
    end in
  match left_battery (battery_levels m) with
  | None => right_branch
  | Some l =>
      match at_most l c "critical_battery_threshold" with
      | Raise x => (Raise x, m)
      | Ok true => (Ok tt, show_notification (critical_warning "Left" l) m)
      | Ok false => right_branch
      end
  end.

Definition update_tray (e : environment) (m : monitor) : result unit * monitor :=
  match generate_tray_icon e m with
  | Raise x => (Raise x, m)
  | Ok _ => notify_critical (add_tooltip (tooltip_of (battery_levels m)) m)
  end.

(** ** Monitoring loop *)

(** [init_gui], once the tray icon has been created: [self.icon = True] *)
Definition init_gui (m : monitor) : monitor := set_icon true m.

(** The body of the [try] in [monitoring_loop] *)
Definition cycle_body (e : environment) (m : monitor) : result unit * monitor :=
  match find_keyboard e m with
  | (Raise x, m1) => (Raise x, m1)
  | (Ok false, m1) => (Ok tt, m1)
  | (Ok true, m1) =>
      match read_battery_levels e m1 with
      | (Raise x, m2) => (Raise x, m2)
      | (Ok _, m2) => if icon m2 then update_tray e m2 else (Ok tt, m2)
      end
  end.

(** [try: ... except Exception: logger.error(...)] *)
Definition cycle (e : environment) (m : monitor) : monitor := (cycle_body e m).2.

(** [range(self.config["update_interval"])]: the number of rounds of the
    sleep loop, or the exception that ends the thread. *)
Definition sleep_rounds (c : gmap string json) : result nat :=
  match c !! "update_interval" with
  | None => Raise KeyError
  | Some v =>
      match as_int v with
      | Some n => Ok (Z.to_nat n)
      | None => Raise TypeError
      end
  end.

(** Where the worker thread stands: at the test of [while self.running],
    inside the [try], at the test [if not self.running] with so many
    rounds of the [for] left, inside [time.sleep(1)], past the loop, or
    ended by an exception outside the [try]. *)
Inductive worker : Type :=
| AtWhile
| InCycle
| AtFor (rounds : nat)
| InSleep (rounds : nat)
| Returned
| Died (x : exn).

Inductive event : Type := Cycled | Slept.

(** One step of the worker.  Another thread may change [running] between
    two steps. *)
Definition worker_step (e : environment) (w : worker) (m : monitor)
  : worker * monitor * list event :=
  match w with
  | AtWhile => if running m then (InCycle, m, []) else (Returned, m, [])
  | InCycle =>
      let m1 := cycle e m in
      match sleep_rounds (config m1) with
      | Ok n => (AtFor n, m1, [Cycled])
      | Raise x => (Died x, m1, [Cycled])
      end
  | AtFor O => (AtWhile, m, [])
  | AtFor (S n) => if running m then (InSleep n, m, []) else (AtWhile, m, [])
  | InSleep n => (AtFor n, m, [Slept])
  | Returned => (Returned, m, [])
  | Died x => (Died x, m, [])
  end.

(** [fuel] steps of the worker with no other thread acting in between;
    the environment may differ from step to step. *)
Fixpoint worker_run (envs : nat -> environment) (fuel : nat) (w : worker)
    (m : monitor) : worker * monitor * list event :=
  match fuel with
  | O => (w, m, [])
  | S fuel' =>
      let '(w1, m1, ev1) := worker_step (envs O) w m in
      let '(w2, m2, ev2) := worker_run (fun i => envs (S i)) fuel' w1 m1 in
      (w2, m2, (ev1 ++ ev2)%list)
  end.

Definition sleeps (evs : list event) : nat :=
  length (List.filter (fun ev => match ev with Slept => true | Cycled => false end) evs).

Definition ended (w : worker) : bool :=
  match w with
  | Returned | Died _ => true
  | _ => false
  end.

(** [start_monitoring]: the new thread starts at [AtWhile]. *)
Definition start_monitoring (m : monitor) : monitor :=
  if running m then m else set_monitor_thread true (set_running true m).

(** [stop_monitoring]: the flag is cleared; the only call that waits is
    [join(timeout=2)], made when a thread was started. *)
Definition stop_monitoring (m : monitor) : monitor * option Z :=
  (set_running false m, if monitor_thread m then Some 2 else None).

(** [join(timeout)] returns when the thread has ended or when the timeout
    has passed, whichever comes first; [None] stands for a thread that
    never ends.  Times are in seconds. *)
Definition join_wait (timeout : Z) (thread_ends_in : option Z) : Z :=
  match thread_ends_in with
  | Some t => Z.min timeout t
  | None => timeout
  end.

(** The time [stop_monitoring] waits *)
Definition stop_wait (m : monitor) (thread_ends_in : option Z) : Z :=
  match (stop_monitoring m).2 with
  | Some timeout => join_wait timeout thread_ends_in
  | None => 0
  end.

(** ** Vocabulary of the statements *)

(** The contribution of one position to [potential_battery_values] *)
Definition candidate_at (report : list Z) (i : nat) : list (nat * Z) :=
  match report !! i with
  | Some b => if in_range b then [(i, b)] else []
  | None => []
  end.

(** A report is silent for the scan when the request raised, when it has
    at most two bytes, or when no position in 1..4 holds a percentage. *)
Definition silent (answer : option (list Z)) : Prop :=
  match answer with
  | None => True
  | Some report =>
      (length report <= 2)%nat \/
      forall i b, (1 <= i <= 4)%nat -> report !! i = Some b -> ~ (0 <= b <= 100)
  end.

(** [needle] occurs in [hay] *)
Definition occurs_in (needle hay : string) : Prop :=
  exists before after, hay = before +:+ needle +:+ after.

(** The device names a keyboard or ZMK in the way [find_keyboard] looks
    for: "keyboard" or "zmk" in the lower-cased product string, or "zmk"
    in the lower-cased manufacturer string. *)
Definition looks_like_zmk (e : environment) (device : hid_info) : Prop :=
  occurs_in "keyboard" (str_lower e (product_string device)) \/
  occurs_in "zmk" (str_lower e (product_string device)) \/
  occurs_in "zmk" (str_lower e (manufacturer_string device)).

(** The file after a save that found it holding [f] and had [c] to write *)
Definition after_save (o : write_outcome) (c : gmap string json)
    (f : config_file_state) : config_file_state :=
  match o with
  | Written => Document c
  | Truncated => Unparseable
  | Refused => f
  end.

(** The integer stored under a threshold key, when there is one *)
Definition threshold (c : gmap string json) (key : string) : option Z :=
  match c !! key with
  | Some v => as_int v
  | None => None
  end.

(** ** Sample devices and monitors *)

Definition keyboard : hid_info :=
  {| vendor_id := 7504; product_id := 24926; path := "/dev/hidraw3";
     manufacturer_string := "ZMK Project"; product_string := "Corne" |}.

(** A device that answers each listed report id with the listed bytes,
    every time, and raises on the others. *)
Definition answers (table : list (Z * list Z)) : nat -> Z -> option (list Z) :=
  fun _ report_id =>
    match List.find (fun p => p.1 =? report_id) table with
    | Some p => Some p.2
    | None => None
    end.

Definition world (devices : list hid_info) (opens : bool)
    (table : list (Z * list Z)) : environment :=
  {| str_lower := lower;
     hid_enumerate := Ok devices;
     hid_open := fun _ _ => opens;
     hid_get_feature_report := answers table;
     clock := "2025-03-01 12:00:00";
     config_write := fun _ => Written;
     log_writable := true;
     gui_available := true |}.

(** A monitor just constructed, with no files yet *)
Definition fresh : monitor := blank DEFAULT_CONFIG Absent None.

(** The JSON list of the nine key names *)
Definition key_names : json :=
  JList [JStr "update_interval"; JStr "low_battery_threshold";
         JStr "critical_battery_threshold"; JStr "vendor_id"; JStr "product_id";
         JStr "device_name"; JStr "report_id"; JStr "left_battery_index";
         JStr "right_battery_index"].

(** A monitor that has selected [keyboard] in an earlier cycle *)
Definition paired : monitor :=
  set_config (select_device keyboard DEFAULT_CONFIG) fresh.

(** A monitor that has also learned a mapping *)
Definition learned (report_id : Z) (left_idx : nat) (right_idx : option nat) : monitor :=
  set_config (store_mapping report_id left_idx right_idx (config paired)) paired.

Definition keyboardio : hid_info :=
  {| vendor_id := 12617; product_id := 8961; path := "/dev/hidraw5";
     manufacturer_string := "Keyboardio"; product_string := "Model 100" |}.

Definition mouse : hid_info :=
  {| vendor_id := 1133; product_id := 49284; path := "/dev/hidraw0";
     manufacturer_string := "Logitech"; product_string := "USB Optical Mouse" |}.

Definition nice_nano : hid_info :=
  {| vendor_id := 7504; product_id := 24926; path := "/dev/hidraw7";
     manufacturer_string := "zmkfirmware"; product_string := "Lily58" |}.

(** The Kelvin sign, U+212A, in UTF-8; [str.lower] of Python maps it to
    the letter k. *)
Definition kelvin_sign : string :=
  String "226"%char (String "132"%char (String "170"%char EmptyString)).

Definition kelvin_board : hid_info :=
  {| vendor_id := 4660; product_id := 22136; path := "/dev/hidraw2";
     manufacturer_string := "Acme"; product_string := "ZM" +:+ kelvin_sign |}.

(** [str.lower], as far as the strings of [kelvin_board] go *)
Definition lower_with_kelvin (s : string) : string :=
  if String.eqb s ("ZM" +:+ kelvin_sign) then "zmk" else lower s.

(** ** Vocabulary of the further properties *)

(** The three components of a run of the worker *)
Definition run_worker (r : worker * monitor * list event) : worker := r.1.1.
Definition run_monitor (r : worker * monitor * list event) : monitor := r.1.2.
Definition run_events (r : worker * monitor * list event) : list event := r.2.

(** The keys that [find_keyboard] and [read_battery_levels] assign *)
Definition assigned_keys : list string :=
  ["vendor_id"; "product_id"; "device_name";
   "report_id"; "left_battery_index"; "right_battery_index"].

(** A level, when present, is a percentage. *)
Definition percentage (level : option Z) : Prop :=
  match level with
  | Some b => 0 <= b <= 100
  | None => True
  end.

(** A device that reports the vendor identifier 0 *)
Definition virtual_pad : hid_info :=
  {| vendor_id := 0; product_id := 1; path := "/dev/hidraw9";
     manufacturer_string := "Acme"; product_string := "Virtual Pad" |}.

(** The monitor that [__init__] builds when the configuration file holds
    the object [d] *)
Definition loaded_from (d : gmap string json) : monitor :=
  blank (merge_defaults d) (Document d) None.

(** A value that is no number: [null], a string, a list or an object.
    Python orders none of these with an integer: [level <= v] raises
    TypeError. *)
Definition not_a_number (v : json) : Prop :=
  match v with
  | JNull | JStr _ | JList _ | JDict _ => True
  | JBool _ | JInt _ => False
  end.
(** * Properties *)

(** ** Potential battery values, position by position *)

Lemma potential_battery_values_positions (report : list Z) :
  potential_battery_values report =
    (candidate_at report 1 ++ candidate_at report 2
       ++ candidate_at report 3 ++ candidate_at report 4)%list.
Proof.
  unfold potential_battery_values, candidate_at.
  destruct report as [|b0 [|b1 [|b2 [|b3 [|b4 rest]]]]]; simpl;
    rewrite ?app_nil_r; reflexivity.
Qed.

Lemma in_range_bounds (b : Z) : in_range b = true <-> 0 <= b <= 100.
Proof. unfold in_range. rewrite andb_true_iff, !Z.leb_le. tauto. Qed.

Lemma candidate_at_elem (report : list Z) (i j : nat) (b : Z) :
  In (j, b) (candidate_at report i) <->
  j = i /\ report !! i = Some b /\ 0 <= b <= 100.
Proof.
  unfold candidate_at. rewrite <- in_range_bounds.
  destruct (report !! i) as [c|] eqn:E; simpl.
  - destruct (in_range c) eqn:R; simpl.
    + split.
      * intros [H|[]]. inversion H; subst. auto.
      * intros (-> & H & _). inversion H; subst. auto.
    + split; [tauto|]. intros (_ & H & R'). inversion H; subst. congruence.
  - split; [tauto|]. intros (_ & H & _). discriminate.
Qed.

(** A position is collected exactly when it lies in 1..4, inside the
    report, and holds a percentage. *)
Lemma potential_battery_values_elem (report : list Z) (i : nat) (b : Z) :
  In (i, b) (potential_battery_values report) <->
  (1 <= i <= 4)%nat /\ report !! i = Some b /\ 0 <= b <= 100.
Proof.
  rewrite potential_battery_values_positions, !in_app_iff, !candidate_at_elem.
  split.
  - intros [H | [H | [H | H]]]; destruct H as (-> & ? & ?); repeat split; auto; lia.
  - intros ([H1 H4] & ? & ?).
    assert (i = 1 \/ i = 2 \/ i = 3 \/ i = 4)%nat as [-> | [-> | [-> | ->]]] by lia; tauto.
Qed.

Lemma no_potential_values (report : list Z) :
  (forall i b, (1 <= i <= 4)%nat -> report !! i = Some b -> ~ (0 <= b <= 100)) ->
  potential_battery_values report = [].
Proof.
  intros H. destruct (potential_battery_values report) as [|[i b] l] eqn:E; [reflexivity|].
  assert (In (i, b) (potential_battery_values report)) as Hin by (rewrite E; left; reflexivity).
  apply potential_battery_values_elem in Hin as (Hi & Hb & Hr).
  exfalso. exact (H i b Hi Hb Hr).
Qed.

Section Scan.

Variable e : environment.
Variable get : nat -> Z -> option (list Z).

(** The scan passes over silent answers. *)
Lemma scan_collect_silent (ids : list Z) (k : nat) (m : monitor) :
  (forall j id, ids !! j = Some id -> silent (get (k + j)%nat id)) ->
  scan_reports e (collect_valid_reports get k ids) m = (None, None, m).
Proof.
  revert k. induction ids as [|id ids IH]; intros k H; simpl; [reflexivity|].
  assert (forall j id', ids !! j = Some id' -> silent (get (S k + j)%nat id')) as Hrest.
  { intros j id' Hj. replace (S k + j)%nat with (k + S j)%nat by lia.
    apply H. exact Hj. }
  specialize (H 0%nat id eq_refl). rewrite Nat.add_0_r in H.
  destruct (get k id) as [report|]; simpl in H; [|auto].
  destruct (2 <? length report)%nat eqn:L; [|auto].
  apply Nat.ltb_lt in L. destruct H as [H|H]; [lia|].
  simpl. rewrite (no_potential_values _ H). auto.
Qed.

(** The first answer that is not silent decides the scan; the answers
    after it are not looked at. *)
Lemma scan_collect_first (ids : list Z) (k j : nat) (id : Z) (report : list Z)
    (m : monitor) :
  ids !! j = Some id ->
  get (k + j)%nat id = Some report ->
  (2 < length report)%nat ->
  potential_battery_values report <> [] ->
  (forall j' id', (j' < j)%nat -> ids !! j' = Some id' -> silent (get (k + j')%nat id')) ->
  scan_reports e (collect_valid_reports get k ids) m = scan_reports e [(id, report)] m.
Proof.
  revert k j. induction ids as [|id0 ids IH]; intros k j Hj Hget Hlen Hne Hbefore.
  - discriminate.
  - destruct j as [|j].
    + simpl in Hj. inversion Hj; subst id0. rewrite Nat.add_0_r in Hget.
      simpl. rewrite Hget. apply Nat.ltb_lt in Hlen. rewrite Hlen. simpl.
      destruct (potential_battery_values report) as [|[i b] [|[i' b'] l]];
        [congruence|reflexivity|reflexivity].
    + simpl in Hj.
      assert (scan_reports e (collect_valid_reports get (S k) ids) m
              = scan_reports e [(id, report)] m) as Hrest.
      { apply (IH (S k) j); auto.
        - replace (S k + j)%nat with (k + S j)%nat by lia. exact Hget.
        - intros j' id' Hlt Hj'. replace (S k + j')%nat with (k + S j')%nat by lia.
          apply Hbefore; [lia|exact Hj']. }
      specialize (Hbefore 0%nat id0 ltac:(lia) eq_refl). rewrite Nat.add_0_r in Hbefore.
      cbn [collect_valid_reports].
      destruct (get k id0) as [r0|]; simpl in Hbefore; [|exact Hrest].
      destruct (2 <? length r0)%nat eqn:L; [|exact Hrest].
      apply Nat.ltb_lt in L. destruct Hbefore as [Hb|Hb]; [lia|].
      cbn [scan_reports]. rewrite (no_potential_values _ Hb). exact Hrest.
Qed.

End Scan.

(** ** Saving *)

Lemma config_writable_sites (e : environment) :
  config_writable e = true -> forall site, config_write e site = Written.
Proof.
  unfold config_writable. intros H site.
  destruct (config_write e OnSelect) eqn:A, (config_write e OnLearn) eqn:B;
    try discriminate H; destruct site; assumption.
Qed.

Lemma save_config_file (e : environment) (site : save_site) (m : monitor) :
  config_file (save_config e site m)
  = after_save (config_write e site) (config m) (config_file m).
Proof. unfold save_config. destruct (config_write e site); reflexivity. Qed.

Lemma save_config_frame (e : environment) (site : save_site) (m : monitor) :
  let m' := save_config e site m in
  config m' = config m /\
  requests m' = requests m /\ battery_levels m' = battery_levels m /\
  log_file m' = log_file m /\ tooltips m' = tooltips m /\
  notifications m' = notifications m /\ running m' = running m /\
  icon m' = icon m /\ monitor_thread m' = monitor_thread m.
Proof.
  unfold save_config. destruct (config_write e site); simpl; repeat split; reflexivity.
Qed.

Lemma after_save_cases (o : write_outcome) (c : gmap string json)
    (f : config_file_state) :
  after_save o c f = f \/ after_save o c f = Unparseable \/ after_save o c f = Document c.
Proof. destruct o; simpl; auto. Qed.

(** ** What the resolver leaves alone *)

Lemma learn_frame (e : environment) (report_id : Z) (left_idx : nat)
    (right_idx : option nat) (m : monitor) :
  let m' := learn e report_id left_idx right_idx m in
  requests m' = requests m /\ battery_levels m' = battery_levels m /\
  log_file m' = log_file m /\ tooltips m' = tooltips m /\
  notifications m' = notifications m /\ running m' = running m /\
  icon m' = icon m /\ monitor_thread m' = monitor_thread m.
Proof.
  unfold learn, save_config.
  destruct (report_id_differs (config m) report_id), (config_write e OnLearn);
    simpl; repeat split; reflexivity.
Qed.

Lemma scan_reports_frame (e : environment) (valid_reports : list (Z * list Z))
    (m : monitor) :
  let m' := (scan_reports e valid_reports m).2 in
  requests m' = requests m /\ battery_levels m' = battery_levels m /\
  log_file m' = log_file m /\ tooltips m' = tooltips m /\
  notifications m' = notifications m /\ running m' = running m /\
  icon m' = icon m /\ monitor_thread m' = monitor_thread m.
Proof.
  induction valid_reports as [|[report_id report] rest IH]; simpl.
  - repeat split; reflexivity.
  - destruct (potential_battery_values report) as [|[i b] [|[i' b'] l]]; simpl.
    + exact IH.
    + apply learn_frame.
    + apply learn_frame.
Qed.

(** A scan that ends without a level found only silent answers and left
    the monitor as it was. *)
Lemma scan_collect_none (e : environment) (get : nat -> Z -> option (list Z))
    (ids : list Z) (k : nat) (m m' : monitor) :
  scan_reports e (collect_valid_reports get k ids) m = (None, None, m') ->
  m' = m /\ forall j id, ids !! j = Some id -> silent (get (k + j)%nat id).
Proof.
  revert k. induction ids as [|id0 ids IH]; intros k H.
  - simpl in H. inversion H. split; [reflexivity|]. intros j id Hj. discriminate.
  - cbn [collect_valid_reports] in H.
    assert (forall r0, get k id0 = r0 -> silent r0 ->
            scan_reports e (collect_valid_reports get (S k) ids) m = (None, None, m') ->
            m' = m /\ forall j id, (id0 :: ids) !! j = Some id -> silent (get (k + j)%nat id)) as Hstep.
    { intros r0 Hr0 Hs Hrest. destruct (IH _ Hrest) as [-> Hall]. split; [reflexivity|].
      intros [|j] id Hj; simpl in Hj.
      - inversion Hj; subst. rewrite Nat.add_0_r. exact Hs.
      - replace (k + S j)%nat with (S k + j)%nat by lia. apply Hall. exact Hj. }
    destruct (get k id0) as [report|] eqn:G.
    + destruct (2 <? length report)%nat eqn:L.
      * cbn [scan_reports] in H.
        destruct (potential_battery_values report) as [|[i b] [|[i' b'] l]] eqn:P;
          [|discriminate|discriminate].
        apply (Hstep _ eq_refl); [|exact H]. right. intros i b Hi Hb Hr.
        assert (In (i, b) (potential_battery_values report)) as Hin
          by (apply potential_battery_values_elem; auto).
        rewrite P in Hin. destruct Hin.
      * apply (Hstep _ eq_refl); [|exact H]. left. apply Nat.ltb_ge in L. exact L.
    + apply (Hstep _ eq_refl); [exact I|exact H].
Qed.

Lemma log_battery_levels_frame (e : environment) (m : monitor) :
  let m' := (log_battery_levels e m).2 in
  config m' = config m /\ config_file m' = config_file m /\
  requests m' = requests m /\ battery_levels m' = battery_levels m /\
  tooltips m' = tooltips m /\ notifications m' = notifications m /\
  running m' = running m /\ icon m' = icon m /\
  monitor_thread m' = monitor_thread m.
Proof.
  unfold log_battery_levels. destruct (log_writable e); simpl; repeat split; reflexivity.
Qed.

(** [read_battery_levels] stores what [resolve] found and writes the row. *)
Lemma read_battery_levels_state (e : environment) (m m1 : monitor)
    (l r : option Z) :
  resolve e m = (l, r, m1) ->
  (read_battery_levels e m).2 =
    (log_battery_levels e
       (set_battery_levels
          {| left_battery := l; right_battery := r; timestamp := Some (clock e) |} m1)).2.
Proof.
  intros H. unfold read_battery_levels. rewrite H.
  destruct (log_battery_levels e _) as [[u|x] m3]; reflexivity.
Qed.

Lemma read_battery_levels_reading (e : environment) (m m1 : monitor)
    (l r : option Z) :
  resolve e m = (l, r, m1) ->
  let m' := (read_battery_levels e m).2 in
  battery_levels m' =
    {| left_battery := l; right_battery := r; timestamp := Some (clock e) |} /\
  config m' = config m1 /\ config_file m' = config_file m1 /\
  requests m' = requests m1.
Proof.
  intros H. simpl. rewrite (read_battery_levels_state _ _ _ _ _ H).
  destruct (log_battery_levels_frame e
    (set_battery_levels
       {| left_battery := l; right_battery := r; timestamp := Some (clock e) |} m1))
    as (Hc & Hf & Hq & Hb & _).
  rewrite Hc, Hf, Hq, Hb. simpl. repeat split; reflexivity.
Qed.

(** In a closed example the probe answers are inspected one by one:
    [j] runs over the eight probe positions, and a report that was
    answered is silent because it is short or because each of its bytes
    in positions 1..4 is out of range. *)
Ltac each_position i Hb :=
  do 5 (try (destruct i as [|i];
             [first [lia | simpl in Hb; first [discriminate | inversion Hb; subst; lia]]|]));
  first [lia | simpl in Hb; discriminate].

Ltac silent_answer :=
  first [ exact I
        | left; simpl; lia
        | right; let i := fresh "i" in let b := fresh "b" in
                 let Hi := fresh "Hi" in let Hb := fresh "Hb" in
                 intros i b Hi Hb; each_position i Hb ].

Ltac each_probe j Hj :=
  do 8 (try (destruct j as [|j];
             [first [lia | inversion Hj; subst; silent_answer]|]));
  first [lia | discriminate].

(** ** The stored mapping *)

Lemma stored_value_hit (report : list Z) (i : nat) (b : Z) :
  report !! i = Some b -> 0 <= b <= 100 ->
  stored_value (JInt (Z.of_nat i)) report = Ok (Some b).
Proof.
  intros Hi Hb. unfold stored_value, py_index. simpl.
  apply lookup_lt_Some in Hi as Hlt.
  assert ((Z.of_nat i <? Z.of_nat (length report)) = true) as -> by (apply Z.ltb_lt; lia).
  assert ((0 <=? Z.of_nat i) = true) as -> by (apply Z.leb_le; lia).
  rewrite Nat2Z.id, Hi.
  apply in_range_bounds in Hb. rewrite Hb. reflexivity.
Qed.

Lemma resolve_after_silent_scan (e : environment) (m : monitor) :
  open_device e (config m) = true ->
  (forall j id, report_ids !! j = Some id -> silent (hid_get_feature_report e j id)) ->
  resolve e m =
    let '(l, r, asked) := read_stored (hid_get_feature_report e) 8 (config m) in
    (l, r, add_requests asked (add_requests report_ids m)).
Proof.
  intros Hopen Hsilent. unfold resolve. rewrite Hopen.
  rewrite (scan_collect_silent e (hid_get_feature_report e) report_ids 0%nat); [reflexivity|].
  intros j id Hj. simpl. apply Hsilent. exact Hj.
Qed.

(** C1, as the code has it: [read_battery_levels] always asks for the
    eight probe reports first. The report named by the stored [report_id]
    is asked for only afterwards, as a ninth request, and only when the scan
    found no level in any probe report; in that case, when the stored
    report holds percentages at the stored left and right indices, these
    two values are the levels returned. *)
Theorem C1_stored_mapping_is_fallback (e : environment) (m : monitor) :
  open_device e (config m) = true ->
  let get := hid_get_feature_report e in
  let m' := (read_battery_levels e m).2 in
  (exists asked,
      requests m' = (requests m ++ report_ids ++ asked)%list /\
      (asked <> [] -> forall j id, report_ids !! j = Some id -> silent (get j id))) /\
  ((forall j id, report_ids !! j = Some id -> silent (get j id)) ->
   forall (report_id : Z) (li ri : nat) (report : list Z) (l r : Z),
     config m !! "report_id" = Some (JInt report_id) ->
     config m !! "left_battery_index" = Some (JInt (Z.of_nat li)) ->
     config m !! "right_battery_index" = Some (JInt (Z.of_nat ri)) ->
     get 8%nat report_id = Some report ->
     report !! li = Some l -> 0 <= l <= 100 ->
     report !! ri = Some r -> 0 <= r <= 100 ->
     left_battery (battery_levels m') = Some l /\
     right_battery (battery_levels m') = Some r /\
     requests m' = (requests m ++ report_ids ++ [report_id])%list).
Proof.
  intros Hopen get m'. split.
  - destruct (resolve e m) as [[l r] m1] eqn:R.
    destruct (read_battery_levels_reading e m m1 l r R) as (_ & _ & _ & Hq).
    subst m'. rewrite Hq. clear Hq.
    unfold resolve in R. rewrite Hopen in R.
    destruct (scan_reports e _ (add_requests report_ids m)) as [[l0 r0] m0] eqn:S.
    pose proof (scan_reports_frame e
      (collect_valid_reports (hid_get_feature_report e) 0 report_ids)
      (add_requests report_ids m)) as F.
    rewrite S in F. simpl in F. destruct F as (Hq0 & _).
    destruct l0 as [l0|]; [|destruct r0 as [r0|]].
    + inversion R; subst. exists []. rewrite Hq0, app_nil_r. split; [reflexivity|congruence].
    + inversion R; subst. exists []. rewrite Hq0, app_nil_r. split; [reflexivity|congruence].
    + destruct (read_stored _ _ (config m0)) as [[l' r'] asked] eqn:T.
      inversion R; subst. exists asked. simpl. rewrite Hq0, <- app_assoc.
      split; [reflexivity|]. intros _.
      apply scan_collect_none in S as [_ Hall]. exact Hall.
  - intros Hsilent report_id li ri report l r Hid Hli Hri Hget Hl Hlr Hr Hrr.
    pose proof (resolve_after_silent_scan e m Hopen Hsilent) as R.
    unfold read_stored in R. rewrite Hid in R. simpl in R.
    fold get in R. rewrite Hget, Hli, Hri in R.
    rewrite (stored_value_hit _ _ _ Hl Hlr), (stored_value_hit _ _ _ Hr Hrr) in R.
    destruct (read_battery_levels_reading e m _ _ _ R) as (Hb & _ & _ & Hq).
    subst m'. rewrite Hb, Hq. simpl. rewrite <- app_assoc. auto.
Qed.

Lemma C1_witness :
  let e := world [keyboard] true [(9, [9; 70; 80])] in
  let m := learned 9 1 (Some 2%nat) in
  let m' := (read_battery_levels e m).2 in
  left_battery (battery_levels m') = Some 70 /\
  right_battery (battery_levels m') = Some 80 /\
  requests m' = [1; 2; 3; 4; 5; 6; 7; 8; 9].
Proof.
  intros e m.
  assert (forall j id, report_ids !! j = Some id ->
                       silent (hid_get_feature_report e j id)) as Hsilent.
  { intros j id Hj. each_probe j Hj. }
  refine (proj2 (C1_stored_mapping_is_fallback e m _) Hsilent 9 1%nat 2%nat [9; 70; 80] 70 80
            _ _ _ _ _ _ _ _);
    try (vm_compute; reflexivity); try lia.
Defined.

(** C1 as stated fails.  Let the monitor learn, in a first cycle, the
    mapping to report 2 with the levels at offsets 1 and 2.  In the next
    cycle the stored report still holds 70 and 80 at these offsets, yet the
    code asks for all eight probe reports again; and once report 1 answers
    with percentages of its own, the levels returned are those of report 1
    and not the ones at the stored offsets of the stored report. *)
Lemma C1_counterexample :
  let first := world [keyboard] true [(2, [2; 70; 80; 0; 0])] in
  let m := (read_battery_levels first paired).2 in
  let e := world [keyboard] true [(1, [1; 50; 60; 0; 0]); (2, [2; 70; 80; 0; 0])] in
  let m' := (read_battery_levels e m).2 in
  open_device e (config m) = true /\
  config m !! "report_id" = Some (JInt 2) /\
  config m !! "left_battery_index" = Some (JInt 1) /\
  config m !! "right_battery_index" = Some (JInt 2) /\
  (forall k, hid_get_feature_report e k 2 = Some [2; 70; 80; 0; 0]) /\
  requests (read_battery_levels first m).2 = (requests m ++ [1; 2; 3; 4; 5; 6; 7; 8])%list /\
  left_battery (battery_levels m') = Some 50 /\
  right_battery (battery_levels m') = Some 60 /\
  requests m' = (requests m ++ [1; 2; 3; 4; 5; 6; 7; 8])%list /\
  ~ (left_battery (battery_levels m') = Some 70 /\
     right_battery (battery_levels m') = Some 80 /\
     requests m' = (requests m ++ [2])%list).
Proof.
  cbv zeta.
  assert (left_battery (battery_levels (read_battery_levels
            (world [keyboard] true [(1, [1; 50; 60; 0; 0]); (2, [2; 70; 80; 0; 0])])
            (read_battery_levels (world [keyboard] true [(2, [2; 70; 80; 0; 0])])
               paired).2).2) = Some 50) as Hl by (vm_compute; reflexivity).
  repeat split; try (vm_compute; reflexivity).
  intros (H & _). rewrite Hl in H. discriminate.
Qed.

(** ** The scan of one report *)

Lemma candidate_at_hit (report : list Z) (i : nat) (b : Z) :
  report !! i = Some b -> 0 <= b <= 100 -> candidate_at report i = [(i, b)].
Proof.
  intros Hi Hb. unfold candidate_at. rewrite Hi.
  apply in_range_bounds in Hb. rewrite Hb. reflexivity.
Qed.

Lemma candidate_at_miss (report : list Z) (i : nat) :
  (forall b, report !! i = Some b -> ~ (0 <= b <= 100)) -> candidate_at report i = [].
Proof.
  intros H. unfold candidate_at. destruct (report !! i) as [b|]; [|reflexivity].
  destruct (in_range b) eqn:R; [|reflexivity].
  apply in_range_bounds in R. destruct (H b eq_refl R).
Qed.

Lemma potential_battery_values_seq (report : list Z) :
  potential_battery_values report = flat_map (candidate_at report) (seq 1 4).
Proof. rewrite potential_battery_values_positions. simpl. rewrite app_nil_r. reflexivity. Qed.

(** Positions that hold no percentage contribute nothing. *)
Lemma candidates_skip (report : list Z) (n a k : nat) :
  (forall i b, (a <= i < a + n)%nat -> report !! i = Some b -> ~ (0 <= b <= 100)) ->
  flat_map (candidate_at report) (seq a (n + k)) =
    flat_map (candidate_at report) (seq (a + n) k).
Proof.
  revert a. induction n as [|n IH]; intros a H; simpl.
  - rewrite Nat.add_0_r. reflexivity.
  - rewrite candidate_at_miss by (intros b; apply H; lia). simpl.
    rewrite IH by (intros i b Hi; apply H; lia).
    replace (S a + n)%nat with (a + S n)%nat by lia. reflexivity.
Qed.

(** The next collected pair after position [a] is the next position that
    holds a percentage. *)
Lemma candidates_next (report : list Z) (a p last : nat) (l : Z) :
  (a <= p <= last)%nat -> report !! p = Some l -> 0 <= l <= 100 ->
  (forall i b, (a <= i < p)%nat -> report !! i = Some b -> ~ (0 <= b <= 100)) ->
  flat_map (candidate_at report) (seq a (S last - a)) =
    (p, l) :: flat_map (candidate_at report) (seq (S p) (S last - S p)).
Proof.
  intros Hp Hl Hlr Hbefore.
  replace (S last - a)%nat with ((p - a) + S (last - p))%nat by lia.
  rewrite candidates_skip by (intros i b Hi; apply Hbefore; lia).
  replace (a + (p - a))%nat with p by lia. simpl.
  rewrite (candidate_at_hit _ _ _ Hl Hlr). simpl.
  replace (last - p)%nat with (S last - S p)%nat by lia. reflexivity.
Qed.

Lemma candidates_none (report : list Z) (a last : nat) :
  (forall i b, (a <= i <= last)%nat -> report !! i = Some b -> ~ (0 <= b <= 100)) ->
  flat_map (candidate_at report) (seq a (S last - a)) = [].
Proof.
  intros H. replace (S last - a)%nat with ((S last - a) + 0)%nat by lia.
  rewrite candidates_skip by (intros i b Hi; apply H; lia). reflexivity.
Qed.

(** The mapping that [store_mapping] writes *)
Lemma store_mapping_lookup (report_id : Z) (left_idx : nat) (right_idx : option nat)
    (c : gmap string json) :
  store_mapping report_id left_idx right_idx c !! "report_id" = Some (JInt report_id) /\
  store_mapping report_id left_idx right_idx c !! "left_battery_index"
    = Some (JInt (Z.of_nat left_idx)) /\
  store_mapping report_id left_idx right_idx c !! "right_battery_index"
    = Some (match right_idx with Some i => JInt (Z.of_nat i) | None => JNull end).
Proof.
  unfold store_mapping. repeat split.
  - rewrite !lookup_insert_ne by done. apply lookup_insert_eq.
  - rewrite lookup_insert_ne by done. apply lookup_insert_eq.
  - apply lookup_insert_eq.
Qed.

Lemma learn_config (e : environment) (report_id : Z) (left_idx : nat)
    (right_idx : option nat) (m : monitor) :
  let m' := learn e report_id left_idx right_idx m in
  (report_id_differs (config m) report_id = true ->
     config m' = store_mapping report_id left_idx right_idx (config m) /\
     (config_writable e = true -> config_file m' = Document (config m'))) /\
  (report_id_differs (config m) report_id = false -> m' = m).
Proof.
  unfold learn, save_config.
  destruct (report_id_differs (config m) report_id); simpl.
  - split; [|discriminate]. intros _.
    split; [destruct (config_write e OnLearn); reflexivity|].
    intros W. rewrite (config_writable_sites e W). reflexivity.
  - split; [discriminate|reflexivity].
Qed.

(** When the [j]-th probe answer is the first that is not silent, the
    resolver acts on that report alone and asks for nothing else. *)
Lemma resolve_first_answer (e : environment) (m : monitor) (j : nat)
    (report_id : Z) (report : list Z) (c : nat * Z) (cs : list (nat * Z)) :
  open_device e (config m) = true ->
  report_ids !! j = Some report_id ->
  hid_get_feature_report e j report_id = Some report ->
  (2 < length report)%nat ->
  (forall j' id', (j' < j)%nat -> report_ids !! j' = Some id' ->
                  silent (hid_get_feature_report e j' id')) ->
  potential_battery_values report = c :: cs ->
  resolve e m = scan_reports e [(report_id, report)] (add_requests report_ids m).
Proof.
  intros Hopen Hj Hget Hlen Hbefore Hpot. unfold resolve. rewrite Hopen.
  rewrite (scan_collect_first e (hid_get_feature_report e) report_ids 0%nat j
             report_id report); auto; [|congruence].
  simpl. rewrite Hpot. destruct c as [i b], cs as [|[i' b'] cs']; reflexivity.
Qed.

(** C2, as the code has it: let a probe report longer than two bytes be
    the first answer the scan does not pass over, and let [p < q] be the
    first two positions in 1..4 that hold a percentage.  Then left is the
    byte at [p] and right the byte at [q].  The report id and the two
    offsets are written to the configuration, and saved, when the stored
    [report_id] differs from this report's id; when it is the same id the
    configuration and its file stay as they are. *)
Theorem C2_first_two_positions (e : environment) (m : monitor) (j : nat)
    (report_id : Z) (report : list Z) (p q : nat) (l r : Z) :
  open_device e (config m) = true ->
  report_ids !! j = Some report_id ->
  hid_get_feature_report e j report_id = Some report ->
  (2 < length report)%nat ->
  (forall j' id', (j' < j)%nat -> report_ids !! j' = Some id' ->
                  silent (hid_get_feature_report e j' id')) ->
  (1 <= p < q)%nat -> (q <= 4)%nat ->
  report !! p = Some l -> 0 <= l <= 100 ->
  report !! q = Some r -> 0 <= r <= 100 ->
  (forall i b, (1 <= i < q)%nat -> i <> p -> report !! i = Some b -> ~ (0 <= b <= 100)) ->
  let m' := (read_battery_levels e m).2 in
  left_battery (battery_levels m') = Some l /\
  right_battery (battery_levels m') = Some r /\
  (report_id_differs (config m) report_id = true ->
     config m' !! "report_id" = Some (JInt report_id) /\
     config m' !! "left_battery_index" = Some (JInt (Z.of_nat p)) /\
     config m' !! "right_battery_index" = Some (JInt (Z.of_nat q)) /\
     (config_writable e = true -> config_file m' = Document (config m'))) /\
  (report_id_differs (config m) report_id = false ->
     config m' = config m /\ config_file m' = config_file m).
Proof.
  intros Hopen Hj Hget Hlen Hbefore Hpq Hq Hl Hlr Hr Hrr Hothers m'.
  assert (exists rest, potential_battery_values report = (p, l) :: (q, r) :: rest)
    as [rest Hpot].
  { rewrite potential_battery_values_seq.
    change (seq 1 4) with (seq 1 (5 - 1)).
    rewrite (candidates_next report 1 p 4 l) by
      (auto; try lia; intros i b Hi; apply Hothers; lia).
    rewrite (candidates_next report (S p) q 4 r) by
      (auto; try lia; intros i b Hi; apply Hothers; lia).
    eauto. }
  pose proof (resolve_first_answer e m j report_id report _ _
                Hopen Hj Hget Hlen Hbefore Hpot) as R.
  simpl in R. rewrite Hpot in R.
  destruct (read_battery_levels_reading e m _ _ _ R) as (Hb & Hc & Hf & _).
  subst m'. rewrite Hb, Hc, Hf. simpl.
  destruct (learn_config e report_id p (Some q) (add_requests report_ids m)) as [Hd Hs].
  simpl in Hd, Hs. split; [reflexivity|]. split; [reflexivity|]. split.
  - intros D. destruct (Hd D) as [Hcfg Hfile]. rewrite Hcfg.
    destruct (store_mapping_lookup report_id p (Some q) (config m)) as (H1 & H2 & H3).
    rewrite H1, H2, H3. repeat split; auto.
    intros W. rewrite (Hfile W), Hcfg. reflexivity.
  - intros D. rewrite (Hs D). simpl. auto.
Qed.

Lemma C2_witness :
  let e := world [keyboard] true [(1, [1; 1]); (2, [2; 200; 75; 255; 60; 9])] in
  let m' := (read_battery_levels e paired).2 in
  left_battery (battery_levels m') = Some 75 /\
  right_battery (battery_levels m') = Some 60 /\
  config m' !! "report_id" = Some (JInt 2) /\
  config m' !! "left_battery_index" = Some (JInt 2) /\
  config m' !! "right_battery_index" = Some (JInt 4) /\
  config_file m' = Document (config m').
Proof.
  intros e.
  assert (open_device e (config paired) = true) as Hopen by (vm_compute; reflexivity).
  assert (forall j' id', (j' < 1)%nat -> report_ids !! j' = Some id' ->
                         silent (hid_get_feature_report e j' id')) as Hbefore
    by (intros j' id' Hlt Hj'; each_probe j' Hj').
  assert (forall i b, (1 <= i < 4)%nat -> i <> 2%nat ->
                      [2; 200; 75; 255; 60; 9] !! i = Some b -> ~ (0 <= b <= 100)) as Hothers
    by (intros i b Hi Hne Hb; each_position i Hb).
  destruct (C2_first_two_positions e paired 1%nat 2 [2; 200; 75; 255; 60; 9] 2%nat 4%nat 75 60
              Hopen eq_refl eq_refl ltac:(simpl; lia) Hbefore ltac:(lia) ltac:(lia)
              eq_refl ltac:(lia) eq_refl ltac:(lia) Hothers)
    as (Hl & Hr & Hnew & _).
  destruct Hnew as (H1 & H2 & H3 & H4); [vm_compute; reflexivity|].
  repeat split; auto.
Defined.

(** C2 as stated fails in two ways.  A pair embedded at two scanned
    offsets is not recovered when an earlier scanned byte is itself a
    percentage: in the report 1, 0, 75, 60, 0 the pair (75, 60) sits at
    offsets 2 and 3, and the code returns (0, 75) with offsets 1 and 2.
    And the offsets are not recorded when the stored report id is already
    this report's id: after offsets 3 and 4 were learned for report 1, the
    report 1, 75, 60, 0, 0 gives (75, 60) and leaves 3 and 4 stored. *)
Lemma C2_counterexample :
  let e1 := world [keyboard] true [(1, [1; 0; 75; 60; 0])] in
  let m1 := (read_battery_levels e1 paired).2 in
  let e0 := world [keyboard] true [(1, [1; 200; 200; 75; 60])] in
  let e2 := world [keyboard] true [(1, [1; 75; 60; 0; 0])] in
  let m0 := (read_battery_levels e0 paired).2 in
  let m2 := (read_battery_levels e2 m0).2 in
  (left_battery (battery_levels m1) = Some 0 /\
   right_battery (battery_levels m1) = Some 75 /\
   config m1 !! "left_battery_index" = Some (JInt 1) /\
   config m1 !! "right_battery_index" = Some (JInt 2) /\
   ~ (left_battery (battery_levels m1) = Some 75 /\
      right_battery (battery_levels m1) = Some 60)) /\
  (left_battery (battery_levels m2) = Some 75 /\
   right_battery (battery_levels m2) = Some 60 /\
   config m2 !! "report_id" = Some (JInt 1) /\
   config m2 !! "left_battery_index" = Some (JInt 3) /\
   config m2 !! "right_battery_index" = Some (JInt 4) /\
   ~ (config m2 !! "left_battery_index" = Some (JInt 1) /\
      config m2 !! "right_battery_index" = Some (JInt 2))).
Proof.
  cbv zeta. split.
  - assert (left_battery (battery_levels (read_battery_levels
              (world [keyboard] true [(1, [1; 0; 75; 60; 0])]) paired).2) = Some 0) as Hl
      by (vm_compute; reflexivity).
    repeat split; try (vm_compute; reflexivity).
    intros [H _]. rewrite Hl in H. discriminate.
  - assert (config (read_battery_levels (world [keyboard] true [(1, [1; 75; 60; 0; 0])])
              (read_battery_levels (world [keyboard] true [(1, [1; 200; 200; 75; 60])])
                 paired).2).2 !! "left_battery_index" = Some (JInt 3)) as Hl
      by (vm_compute; reflexivity).
    repeat split; try (vm_compute; reflexivity).
    intros [H _]. rewrite Hl in H. discriminate.
Qed.

(** C3, as the code has it: all eight probes are made, and the first
    probe report, in the order 1..8, that is longer than two bytes and
    holds a percentage in positions 1..4 decides the reading,
    whatever the later reports hold: left is the byte at its first such
    position, right, if present, is a percentage at a later position of the
    same report, no report is asked for beyond the eight probes, and the
    mapping written (when the stored report id differs) names this report.
    When that position is the only one, right is absent and the stored
    right index is cleared. *)
Theorem C3_first_report_wins (e : environment) (m : monitor) (j : nat)
    (report_id : Z) (report : list Z) (p : nat) (l : Z) :
  open_device e (config m) = true ->
  report_ids !! j = Some report_id ->
  hid_get_feature_report e j report_id = Some report ->
  (2 < length report)%nat ->
  (forall j' id', (j' < j)%nat -> report_ids !! j' = Some id' ->
                  silent (hid_get_feature_report e j' id')) ->
  (1 <= p <= 4)%nat ->
  report !! p = Some l -> 0 <= l <= 100 ->
  (forall i b, (1 <= i < p)%nat -> report !! i = Some b -> ~ (0 <= b <= 100)) ->
  let m' := (read_battery_levels e m).2 in
  left_battery (battery_levels m') = Some l /\
  requests m' = (requests m ++ report_ids)%list /\
  (report_id_differs (config m) report_id = true ->
     config m' !! "report_id" = Some (JInt report_id) /\
     config m' !! "left_battery_index" = Some (JInt (Z.of_nat p))) /\
  (forall rv, right_battery (battery_levels m') = Some rv ->
              exists q, (p < q <= 4)%nat /\ report !! q = Some rv /\ 0 <= rv <= 100) /\
  ((forall i b, (p < i <= 4)%nat -> report !! i = Some b -> ~ (0 <= b <= 100)) ->
     right_battery (battery_levels m') = None /\
     (report_id_differs (config m) report_id = true ->
        config m' !! "right_battery_index" = Some JNull)).
Proof.
  intros Hopen Hj Hget Hlen Hbefore Hp Hl Hlr Hfirst m'.
  assert (potential_battery_values report =
            (p, l) :: flat_map (candidate_at report) (seq (S p) (5 - S p))) as Hpot.
  { rewrite potential_battery_values_seq. change (seq 1 4) with (seq 1 (5 - 1)).
    apply candidates_next; auto. }
  pose proof (resolve_first_answer e m j report_id report _ _
                Hopen Hj Hget Hlen Hbefore Hpot) as R.
  simpl in R. rewrite Hpot in R.
  destruct (flat_map (candidate_at report) (seq (S p) (5 - S p))) as [|[q r] rest] eqn:T.
  - destruct (read_battery_levels_reading e m _ _ _ R) as (Hb & Hc & _ & Hq).
    subst m'. rewrite Hb, Hc, Hq. simpl.
    destruct (learn_frame e report_id p None (add_requests report_ids m)) as (Hrq & _).
    destruct (learn_config e report_id p None (add_requests report_ids m)) as [Hd _].
    simpl in Hrq, Hd. rewrite Hrq.
    destruct (store_mapping_lookup report_id p None (config m)) as (H1 & H2 & H3).
    split; [reflexivity|]. split; [reflexivity|]. split; [|split].
    + intros D. destruct (Hd D) as [-> _]. auto.
    + intros rv Hrv. discriminate.
    + intros _. split; [reflexivity|]. intros D. destruct (Hd D) as [-> _]. exact H3.
  - destruct (read_battery_levels_reading e m _ _ _ R) as (Hb & Hc & _ & Hq).
    subst m'. rewrite Hb, Hc, Hq. simpl.
    destruct (learn_frame e report_id p (Some q) (add_requests report_ids m)) as (Hrq & _).
    destruct (learn_config e report_id p (Some q) (add_requests report_ids m)) as [Hd _].
    simpl in Hrq, Hd. rewrite Hrq.
    destruct (store_mapping_lookup report_id p (Some q) (config m)) as (H1 & H2 & _).
    split; [reflexivity|]. split; [reflexivity|]. split; [|split].
    + intros D. destruct (Hd D) as [-> _]. auto.
    + intros rv Hrv. inversion Hrv; subst rv. exists q.
      assert (In (q, r) (flat_map (candidate_at report) (seq (S p) (5 - S p)))) as Hin
        by (rewrite T; left; reflexivity).
      apply in_flat_map in Hin as (i & Hi & Hcand).
      apply candidate_at_elem in Hcand as (-> & Hbyte & Hrange).
      apply in_seq in Hi. repeat split; auto; lia.
    + intros Hafter. rewrite candidates_none in T; [discriminate|].
      intros i b Hi. apply Hafter. lia.
Qed.

Lemma C3_witness :
  let e := world [keyboard] true
             [(1, [1; 200; 255]); (2, [2; 150; 42; 200; 200]); (3, [3; 1; 2; 3; 4])] in
  let m' := (read_battery_levels e paired).2 in
  left_battery (battery_levels m') = Some 42 /\
  right_battery (battery_levels m') = None /\
  requests m' = [1; 2; 3; 4; 5; 6; 7; 8] /\
  config m' !! "report_id" = Some (JInt 2) /\
  config m' !! "left_battery_index" = Some (JInt 2) /\
  config m' !! "right_battery_index" = Some JNull.
Proof.
  intros e.
  assert (open_device e (config paired) = true) as Hopen by (vm_compute; reflexivity).
  assert (report_id_differs (config paired) 2 = true) as Hnew by (vm_compute; reflexivity).
  assert (forall j' id', (j' < 1)%nat -> report_ids !! j' = Some id' ->
                         silent (hid_get_feature_report e j' id')) as Hbefore
    by (intros j' id' Hlt Hj'; each_probe j' Hj').
  assert (forall i b, (1 <= i < 2)%nat ->
                      [2; 150; 42; 200; 200] !! i = Some b -> ~ (0 <= b <= 100)) as Hfirst
    by (intros i b Hi Hb; each_position i Hb).
  assert (forall i b, (2 < i <= 4)%nat ->
                      [2; 150; 42; 200; 200] !! i = Some b -> ~ (0 <= b <= 100)) as Hlast
    by (intros i b Hi Hb; each_position i Hb).
  destruct (C3_first_report_wins e paired 1%nat 2 [2; 150; 42; 200; 200] 2%nat 42
              Hopen eq_refl eq_refl ltac:(simpl; lia) Hbefore ltac:(lia)
              eq_refl ltac:(lia) Hfirst)
    as (Hl & Hq & Hid & _ & Hone).
  destruct (Hid Hnew) as (H1 & H2). destruct (Hone Hlast) as (Hr & H3).
  repeat split; auto.
Defined.

(** C3 as stated fails when the first answer that holds a percentage is
    only two bytes long: report 1 answers with its id and the level 50, so
    by the claim it wins with left 50 and right absent; the code drops it
    ([len(report) > 2] is false) and report 2 decides the reading. *)
Lemma C3_counterexample :
  let e := world [keyboard] true [(1, [1; 50]); (2, [2; 70; 80])] in
  let m' := (read_battery_levels e paired).2 in
  report_ids !! 0%nat = Some 1 /\
  hid_get_feature_report e 0%nat 1 = Some [1; 50] /\
  potential_battery_values [1; 50] = [(1%nat, 50)] /\
  left_battery (battery_levels m') = Some 70 /\
  right_battery (battery_levels m') = Some 80 /\
  config m' !! "report_id" = Some (JInt 2) /\
  ~ (left_battery (battery_levels m') = Some 50 /\
     right_battery (battery_levels m') = None).
Proof.
  cbv zeta.
  assert (battery_levels
            (read_battery_levels
               (world [keyboard] true [(1, [1; 50]); (2, [2; 70; 80])]) paired).2
          = {| left_battery := Some 70; right_battery := Some 80;
               timestamp := Some "2025-03-01 12:00:00" |}) as B
    by (vm_compute; reflexivity).
  rewrite B. cbn [left_battery right_battery].
  split; [reflexivity|]. split; [reflexivity|]. split; [reflexivity|].
  split; [reflexivity|]. split; [reflexivity|]. split; [vm_compute; reflexivity|].
  intros [H _]. discriminate H.
Qed.

(** ** One cycle *)

Lemma find_keyboard_frame (e : environment) (m : monitor) :
  let m' := (find_keyboard e m).2 in
  battery_levels m' = battery_levels m /\ log_file m' = log_file m /\
  tooltips m' = tooltips m /\ notifications m' = notifications m /\
  requests m' = requests m /\ icon m' = icon m /\ running m' = running m.
Proof.
  unfold find_keyboard, save_config.
  destruct (hid_enumerate e) as [devices|x]; simpl; [|repeat split; reflexivity].
  destruct (configured_ids (config m)) as [ids|x]; simpl; [|repeat split; reflexivity].
  destruct (configured_present ids devices); simpl; [repeat split; reflexivity|].
  destruct (List.filter (is_candidate e) devices) as [|device rest]; simpl;
    [repeat split; reflexivity|].
  destruct (config_write e OnSelect); simpl; repeat split; reflexivity.
Qed.

Lemma resolve_frame (e : environment) (m : monitor) :
  let m' := (resolve e m).2 in
  battery_levels m' = battery_levels m /\ log_file m' = log_file m /\
  tooltips m' = tooltips m /\ notifications m' = notifications m /\
  icon m' = icon m /\ running m' = running m.
Proof.
  unfold resolve. destruct (open_device e (config m)); [|simpl; repeat split; reflexivity].
  pose proof (scan_reports_frame e
    (collect_valid_reports (hid_get_feature_report e) 0 report_ids)
    (add_requests report_ids m)) as F.
  destruct (scan_reports e _ (add_requests report_ids m)) as [[l r] m1].
  simpl in F. destruct F as (_ & Hb & Hl & Ht & Hn & Hr & Hi & _).
  assert (battery_levels m1 = battery_levels m /\ log_file m1 = log_file m /\
          tooltips m1 = tooltips m /\ notifications m1 = notifications m /\
          icon m1 = icon m /\ running m1 = running m) as Hm1
    by (repeat split; assumption).
  destruct l as [l|]; [exact Hm1|]. destruct r as [r|]; [exact Hm1|].
  destruct (read_stored _ _ (config m1)) as [[l' r'] asked]. simpl. exact Hm1.
Qed.

(** A cycle in which [find_keyboard] does not return [True] leaves the
    reading, the series and the user interface alone. *)
Lemma cycle_without_keyboard (e : environment) (m : monitor) :
  (find_keyboard e m).1 <> Ok true ->
  cycle e m = (find_keyboard e m).2.
Proof.
  intros H. unfold cycle, cycle_body.
  destruct (find_keyboard e m) as [[[|]|x] m1]; simpl in *; congruence.
Qed.

Lemma notify_critical_frame (m : monitor) :
  let m' := (notify_critical m).2 in
  config m' = config m /\ config_file m' = config_file m /\
  battery_levels m' = battery_levels m /\ log_file m' = log_file m /\
  tooltips m' = tooltips m /\ requests m' = requests m /\
  running m' = running m /\ icon m' = icon m.
Proof.
  unfold notify_critical.
  destruct (left_battery (battery_levels m)) as [l|],
           (right_battery (battery_levels m)) as [r|]; simpl;
    repeat match goal with
           | |- context [at_most ?n ?c ?k] => destruct (at_most n c k) as [[|]|x]; simpl
           end;
    repeat split; reflexivity.
Qed.

Lemma update_tray_frame (e : environment) (m : monitor) :
  let m' := (update_tray e m).2 in
  config m' = config m /\ config_file m' = config_file m /\
  battery_levels m' = battery_levels m /\ log_file m' = log_file m /\
  requests m' = requests m /\ running m' = running m /\ icon m' = icon m.
Proof.
  unfold update_tray.
  destruct (generate_tray_icon e m) as [img|x]; simpl; [|repeat split; reflexivity].
  destruct (notify_critical_frame (add_tooltip (tooltip_of (battery_levels m)) m))
    as (H1 & H2 & H3 & H4 & _ & H6 & H7 & H8).
  simpl in *. repeat split; assumption.
Qed.


(** The cycle once a keyboard is found: the reading is stored, the row is
    written, and the tray is updated when it is active. *)
Lemma cycle_with_keyboard (e : environment) (m m1 m2 : monitor) (l r : option Z) :
  find_keyboard e m = (Ok true, m1) ->
  resolve e m1 = (l, r, m2) ->
  let b := {| left_battery := l; right_battery := r; timestamp := Some (clock e) |} in
  let m3 := set_log_file
              (Some (match log_file m2 with Some text => text | None => header end
                     +:+ row b)) (set_battery_levels b m2) in
  cycle e m =
    if log_writable e
    then (if icon m2 then (update_tray e m3).2 else m3)
    else set_battery_levels b m2.
Proof.
  intros F R b m3. unfold cycle, cycle_body. rewrite F.
  unfold read_battery_levels. rewrite R. unfold log_battery_levels.
  destruct (log_writable e); [|reflexivity].
  cbn [fst snd icon set_log_file set_battery_levels]. destruct (icon m2); reflexivity.
Qed.




(** ** Device locator *)

Lemma prefix_occurs (s1 s2 : string) :
  String.prefix s1 s2 = true <-> exists after, s2 = s1 +:+ after.
Proof.
  revert s2. induction s1 as [|a s1 IH]; intros s2.
  - destruct s2; simpl; split; eauto.
  - destruct s2 as [|b s2]; simpl.
    + split; [discriminate|]. intros [after H]. discriminate.
    + destruct (ascii_dec a b) as [->|Hne].
      * rewrite IH. split; intros [after H]; exists after; [rewrite H; reflexivity|].
        inversion H. reflexivity.
      * split; [discriminate|]. intros [after H]. inversion H. congruence.
Qed.

Lemma contains_unfold (needle hay : string) :
  contains needle hay =
    if String.prefix needle hay then true
    else match hay with
         | EmptyString => false
         | String _ hay' => contains needle hay'
         end.
Proof. destruct hay; reflexivity. Qed.

(** [contains] decides occurrence as a substring. *)
Lemma contains_occurs (needle hay : string) :
  contains needle hay = true <-> occurs_in needle hay.
Proof.
  unfold occurs_in. split.
  - induction hay as [|c hay IH]; rewrite contains_unfold;
      destruct (String.prefix needle _) eqn:P.
    + intros _. apply prefix_occurs in P as [after H]. exists EmptyString, after. exact H.
    + discriminate.
    + intros _. apply prefix_occurs in P as [after H]. exists EmptyString, after. exact H.
    + intros H. destruct (IH H) as (before & after & ->).
      exists (String c before), after. reflexivity.
  - intros (before & after & ->). induction before as [|c before IH].
    + rewrite contains_unfold.
      assert (String.prefix needle (EmptyString +:+ needle +:+ after) = true) as ->
        by (apply prefix_occurs; exists after; reflexivity).
      reflexivity.
    + rewrite contains_unfold. destruct (String.prefix needle _); [reflexivity|].
      exact IH.
Qed.

Lemma is_candidate_looks_like_zmk (e : environment) (device : hid_info) :
  is_candidate e device = true <-> looks_like_zmk e device.
Proof.
  unfold is_candidate, looks_like_zmk.
  rewrite !orb_true_iff, !contains_occurs. tauto.
Qed.

Lemma filter_first_candidate (e : environment) (before after : list hid_info)
    (device : hid_info) :
  (forall d, In d before -> ~ looks_like_zmk e d) ->
  looks_like_zmk e device ->
  exists rest, List.filter (is_candidate e) (before ++ device :: after) = device :: rest.
Proof.
  intros Hbefore Hdev. induction before as [|d before IH]; simpl.
  - apply is_candidate_looks_like_zmk in Hdev. rewrite Hdev. eauto.
  - destruct (is_candidate e d) eqn:C.
    + apply is_candidate_looks_like_zmk in C. destruct (Hbefore d (or_introl eq_refl) C).
    + apply IH. intros d' Hd'. apply Hbefore. right. exact Hd'.
Qed.

Lemma filter_no_candidate (e : environment) (devices : list hid_info) :
  (forall d, In d devices -> ~ looks_like_zmk e d) ->
  List.filter (is_candidate e) devices = [].
Proof.
  intros H. induction devices as [|d devices IH]; simpl; [reflexivity|].
  destruct (is_candidate e d) eqn:C.
  - apply is_candidate_looks_like_zmk in C. destruct (H d (or_introl eq_refl) C).
  - apply IH. intros d' Hd'. apply H. right. exact Hd'.
Qed.

(** C6, as the code has it: when no device identifiers are configured, or
    no enumerated device carries the configured pair, [find_keyboard]
    selects the first device, in enumeration order, whose lower-cased
    product string contains "keyboard" or "zmk" or whose lower-cased
    manufacturer string contains "zmk"; the lowering is [str.lower] of
    the runtime, whatever it does to letters outside ASCII.  It then writes that device's
    vendor and product identifiers and the name "manufacturer product"
    into the configuration, leaves the other keys alone and saves the
    configuration.  When no device qualifies it returns [False] and
    changes nothing. *)
Theorem C6_heuristic_selection (e : environment) (m : monitor)
    (devices : list hid_info) (ids : option (json * json)) :
  hid_enumerate e = Ok devices ->
  configured_ids (config m) = Ok ids ->
  configured_present ids devices = false ->
  let found := (find_keyboard e m).1 in
  let m' := (find_keyboard e m).2 in
  (forall before device after,
     devices = (before ++ device :: after)%list ->
     (forall d, In d before -> ~ looks_like_zmk e d) ->
     looks_like_zmk e device ->
     found = Ok true /\
     config m' !! "vendor_id" = Some (JInt (vendor_id device)) /\
     config m' !! "product_id" = Some (JInt (product_id device)) /\
     config m' !! "device_name"
       = Some (JStr (manufacturer_string device +:+ " " +:+ product_string device)) /\
     (forall key, key <> "vendor_id" -> key <> "product_id" -> key <> "device_name" ->
                  config m' !! key = config m !! key) /\
     (config_writable e = true -> config_file m' = Document (config m'))) /\
  ((forall d, In d devices -> ~ looks_like_zmk e d) ->
     found = Ok false /\ m' = m).
Proof.
  intros Henum Hids Habsent found m'. subst found m'.
  unfold find_keyboard. rewrite Henum, Hids, Habsent. split.
  - intros before device after -> Hbefore Hdev.
    destruct (filter_first_candidate e before after device Hbefore Hdev) as [rest ->].
    cbn [fst snd]. split; [reflexivity|].
    rewrite save_config_file.
    rewrite (proj1 (save_config_frame e OnSelect _)). cbn [config set_config].
    unfold select_device, device_name_of.
    split; [rewrite !lookup_insert_ne by done; apply lookup_insert_eq|].
    split; [rewrite lookup_insert_ne by done; apply lookup_insert_eq|].
    split; [apply lookup_insert_eq|].
    split; [intros key H1 H2 H3; rewrite !lookup_insert_ne by congruence; reflexivity|].
    intros W. rewrite (config_writable_sites e W). reflexivity.
  - intros Hnone. rewrite (filter_no_candidate e devices Hnone). auto.
Qed.

Lemma C6_witness :
  let e := world [mouse; nice_nano; keyboard] true [] in
  let found := (find_keyboard e fresh).1 in
  let m' := (find_keyboard e fresh).2 in
  found = Ok true /\
  config m' !! "vendor_id" = Some (JInt 7504) /\
  config m' !! "product_id" = Some (JInt 24926) /\
  config m' !! "device_name" = Some (JStr "zmkfirmware Lily58") /\
  (forall key, key <> "vendor_id" -> key <> "product_id" -> key <> "device_name" ->
               config m' !! key = config fresh !! key) /\
  (config_writable e = true -> config_file m' = Document (config m')).
Proof.
  intros e.
  refine (proj1 (C6_heuristic_selection e fresh [mouse; nice_nano; keyboard] None
                   eq_refl _ eq_refl) [mouse] nice_nano [keyboard] eq_refl _ _).
  - vm_compute. reflexivity.
  - intros d [<-|[]] H. apply is_candidate_looks_like_zmk in H. vm_compute in H. discriminate.
  - apply is_candidate_looks_like_zmk. vm_compute. reflexivity.
Defined.

(** The lowering decides: a product string that spells ZMK with the Kelvin
    sign passes the filter under [str.lower] of Python and does not pass
    under a lowering of the ASCII letters alone. *)
Example kelvin_sign_is_lowered :
  let ascii := world [kelvin_board] true [] in
  let python :=
    {| str_lower := lower_with_kelvin;
       hid_enumerate := hid_enumerate ascii; hid_open := hid_open ascii;
       hid_get_feature_report := hid_get_feature_report ascii; clock := clock ascii;
       config_write := config_write ascii;
       log_writable := true; gui_available := true |} in
  (find_keyboard ascii fresh).1 = Ok false /\
  (find_keyboard python fresh).1 = Ok true /\
  config (find_keyboard python fresh).2 !! "vendor_id" = Some (JInt 4660).
Proof. vm_compute. repeat split; reflexivity. Qed.

(** C6 as stated fails for a device whose manufacturer string, and not its
    product string, contains "keyboard": the claim selects it, the code
    finds no candidate, returns [False] and leaves the configuration. *)
Lemma C6_counterexample :
  let e := world [keyboardio] true [] in
  occurs_in "keyboard" (str_lower e (manufacturer_string keyboardio)) /\
  config fresh !! "vendor_id" = Some JNull /\
  find_keyboard e fresh = (Ok false, fresh) /\
  ~ ((find_keyboard e fresh).1 = Ok true /\
     config (find_keyboard e fresh).2 !! "vendor_id" = Some (JInt 12617)).
Proof.
  cbv zeta.
  assert (find_keyboard (world [keyboardio] true []) fresh = (Ok false, fresh)) as H.
  { unfold find_keyboard. simpl hid_enumerate. cbv iota beta.
    assert (configured_ids (config fresh) = Ok None) as -> by (vm_compute; reflexivity).
    reflexivity. }
  split; [|split; [|split]].
  - apply contains_occurs. vm_compute. reflexivity.
  - vm_compute. reflexivity.
  - exact H.
  - rewrite H. simpl. intros [? _]. discriminate.
Qed.

(** ** Writes to the learned mapping *)

Lemma potential_values_silent (report : list Z) :
  potential_battery_values report = [] -> silent (Some report).
Proof.
  intros P. right. intros i b Hi Hb Hr.
  assert (In (i, b) (potential_battery_values report)) as Hin
    by (apply potential_battery_values_elem; auto).
  rewrite P in Hin. destruct Hin.
Qed.

(** What a scan does to the monitor: nothing, or one guarded write of the
    mapping for the first answer that is not silent, whose report id
    differs from the stored one. *)
Lemma scan_collect_outcome (e : environment) (get : nat -> Z -> option (list Z))
    (ids : list Z) (k : nat) (m : monitor) :
  let m' := (scan_reports e (collect_valid_reports get k ids) m).2 in
  m' = m \/
  exists j report_id report i b right_idx,
    ids !! j = Some report_id /\
    get (k + j)%nat report_id = Some report /\
    (2 < length report)%nat /\
    In (i, b) (potential_battery_values report) /\
    (forall j' id', (j' < j)%nat -> ids !! j' = Some id' -> silent (get (k + j')%nat id')) /\
    report_id_differs (config m) report_id = true /\
    m' = save_config e OnLearn (set_config (store_mapping report_id i right_idx (config m)) m).
Proof.
  revert k. induction ids as [|id0 ids IH]; intros k; [left; reflexivity|].
  assert (silent (get k id0) ->
          let m' := (scan_reports e (collect_valid_reports get (S k) ids) m).2 in
          m' = m \/
          exists j report_id report i b right_idx,
            (id0 :: ids) !! j = Some report_id /\
            get (k + j)%nat report_id = Some report /\
            (2 < length report)%nat /\
            In (i, b) (potential_battery_values report) /\
            (forall j' id', (j' < j)%nat -> (id0 :: ids) !! j' = Some id' ->
                            silent (get (k + j')%nat id')) /\
            report_id_differs (config m) report_id = true /\
            m' = save_config e OnLearn (set_config (store_mapping report_id i right_idx (config m)) m))
    as Hshift.
  { intros Hs. simpl. destruct (IH (S k)) as [H|H]; [left; exact H|right].
    destruct H as (j & report_id & report & i & b & ri & Hj & Hg & Hl & Hin & Hb & Hd & Hm).
    exists (S j), report_id, report, i, b, ri.
    replace (k + S j)%nat with (S k + j)%nat by lia.
    repeat split; auto.
    intros [|j'] id' Hlt Hj'; simpl in Hj'.
    - inversion Hj'; subst. rewrite Nat.add_0_r. exact Hs.
    - replace (k + S j')%nat with (S k + j')%nat by lia. apply Hb; [lia|exact Hj']. }
  cbn [collect_valid_reports].
  destruct (get k id0) as [report|] eqn:G; [|apply Hshift; exact I].
  destruct (2 <? length report)%nat eqn:L;
    [|apply Hshift; left; apply Nat.ltb_ge in L; exact L].
  apply Nat.ltb_lt in L. cbn [scan_reports].
  assert (forall i b right_idx, In (i, b) (potential_battery_values report) ->
            let m' := learn e id0 i right_idx m in
            m' = m \/
            exists j report_id report i b right_idx,
              (id0 :: ids) !! j = Some report_id /\
              get (k + j)%nat report_id = Some report /\
              (2 < length report)%nat /\
              In (i, b) (potential_battery_values report) /\
              (forall j' id', (j' < j)%nat -> (id0 :: ids) !! j' = Some id' ->
                              silent (get (k + j')%nat id')) /\
              report_id_differs (config m) report_id = true /\
              m' = save_config e OnLearn (set_config (store_mapping report_id i right_idx (config m)) m))
    as Hwin.
  { intros i b ri Hin. simpl. unfold learn.
    destruct (report_id_differs (config m) id0) eqn:D; [right|left; reflexivity].
    exists 0%nat, id0, report, i, b, ri. rewrite Nat.add_0_r.
    repeat split; auto. intros j' id' Hlt. lia. }
  destruct (potential_battery_values report) as [|[i b] [|[i' b'] rest]] eqn:P.
  - apply Hshift. apply potential_values_silent. exact P.
  - apply (Hwin i b None). left. reflexivity.
  - apply (Hwin i b (Some i')). left. reflexivity.
Qed.

Lemma resolve_config (e : environment) (m : monitor) :
  let get := hid_get_feature_report e in
  let m' := (resolve e m).2 in
  (config m' = config m /\ config_file m' = config_file m) \/
  exists j report_id report i b right_idx,
    open_device e (config m) = true /\
    report_ids !! j = Some report_id /\
    get j report_id = Some report /\
    (2 < length report)%nat /\
    In (i, b) (potential_battery_values report) /\
    (forall j' id', (j' < j)%nat -> report_ids !! j' = Some id' -> silent (get j' id')) /\
    report_id_differs (config m) report_id = true /\
    config m' = store_mapping report_id i right_idx (config m) /\
    config_file m' = after_save (config_write e OnLearn) (config m') (config_file m).
Proof.
  intros get m'. subst get m'. unfold resolve.
  destruct (open_device e (config m)) eqn:O; [|left; auto].
  pose proof (scan_collect_outcome e (hid_get_feature_report e) report_ids 0%nat
                (add_requests report_ids m)) as H.
  destruct (scan_reports e _ (add_requests report_ids m)) as [[l r] m1].
  simpl in H.
  assert (config (match l, r with
                  | None, None =>
                      let '(l', r', asked) :=
                        read_stored (hid_get_feature_report e) (length report_ids) (config m1) in
                      (l', r', add_requests asked m1)
                  | _, _ => (l, r, m1)
                  end).2 = config m1 /\
          config_file (match l, r with
                  | None, None =>
                      let '(l', r', asked) :=
                        read_stored (hid_get_feature_report e) (length report_ids) (config m1) in
                      (l', r', add_requests asked m1)
                  | _, _ => (l, r, m1)
                  end).2 = config_file m1) as [-> ->].
  { destruct l, r; simpl; auto.
    destruct (read_stored _ _ (config m1)) as [[l' r'] asked]. auto. }
  destruct H as [->|H]; [left; auto|right].
  destruct H as (j & report_id & report & i & b & ri & Hj & Hg & Hl & Hin & Hb & Hd & ->).
  exists j, report_id, report, i, b, ri. simpl in *.
  repeat split; auto; unfold save_config; destruct (config_write e OnLearn); reflexivity.
Qed.

(** C5: [read_battery_levels] changes the configuration, in memory or on
    disk, only when a probe report longer than two bytes, the first that
    holds a percentage in positions 1..4, has a report id that differs
    from the stored one; what it then writes are the three mapping keys,
    and the configuration is saved.  When every probe answer is silent,
    and when the device does not open, the configuration and its file are
    exactly as before.  [find_keyboard] never touches the three keys. *)
Theorem C5_mapping_written_only_on_new_report_id (e : environment) (m : monitor) :
  let get := hid_get_feature_report e in
  let m' := (read_battery_levels e m).2 in
  ((config m' <> config m \/ config_file m' <> config_file m) ->
   exists j report_id report i b,
     open_device e (config m) = true /\
     report_ids !! j = Some report_id /\
     get j report_id = Some report /\
     (2 < length report)%nat /\
     ((1 <= i <= 4)%nat /\ report !! i = Some b /\ 0 <= b <= 100) /\
     (forall j' id', (j' < j)%nat -> report_ids !! j' = Some id' -> silent (get j' id')) /\
     report_id_differs (config m) report_id = true /\
     config m' !! "report_id" = Some (JInt report_id) /\
     (config_writable e = true -> config_file m' = Document (config m'))) /\
  (forall key, key <> "report_id" -> key <> "left_battery_index" ->
               key <> "right_battery_index" -> config m' !! key = config m !! key) /\
  ((forall j id, report_ids !! j = Some id -> silent (get j id)) ->
   config m' = config m /\ config_file m' = config_file m) /\
  (forall key, key = "report_id" \/ key = "left_battery_index" \/
               key = "right_battery_index" ->
               config (find_keyboard e m).2 !! key = config m !! key).
Proof.
  intros get m'.
  destruct (resolve e m) as [[l r] m1] eqn:R.
  destruct (read_battery_levels_reading e m m1 l r R) as (_ & Hc & Hf & _).
  pose proof (resolve_config e m) as H. rewrite R in H. simpl in H.
  subst m'. rewrite Hc, Hf. clear Hc Hf.
  split; [|split; [|split]].
  - intros Hchanged. destruct H as [[Hc Hf]|H].
    + destruct Hchanged; congruence.
    + destruct H as (j & report_id & report & i & b & ri & Ho & Hj & Hg & Hl & Hin & Hb
                     & Hd & Hc & Hf).
      exists j, report_id, report, i, b.
      apply potential_battery_values_elem in Hin.
      repeat split; try tauto; auto.
      * rewrite Hc. apply (store_mapping_lookup report_id i ri (config m)).
      * intros W. rewrite Hf, (config_writable_sites e W). reflexivity.
  - intros key K1 K2 K3. destruct H as [[-> _]|H]; [reflexivity|].
    destruct H as (j & report_id & report & i & b & ri & _ & _ & _ & _ & _ & _ & _ & -> & _).
    unfold store_mapping. rewrite !lookup_insert_ne by congruence. reflexivity.
  - intros Hsilent. destruct H as [H|H]; [exact H|].
    destruct H as (j & report_id & report & i & b & ri & _ & Hj & Hg & Hl & Hin & _).
    specialize (Hsilent j report_id Hj). fold get in Hg. rewrite Hg in Hsilent.
    destruct Hsilent as [Hs|Hs]; [lia|].
    apply potential_battery_values_elem in Hin as (Hi & Hb & Hr).
    destruct (Hs i b Hi Hb Hr).
  - intros key K. unfold find_keyboard, save_config, select_device.
    destruct (hid_enumerate e) as [devices|x]; [|reflexivity].
    destruct (configured_ids (config m)) as [ids|x]; [|reflexivity].
    destruct (configured_present ids devices); [reflexivity|].
    destruct (List.filter (is_candidate e) devices) as [|device rest]; [reflexivity|].
    destruct (config_write e OnSelect); simpl;
      destruct K as [-> | [-> | ->]]; rewrite !lookup_insert_ne by done; reflexivity.
Qed.

Lemma C5_witness :
  let e := world [keyboard] true [(1, [1; 75; 60; 0; 0])] in
  let quiet := world [keyboard] true [(1, [1; 200; 200])] in
  let m := learned 3 1 (Some 2%nat) in
  (exists report_id,
      report_id_differs (config m) report_id = true /\
      config (read_battery_levels e m).2 !! "report_id" = Some (JInt report_id)) /\
  config (read_battery_levels quiet m).2 = config m /\
  config_file (read_battery_levels quiet m).2 = config_file m.
Proof.
  intros e quiet m.
  destruct (C5_mapping_written_only_on_new_report_id e m) as (Honly & _).
  destruct (C5_mapping_written_only_on_new_report_id quiet m) as (_ & _ & Hquiet & _).
  split.
  - destruct Honly as (j & report_id & report & i & b & _ & _ & _ & _ & _ & _ & Hd & Hc & _).
    + left. intros Heq.
      assert (config (read_battery_levels e m).2 !! "report_id" = config m !! "report_id")
        as H by (rewrite Heq; reflexivity).
      vm_compute in H. discriminate.
    + exists report_id. auto.
  - apply Hquiet. intros j id Hj. each_probe j Hj.
Defined.

(** ** Configuration store *)

(** Merging keeps every stored value and fills the other keys from the
    defaults. *)
Lemma merge_lookup (items : list (string * json)) (c : gmap string json) (key : string) :
  foldl (fun c kv => match c !! kv.1 with
                     | Some _ => c
                     | None => <[kv.1 := kv.2]> c
                     end) c items !! key
  = match c !! key with
    | Some v => Some v
    | None => (list_to_map items : gmap string json) !! key
    end.
Proof.
  revert c. induction items as [|[k v] items IH]; intros c; simpl.
  - rewrite lookup_empty. destruct (c !! key); reflexivity.
  - rewrite IH. destruct (c !! k) as [w|] eqn:K.
    + destruct (c !! key) as [u|] eqn:E; [reflexivity|].
      rewrite lookup_insert_ne by congruence. reflexivity.
    + destruct (decide (k = key)) as [->|Hne].
      * rewrite !lookup_insert_eq, K. reflexivity.
      * rewrite !lookup_insert_ne by exact Hne. reflexivity.
Qed.

Lemma merge_defaults_lookup (d : gmap string json) (key : string) :
  merge_defaults d !! key
  = match d !! key with
    | Some v => Some v
    | None => DEFAULT_CONFIG !! key
    end.
Proof. apply merge_lookup. Qed.

Lemma merge_defaults_idempotent (d : gmap string json) :
  merge_defaults (merge_defaults d) = merge_defaults d.
Proof.
  apply map_eq. intros key. rewrite (merge_defaults_lookup (merge_defaults d)).
  destruct (merge_defaults d !! key) as [v|] eqn:E; [reflexivity|].
  rewrite merge_defaults_lookup in E. destruct (d !! key); [discriminate|exact E].
Qed.

Lemma merge_defaults_of_defaults : merge_defaults DEFAULT_CONFIG = DEFAULT_CONFIG.
Proof.
  apply map_eq. intros key. rewrite merge_defaults_lookup.
  destruct (DEFAULT_CONFIG !! key); reflexivity.
Qed.

Lemma default_keys_defined (key : string) :
  In key ["update_interval"; "low_battery_threshold"; "critical_battery_threshold";
          "vendor_id"; "product_id"; "device_name"; "report_id";
          "left_battery_index"; "right_battery_index"] <->
  is_Some (DEFAULT_CONFIG !! key).
Proof.
  split.
  - intros Hin. simpl in Hin.
    repeat (destruct Hin as [<-|Hin]; [vm_compute; eauto|]). destruct Hin.
  - intros [v Hv]. apply elem_of_list_to_map_2, list_elem_of_In in Hv. simpl in Hv.
    repeat (destruct Hv as [[= <- _]|Hv]; [simpl; tauto|]). destruct Hv.
Qed.

Lemma default_items_keys (P : string -> bool) :
  forallb (fun kv : string * json => P kv.1) default_items = true <->
  (forall key, is_Some (DEFAULT_CONFIG !! key) -> P key = true).
Proof.
  rewrite forallb_forall. split.
  - intros H key [v Hv]. apply elem_of_list_to_map_2, list_elem_of_In in Hv.
    exact (H (key, v) Hv).
  - intros H [k v] Hin. apply H. apply default_keys_defined. simpl in Hin. simpl.
    repeat (destruct Hin as [[= <- _]|Hin]; [tauto|]). destruct Hin.
Qed.

Lemma key_in_list_In (key : string) (l : list json) :
  key_in_list key l = true <-> In (JStr key) l.
Proof.
  unfold key_in_list. rewrite existsb_exists. split.
  - intros (x & Hin & Hx). destruct x; try discriminate.
    apply String.eqb_eq in Hx. subst. exact Hin.
  - intros Hin. exists (JStr key). split; [exact Hin|apply String.eqb_refl].
Qed.

(** What [load_config] returns as a dictionary has every default key. *)
Lemma load_config_complete (f : config_file_state) (c : gmap string json) (key : string) :
  load_config f = Dict c -> is_Some (DEFAULT_CONFIG !! key) -> is_Some (c !! key).
Proof.
  assert (forall d, is_Some (DEFAULT_CONFIG !! key) -> is_Some (merge_defaults d !! key)) as M.
  { intros d H. rewrite merge_defaults_lookup. destruct (d !! key); eauto. }
  intros L H. destruct f as [| |d|v]; cbn [load_config] in L.
  - injection L as <-. exact H.
  - injection L as <-. exact H.
  - injection L as <-. apply M, H.
  - destruct v; try (injection L as <-; exact H).
    + destruct (forallb _ default_items); [discriminate|]. injection L as <-. exact H.
    + destruct (forallb _ default_items); [discriminate|]. injection L as <-. exact H.
    + injection L as <-. apply M, H.
Qed.

(** A configuration that has every default key is what loading its own
    document gives. *)
Lemma merge_defaults_complete (c : gmap string json) :
  (forall key, is_Some (DEFAULT_CONFIG !! key) -> is_Some (c !! key)) ->
  merge_defaults c = c.
Proof.
  intros H. apply map_eq. intros key. rewrite merge_defaults_lookup.
  destruct (c !! key) as [v|] eqn:E; [reflexivity|].
  destruct (DEFAULT_CONFIG !! key) as [v|] eqn:D; [|reflexivity].
  destruct (H key) as [w Hw]; [eauto|]. congruence.
Qed.

Lemma load_config_idempotent (f : config_file_state) (c : gmap string json) :
  load_config f = Dict c -> load_config (Document c) = Dict c.
Proof.
  intros L. simpl. f_equal. apply merge_defaults_complete.
  intros key. apply (load_config_complete f c key L).
Qed.

(** C7 fails of the code on a configuration file whose document is not
    an object but a list that holds the nine key names: the merge loop
    finds every key [in] the list, assigns nothing and raises nothing, and
    [load_config] returns the list itself.  What was loaded is no
    dictionary: no field of it is defined. *)
Theorem C7_list_of_key_names_is_loaded (l : list json) :
  (forall key,
     In key ["update_interval"; "low_battery_threshold"; "critical_battery_threshold";
             "vendor_id"; "product_id"; "device_name"; "report_id";
             "left_battery_index"; "right_battery_index"] ->
     In (JStr key) l) ->
  load_config (Other (JList l)) = NotDict (JList l) /\
  (forall c, load_config (Other (JList l)) <> Dict c).
Proof.
  intros H.
  assert (load_config (Other (JList l)) = NotDict (JList l)) as L.
  { cbn [load_config].
    assert (forallb (fun kv : string * json => key_in_list kv.1 l) default_items = true) as ->;
      [|reflexivity].
    apply (default_items_keys (fun key => key_in_list key l)).
    intros key Hk. apply key_in_list_In, H, default_keys_defined, Hk. }
  split; [exact L|]. intros c. rewrite L. discriminate.
Qed.

Lemma C7_witness :
  load_config (Other key_names) = NotDict key_names /\
  (forall c, load_config (Other key_names) <> Dict c).
Proof.
  apply (C7_list_of_key_names_is_loaded
           [JStr "update_interval"; JStr "low_battery_threshold";
            JStr "critical_battery_threshold"; JStr "vendor_id"; JStr "product_id";
            JStr "device_name"; JStr "report_id"; JStr "left_battery_index";
            JStr "right_battery_index"]).
  intros key Hin. simpl in Hin. simpl.
  repeat (destruct Hin as [<-|Hin]; [tauto|]). destruct Hin.
Defined.

(** ** Persisted series *)

Lemma str_of_int_not_empty (n : Z) : str_of_int n <> "".
Proof.
  unfold str_of_int, NilZero.string_of_int, NilZero.string_of_uint.
  destruct (Z.to_int n) as [d|d]; [destruct d; discriminate|discriminate].
Qed.

(** An absent level, and only an absent level, is written as the empty
    field. *)
Lemma field_empty (level : option Z) : field level = "" <-> level = None.
Proof.
  destruct level as [n|]; simpl.
  - split; [|discriminate]. intros H. destruct (str_of_int_not_empty n H).
  - tauto.
Qed.

(** C8: every reading that [read_battery_levels] stores is followed by
    exactly one row appended to the series file: the timestamp, the left
    level or nothing, the right level or nothing, separated by commas and
    ended by a newline.  The header line is written first only when the
    file did not exist.  A device that answers report 1 with the bytes
    1, 75, 60, 0, 0 gives the reading left 75, right 60 and the row
    "timestamp,75,60". *)
Theorem C8_series_row (e : environment) (m : monitor) :
  log_writable e = true ->
  let m' := (read_battery_levels e m).2 in
  let b := battery_levels m' in
  timestamp b = Some (clock e) /\
  log_file m' =
    Some (match log_file m with
          | Some text => text
          | None => "timestamp,left_battery,right_battery" +:+ newline
          end
          +:+ clock e +:+ "," +:+ field (left_battery b) +:+ ","
          +:+ field (right_battery b) +:+ newline) /\
  (forall level, field level = "" <-> level = None) /\
  (open_device e (config m) = true ->
   hid_get_feature_report e 0%nat 1 = Some [1; 75; 60; 0; 0] ->
   left_battery b = Some 75 /\ right_battery b = Some 60 /\
   log_file m' =
     Some (match log_file m with
           | Some text => text
           | None => "timestamp,left_battery,right_battery" +:+ newline
           end
           +:+ clock e +:+ ",75,60" +:+ newline)).
Proof.
  intros W m' b.
  destruct (resolve e m) as [[l r] m1] eqn:R.
  destruct (resolve_frame e m) as (_ & Rl & _). rewrite R in Rl. simpl in Rl.
  assert (m' = set_log_file
                 (Some (match log_file m with Some text => text | None => header end
                        +:+ row {| left_battery := l; right_battery := r;
                                   timestamp := Some (clock e) |}))
                 (set_battery_levels {| left_battery := l; right_battery := r;
                                        timestamp := Some (clock e) |} m1)) as Hm'.
  { subst m'. rewrite (read_battery_levels_state e m m1 l r R).
    unfold log_battery_levels. rewrite W. simpl. rewrite Rl. reflexivity. }
  subst b. rewrite Hm'. simpl.
  split; [reflexivity|]. split; [reflexivity|]. split; [exact field_empty|].
  intros Hopen Hget.
  assert (resolve e m = scan_reports e [(1, [1; 75; 60; 0; 0])] (add_requests report_ids m))
    as R'.
  { apply (resolve_first_answer e m 0%nat 1 [1; 75; 60; 0; 0] (1%nat, 75)
             [(2%nat, 60); (3%nat, 0); (4%nat, 0)]); auto.
    - simpl. lia.
    - intros j' id' Hlt. lia. }
  rewrite R in R'. simpl in R'. inversion R'; subst. auto.
Qed.

Lemma C8_witness :
  let e := world [keyboard] true [(1, [1; 75; 60; 0; 0])] in
  let m' := (read_battery_levels e paired).2 in
  left_battery (battery_levels m') = Some 75 /\
  right_battery (battery_levels m') = Some 60 /\
  log_file m' =
    Some ("timestamp,left_battery,right_battery" +:+ newline
          +:+ "2025-03-01 12:00:00,75,60" +:+ newline).
Proof.
  intros e.
  destruct (C8_series_row e paired eq_refl) as (_ & _ & _ & H).
  apply H; vm_compute; reflexivity.
Defined.

(** ** Critical notifications *)

Lemma at_most_threshold (level : Z) (c : gmap string json) (key : string) (b : bool) :
  at_most level c key = Ok b <->
  exists t, threshold c key = Some t /\ b = (level <=? t).
Proof.
  unfold at_most, threshold. destruct (c !! key) as [v|].
  - destruct (as_int v) as [t|].
    + split.
      * intros H. inversion H. eauto.
      * intros (t' & H & ->). inversion H. reflexivity.
    + split; [discriminate|]. intros (t & H & _). discriminate.
  - split; [discriminate|]. intros (t & H & _). discriminate.
Qed.

(** What the [if]/[elif] dispatches *)
Lemma notify_critical_cases (m : monitor) :
  let crit := threshold (config m) "critical_battery_threshold" in
  let l := left_battery (battery_levels m) in
  let r := right_battery (battery_levels m) in
  exists new,
    notifications (notify_critical m).2 = (notifications m ++ new)%list /\
    (new = [] \/
     (exists lv t, l = Some lv /\ crit = Some t /\ lv <= t /\
                   new = [critical_warning "Left" lv]) \/
     (exists rv t, r = Some rv /\ crit = Some t /\ rv <= t /\
                   (l = None \/ exists lv, l = Some lv /\ t < lv) /\
                   new = [critical_warning "Right" rv])).
Proof.
  intros crit l r. subst crit l r. unfold notify_critical.
  assert (forall (skipped : left_battery (battery_levels m) = None \/
                            exists lv t, left_battery (battery_levels m) = Some lv /\
                              threshold (config m) "critical_battery_threshold" = Some t /\
                              t < lv),
     exists new,
       notifications
         (match right_battery (battery_levels m) with
          | None => (Ok tt, m)
          | Some r =>
              match at_most r (config m) "critical_battery_threshold" with
              | Raise x => (Raise x, m)
              | Ok true => (Ok tt, show_notification (critical_warning "Right" r) m)
              | Ok false => (Ok tt, m)
              end
          end).2 = (notifications m ++ new)%list /\
       (new = [] \/
        (exists lv t, left_battery (battery_levels m) = Some lv /\
                      threshold (config m) "critical_battery_threshold" = Some t /\
                      lv <= t /\ new = [critical_warning "Left" lv]) \/
        (exists rv t, right_battery (battery_levels m) = Some rv /\
                      threshold (config m) "critical_battery_threshold" = Some t /\
                      rv <= t /\
                      (left_battery (battery_levels m) = None \/
                       exists lv, left_battery (battery_levels m) = Some lv /\ t < lv) /\
                      new = [critical_warning "Right" rv]))) as Hright.
  { intros skipped. destruct (right_battery (battery_levels m)) as [rv|].
    - destruct (at_most rv (config m) "critical_battery_threshold") as [[|]|x] eqn:A.
      + apply at_most_threshold in A as (t & Ht & Hle).
        symmetry in Hle. apply Z.leb_le in Hle.
        exists [critical_warning "Right" rv]. split; [reflexivity|].
        right. right. exists rv, t. repeat split; auto.
        destruct skipped as [Hn|(lv & t' & Hl & Ht' & Hlt)]; [left; exact Hn|].
        right. exists lv. split; [exact Hl|]. congruence.
      + exists []. simpl. rewrite app_nil_r. auto.
      + exists []. simpl. rewrite app_nil_r. auto.
    - exists []. simpl. rewrite app_nil_r. auto. }
  destruct (left_battery (battery_levels m)) as [lv|].
  - destruct (at_most lv (config m) "critical_battery_threshold") as [[|]|x] eqn:A.
    + apply at_most_threshold in A as (t & Ht & Hle).
      symmetry in Hle. apply Z.leb_le in Hle.
      exists [critical_warning "Left" lv]. split; [reflexivity|].
      right. left. exists lv, t. auto.
    + apply at_most_threshold in A as (t & Ht & Hle).
      symmetry in Hle. apply Z.leb_gt in Hle.
      apply Hright. right. exists lv, t. auto.
    + exists []. simpl. rewrite app_nil_r. auto.
  - apply Hright. left. reflexivity.
Qed.

Lemma left_is_not_right (lv rv : Z) :
  critical_warning "Left" lv <> critical_warning "Right" rv.
Proof. unfold critical_warning. intros H. inversion H. Qed.

(** C10: one call of [update_tray] dispatches at most one critical
    notification.  A notification for the right half is dispatched only
    when the right level is at or below the critical threshold and the
    left level is absent or above it; when both levels are at or below the
    threshold, the one notification is the left half's. *)
Theorem C10_one_critical_notification (e : environment) (m : monitor) :
  let crit := threshold (config m) "critical_battery_threshold" in
  let l := left_battery (battery_levels m) in
  let r := right_battery (battery_levels m) in
  let m' := (update_tray e m).2 in
  exists new,
    notifications m' = (notifications m ++ new)%list /\
    (length new <= 1)%nat /\
    (forall n, In n new -> (exists v, n = critical_warning "Right" v) ->
               (l = None \/ exists lv t, l = Some lv /\ crit = Some t /\ t < lv) /\
               (exists rv t, r = Some rv /\ crit = Some t /\ rv <= t /\
                             n = critical_warning "Right" rv)) /\
    (forall lv rv t, l = Some lv -> r = Some rv -> crit = Some t ->
                     lv <= t -> rv <= t -> new = [critical_warning "Left" lv]).
Proof.
  intros crit l r m'. subst crit l r m'. unfold update_tray.
  destruct (generate_tray_icon e m) as [img|x] eqn:G.
  - destruct (notify_critical_cases (add_tooltip (tooltip_of (battery_levels m)) m))
      as (new & Hn & Hcases).
    simpl in Hn, Hcases. exists new. split; [exact Hn|].
    destruct Hcases as [-> | [(lv & t & Hl & Ht & Hle & ->) | (rv & t & Hr & Ht & Hle & Hleft & ->)]].
    + split; [simpl; lia|]. split; [intros n []|].
      intros lv rv t Hl Hr Ht Hle Hre. exfalso.
      unfold notify_critical in Hn. simpl in Hn. rewrite Hl in Hn.
      assert (at_most lv (config m) "critical_battery_threshold" = Ok true) as A
        by (apply at_most_threshold; exists t; split; [exact Ht|];
            symmetry; apply Z.leb_le; exact Hle).
      rewrite A in Hn. simpl in Hn. apply app_inv_head in Hn. discriminate.
    + split; [simpl; lia|]. split.
      * intros n [<-|[]] [v Hv]. destruct (left_is_not_right lv v Hv).
      * intros lv' rv t' Hl' _ _ _ _. congruence.
    + split; [simpl; lia|]. split.
      * intros n [<-|[]] _. split.
        -- destruct Hleft as [Hn'|(lv & Hl & Hlt)]; [left; exact Hn'|].
           right. exists lv, t. auto.
        -- exists rv, t. auto.
      * intros lv rv' t' Hl' _ Ht' Hle' _. exfalso.
        destruct Hleft as [Hn'|(lv' & Hl'' & Hlt)]; [congruence|].
        assert (lv' = lv) by congruence. assert (t' = t) by congruence. subst. lia.
  - exists []. simpl. rewrite app_nil_r. split; [reflexivity|]. split; [lia|].
    split; [intros n []|].
    intros lv rv t Hl Hr Ht Hle Hre. exfalso.
    unfold generate_tray_icon in G. destruct (gui_available e); [|discriminate].
    rewrite Hl, Hr in G. unfold get_color in G.
    assert (at_most lv (config m) "critical_battery_threshold" = Ok true) as A
      by (apply at_most_threshold; exists t; split; [exact Ht|];
          symmetry; apply Z.leb_le; exact Hle).
    assert (at_most rv (config m) "critical_battery_threshold" = Ok true) as B
      by (apply at_most_threshold; exists t; split; [exact Ht|];
          symmetry; apply Z.leb_le; exact Hre).
    rewrite A, B in G. discriminate.
Qed.

Lemma C10_witness :
  let m := init_gui (set_battery_levels
             {| left_battery := Some 5; right_battery := Some 7;
                timestamp := Some "2025-03-01 12:00:00" |} paired) in
  let e := world [keyboard] true [] in
  notifications (update_tray e m).2 =
    [ {| title := "Critical Battery Warning";
         message := "Left keyboard half battery is critically low (5%)";
         is_warning := true |} ].
Proof.
  intros m e.
  destruct (C10_one_critical_notification e m) as (new & Hn & _ & _ & Hboth).
  rewrite Hn. rewrite (Hboth 5 7 10); try reflexivity; lia.
Defined.

(** ** Worker loop and shutdown *)

(** Nothing in a cycle writes the [running] flag. *)
Lemma cycle_running (e : environment) (m : monitor) :
  running (cycle e m) = running m.
Proof.
  unfold cycle, cycle_body.
  destruct (find_keyboard_frame e m) as (_ & _ & _ & _ & _ & _ & Fr).
  destruct (find_keyboard e m) as [[[|]|x] m1]; simpl in *; try exact Fr.
  unfold read_battery_levels.
  destruct (resolve_frame e m1) as (_ & _ & _ & _ & _ & Rr).
  destruct (resolve e m1) as [[l r] m2]. simpl in Rr.
  set (m3 := set_battery_levels _ m2).
  destruct (log_battery_levels_frame e m3) as (_ & _ & _ & _ & _ & _ & Lr & _).
  destruct (log_battery_levels e m3) as [[u|x] m4]; simpl in *.
  - destruct (icon m4).
    + destruct (update_tray_frame e m4) as (_ & _ & _ & _ & _ & Ur & _).
      rewrite Ur, Lr. simpl. congruence.
    + simpl. rewrite Lr. simpl. congruence.
  - rewrite Lr. simpl. congruence.
Qed.

Lemma worker_step_running (e : environment) (w : worker) (m : monitor) :
  running (worker_step e w m).1.2 = running m.
Proof.
  destruct w as [| |[|n]|n| |x]; simpl; try reflexivity.
  - destruct (running m) eqn:E; simpl; exact E.
  - destruct (sleep_rounds (config (cycle e m))); simpl; apply cycle_running.
  - destruct (running m) eqn:E; simpl; exact E.
Qed.

(** With the flag cleared, three steps end the worker from wherever it
    stands, with at most one [time.sleep(1)] on the way. *)
Lemma worker_stops (envs : nat -> environment) (w : worker) (m : monitor) :
  running m = false ->
  let '(w', m', evs) := worker_run envs 3 w m in
  ended w' = true /\ (sleeps evs <= 1)%nat /\ running m' = false.
Proof.
  intros Hstop.
  assert (forall e m0, running m0 = false -> running (cycle e m0) = false) as Hc
    by (intros e m0 H; rewrite cycle_running; exact H).
  destruct w as [| |[|n]|n| |x]; simpl; rewrite ?Hstop; simpl.
  - auto.
  - destruct (sleep_rounds (config (cycle (envs 0%nat) m))) as [[|n]|x]; simpl;
      rewrite ?(Hc _ _ Hstop); simpl; rewrite ?(Hc _ _ Hstop); simpl;
      repeat split; auto.
  - rewrite Hstop. simpl. auto.
  - rewrite Hstop. simpl. auto.
  - destruct n as [|n]; simpl; rewrite ?Hstop; simpl; rewrite ?Hstop; simpl; auto.
  - auto.
  - auto.
Qed.

(** While the flag stays set, the sleep loop started for [n] rounds tests
    the flag and sleeps one second, [n] times, and then returns to the
    test of the [while]. *)
Lemma sleep_loop_rounds (envs : nat -> environment) (n : nat) (m : monitor) :
  running m = true ->
  worker_run envs (2 * n + 1) (AtFor n) m = (AtWhile, m, repeat Slept n).
Proof.
  intros Hrun. revert envs. induction n as [|n IH]; intros envs.
  - reflexivity.
  - replace (2 * S n + 1)%nat with (S (S (2 * n + 1))) by lia.
    cbn [worker_run worker_step]. rewrite Hrun. cbn [worker_run worker_step].
    rewrite IH. reflexivity.
Qed.


(** * Further properties of the monitor *)

Lemma init_loaded_from (d : gmap string json) :
  init (Document d) None = Some (loaded_from d).
Proof. reflexivity. Qed.

(** ** What a cycle does to the configuration and its file *)

Lemma insert_keeps_keys (c : gmap string json) (k key : string) (v : json) :
  is_Some (c !! key) -> is_Some (<[k := v]> c !! key).
Proof.
  intros H. destruct (decide (k = key)) as [->|Hne].
  - rewrite lookup_insert_eq. eauto.
  - rewrite lookup_insert_ne by exact Hne. exact H.
Qed.

(** The configuration after [find_keyboard]: as before, or with the three
    identity keys of a selected device, and then saved. *)
Lemma find_keyboard_store (e : environment) (m : monitor) :
  let m' := (find_keyboard e m).2 in
  (config m' = config m /\ config_file m' = config_file m) \/
  (exists device,
     config m' = select_device device (config m) /\
     config_file m' = after_save (config_write e OnSelect) (config m') (config_file m)).
Proof.
  unfold find_keyboard, save_config.
  destruct (hid_enumerate e) as [devices|x]; [|left; auto].
  destruct (configured_ids (config m)) as [ids|x]; [|left; auto].
  destruct (configured_present ids devices); [left; auto|].
  destruct (List.filter (is_candidate e) devices) as [|device rest]; [left; auto|].
  right. exists device. destruct (config_write e OnSelect); simpl; auto.
Qed.

(** The configuration after [read_battery_levels]: as before, or with the
    three mapping keys of the report that won, and then saved. *)
Lemma read_battery_levels_store (e : environment) (m : monitor) :
  let m' := (read_battery_levels e m).2 in
  (config m' = config m /\ config_file m' = config_file m) \/
  (exists report_id i right_idx,
     config m' = store_mapping report_id i right_idx (config m) /\
     config_file m' = after_save (config_write e OnLearn) (config m') (config_file m)).
Proof.
  destruct (resolve e m) as [[l r] m1] eqn:R.
  destruct (read_battery_levels_reading e m m1 l r R) as (_ & Hc & Hf & _).
  pose proof (resolve_config e m) as H. rewrite R in H. simpl in H.
  simpl. rewrite Hc, Hf. destruct H as [H|H]; [left; exact H|right].
  destruct H as (j & report_id & report & i & b & ri & _ & _ & _ & _ & _ & _ & _ & H1 & H2).
  exists report_id, i, ri. auto.
Qed.

(** The configuration after a cycle is the one [find_keyboard] left, or,
    when a keyboard was found, the one [read_battery_levels] left. *)
Lemma cycle_store (e : environment) (m : monitor) :
  let m1 := (find_keyboard e m).2 in
  (config (cycle e m) = config m1 /\ config_file (cycle e m) = config_file m1) \/
  (config (cycle e m) = config (read_battery_levels e m1).2 /\
   config_file (cycle e m) = config_file (read_battery_levels e m1).2).
Proof.
  simpl. unfold cycle, cycle_body.
  destruct (find_keyboard e m) as [[[|]|x] m1]; simpl; auto.
  destruct (read_battery_levels e m1) as [[b|x] m2]; simpl; auto.
  destruct (icon m2); simpl; auto.
  destruct (update_tray_frame e m2) as (Hc & Hf & _). right. auto.
Qed.

Lemma select_device_other (device : hid_info) (c : gmap string json) (key : string) :
  ~ In key assigned_keys -> select_device device c !! key = c !! key.
Proof.
  intros H. unfold select_device, assigned_keys in *. simpl in H.
  rewrite !lookup_insert_ne by (intros <-; tauto). reflexivity.
Qed.

Lemma store_mapping_other (report_id : Z) (i : nat) (ri : option nat)
    (c : gmap string json) (key : string) :
  ~ In key assigned_keys -> store_mapping report_id i ri c !! key = c !! key.
Proof.
  intros H. unfold store_mapping, assigned_keys in *. simpl in H.
  rewrite !lookup_insert_ne by (intros <-; tauto). reflexivity.
Qed.

Lemma select_device_keeps (device : hid_info) (c : gmap string json) (key : string) :
  is_Some (c !! key) -> is_Some (select_device device c !! key).
Proof. intros H. unfold select_device. do 3 apply insert_keeps_keys. exact H. Qed.

Lemma store_mapping_keeps (report_id : Z) (i : nat) (ri : option nat)
    (c : gmap string json) (key : string) :
  is_Some (c !! key) -> is_Some (store_mapping report_id i ri c !! key).
Proof. intros H. unfold store_mapping. do 3 apply insert_keeps_keys. exact H. Qed.

(** A cycle leaves the configuration and its file as they are, or assigns
    some of the six keys and saves: the file then holds the configuration
    the cycle ends with when every save writes its document, and otherwise
    what it held, nothing that can be parsed, or the configuration one of
    the two saves had to write. *)
Lemma cycle_store_cases (e : environment) (m : monitor) :
  let m' := cycle e m in
  (config m' = config m /\ config_file m' = config_file m) \/
  ((forall key, ~ In key assigned_keys -> config m' !! key = config m !! key) /\
   (forall key, is_Some (config m !! key) -> is_Some (config m' !! key)) /\
   (config_writable e = true -> config_file m' = Document (config m')) /\
   (config_file m' = config_file m \/ config_file m' = Unparseable \/
    config_file m' = Document (config (find_keyboard e m).2) \/
    config_file m' = Document (config m'))).
Proof.
  simpl.
  pose proof (find_keyboard_store e m) as F. simpl in F.
  pose proof (read_battery_levels_store e (find_keyboard e m).2) as R. simpl in R.
  assert (forall device,
            config (find_keyboard e m).2 = select_device device (config m) ->
            (forall key, ~ In key assigned_keys ->
                         config (find_keyboard e m).2 !! key = config m !! key) /\
            (forall key, is_Some (config m !! key) ->
                         is_Some (config (find_keyboard e m).2 !! key))) as Hselect.
  { intros device Hc. split; intros key Hk; rewrite Hc.
    - apply select_device_other. exact Hk.
    - apply select_device_keeps. exact Hk. }
  assert ((config (find_keyboard e m).2 = config m /\
           config_file (find_keyboard e m).2 = config_file m) \/
          ((forall key, ~ In key assigned_keys ->
                        config (find_keyboard e m).2 !! key = config m !! key) /\
           (forall key, is_Some (config m !! key) ->
                        is_Some (config (find_keyboard e m).2 !! key)) /\
           (config_writable e = true ->
              config_file (find_keyboard e m).2 = Document (config (find_keyboard e m).2)) /\
           (config_file (find_keyboard e m).2 = config_file m \/
            config_file (find_keyboard e m).2 = Unparseable \/
            config_file (find_keyboard e m).2 = Document (config (find_keyboard e m).2))))
    as F'.
  { destruct F as [F|(device & Hc & Hf)]; [left; exact F|right].
    destruct (Hselect device Hc) as [H1 H2].
    split; [exact H1|]. split; [exact H2|]. split.
    - intros W. rewrite Hf, (config_writable_sites e W). reflexivity.
    - rewrite Hf. apply after_save_cases. }
  clear F Hselect.
  destruct (cycle_store e m) as [[-> ->]|[-> ->]].
  - destruct F' as [F|(H1 & H2 & H3 & H4)]; [left; exact F|right].
    split; [exact H1|]. split; [exact H2|]. split; [exact H3|]. tauto.
  - destruct R as [[Rc Rf]|(report_id & i & ri & Rc & Rf)].
    + rewrite Rc, Rf.
      destruct F' as [F|(H1 & H2 & H3 & H4)]; [left; exact F|right].
      split; [exact H1|]. split; [exact H2|]. split; [exact H3|]. tauto.
    + right. split; [|split; [|split]].
      * intros key Hk. rewrite Rc, store_mapping_other by exact Hk.
        destruct F' as [[Fc _]|(H1 & _)]; [rewrite Fc; reflexivity|].
        apply H1. exact Hk.
      * intros key Hk. rewrite Rc. apply store_mapping_keeps.
        destruct F' as [[Fc _]|(_ & H2 & _)]; [rewrite Fc; exact Hk|].
        apply H2. exact Hk.
      * intros W. rewrite Rf, (config_writable_sites e W). reflexivity.
      * rewrite Rf.
        destruct (after_save_cases (config_write e OnLearn)
                    (config (read_battery_levels e (find_keyboard e m).2).2)
                    (config_file (find_keyboard e m).2)) as [-> | [-> | ->]];
          [|tauto|tauto].
        destruct F' as [[_ ->]|(_ & _ & _ & H4)]; tauto.
Qed.

(** A step of the worker changes the monitor only by running a cycle. *)
Lemma worker_step_monitor (e : environment) (w : worker) (m : monitor) :
  (worker_step e w m).1.2 = m \/ (worker_step e w m).1.2 = cycle e m.
Proof.
  destruct w as [| |[|n]|n| |x]; simpl; auto.
  - destruct (running m); auto.
  - destruct (sleep_rounds (config (cycle e m))); auto.
  - destruct (running m); auto.
Qed.

(** What every cycle keeps, every run of the worker keeps. *)
Lemma worker_run_keeps (Q : environment -> Prop) (P : monitor -> Prop) :
  (forall e m, Q e -> P m -> P (cycle e m)) ->
  forall envs fuel w m,
    (forall i, Q (envs i)) -> P m -> P (run_monitor (worker_run envs fuel w m)).
Proof.
  intros Hcycle envs fuel. revert envs.
  induction fuel as [|fuel IH]; intros envs w m HQ HP; [exact HP|].
  cbn [worker_run].
  pose proof (worker_step_monitor (envs 0%nat) w m) as Hstep.
  destruct (worker_step (envs 0%nat) w m) as [[w1 m1] ev1]. simpl in Hstep.
  assert (P m1) as HP1 by (destruct Hstep as [->| ->]; auto).
  specialize (IH (fun i => envs (S i)) w1 m1 (fun i => HQ (S i)) HP1).
  destruct (worker_run (fun i => envs (S i)) fuel w1 m1) as [[w2 m2] ev2].
  exact IH.
Qed.

(** X1: however long the worker runs, it assigns only the six keys of the
    device identity and the report mapping: the interval, the thresholds
    and every key the program does not know keep their values, and no key
    is ever removed from the configuration. *)
Theorem X1_worker_keeps_foreign_keys (envs : nat -> environment) (fuel : nat)
    (w : worker) (m : monitor) (key : string) :
  let m' := run_monitor (worker_run envs fuel w m) in
  (~ In key ["vendor_id"; "product_id"; "device_name";
             "report_id"; "left_battery_index"; "right_battery_index"] ->
   config m' !! key = config m !! key) /\
  (is_Some (config m !! key) -> is_Some (config m' !! key)).
Proof.
  apply (worker_run_keeps (fun _ => True)
           (fun m' => (~ In key assigned_keys -> config m' !! key = config m !! key) /\
                      (is_Some (config m !! key) -> is_Some (config m' !! key)))); auto.
  intros e m0 _ [Hframe Hkeep].
  destruct (cycle_store_cases e m0) as [[-> _]|(Hf & Hk & _)]; [auto|].
  split.
  - intros Hkey. rewrite Hf by exact Hkey. auto.
  - intros Hsome. apply Hk. auto.
Qed.

Lemma X1_witness :
  let envs := fun _ : nat => world [nice_nano] true [(1, [1; 75; 60; 0; 0])] in
  let m := set_running true (loaded_from {[ "theme" := JStr "dark" ]}) in
  let m' := run_monitor (worker_run envs 50 AtWhile m) in
  config m' !! "theme" = Some (JStr "dark") /\
  config m' !! "update_interval" = Some (JInt 300) /\
  is_Some (config m' !! "report_id").
Proof.
  intros envs m m'. subst m'.
  destruct (X1_worker_keeps_foreign_keys envs 50 AtWhile m "theme") as [H1 _].
  destruct (X1_worker_keeps_foreign_keys envs 50 AtWhile m "update_interval") as [H2 _].
  destruct (X1_worker_keeps_foreign_keys envs 50 AtWhile m "report_id") as [_ H3].
  split; [|split].
  - rewrite H1; [vm_compute; reflexivity|]. simpl. intros [H|[H|[H|[H|[H|[H|[]]]]]]]; discriminate.
  - rewrite H2; [vm_compute; reflexivity|]. simpl. intros [H|[H|[H|[H|[H|[H|[]]]]]]]; discriminate.
  - apply H3. vm_compute. eauto.
Defined.

(** X2: what a cycle can leave in the configuration file.  After a cycle
    the file is as it was, or holds nothing that can be parsed (a save
    emptied it and did not complete the document), or holds the
    configuration as [find_keyboard] left it, or holds the configuration
    the cycle ends with.  When every save of the cycle writes its
    document, the cycle either assigned nothing and left the file, or the
    file holds exactly the configuration the cycle ends with, also when
    both [find_keyboard] and [read_battery_levels] assign keys in the same
    cycle. *)
Theorem X2_config_file_after_cycle (e : environment) (m : monitor) :
  (config_file (cycle e m) = config_file m \/
   config_file (cycle e m) = Unparseable \/
   config_file (cycle e m) = Document (config (find_keyboard e m).2) \/
   config_file (cycle e m) = Document (config (cycle e m))) /\
  (config_writable e = true ->
   (config (cycle e m) = config m /\ config_file (cycle e m) = config_file m) \/
   config_file (cycle e m) = Document (config (cycle e m))).
Proof.
  destruct (cycle_store_cases e m) as [[Hc Hf]|(_ & _ & Hw & Hf)]; simpl in *.
  - split; [left; exact Hf|]. intros _. left. split; [exact Hc|exact Hf].
  - split; [exact Hf|]. intros W. right. exact (Hw W).
Qed.

Lemma X2_witness :
  let e := world [nice_nano] true [(1, [1; 75; 60; 0; 0])] in
  (config (cycle e fresh) = config fresh /\ config_file (cycle e fresh) = Absent) \/
  config_file (cycle e fresh) = Document (config (cycle e fresh)).
Proof.
  intros e. apply (proj2 (X2_config_file_after_cycle e fresh)). reflexivity.
Defined.

(** When the save of the selected device writes its document and the save
    of the mapping is refused, the file is left with the device and
    without the mapping that the configuration in memory has. *)
Example mapping_save_refused :
  let e := world [nice_nano] true [(1, [1; 75; 60; 0; 0])] in
  let half :=
    {| str_lower := str_lower e;
       hid_enumerate := hid_enumerate e; hid_open := hid_open e;
       hid_get_feature_report := hid_get_feature_report e; clock := clock e;
       config_write := fun site => match site with
                                   | OnSelect => Written
                                   | OnLearn => Refused
                                   end;
       log_writable := true; gui_available := true |} in
  match config_file (cycle half fresh) with
  | Document d =>
      d !! "vendor_id" = Some (JInt 7504) /\ d !! "report_id" = Some JNull
  | _ => False
  end /\
  config (cycle half fresh) !! "report_id" = Some (JInt 1).
Proof. vm_compute. repeat split; reflexivity. Qed.

(** ** What a restart would load *)

(** X3: as long as the configuration file can be written, what a restart
    would load from it is what the running monitor has in memory: this
    holds when the monitor is constructed and the worker keeps it, however
    long it runs. *)
Theorem X3_restart_loads_current_config (envs : nat -> environment) (fuel : nat)
    (w : worker) (m : monitor) :
  (forall i, config_writable (envs i) = true) ->
  load_config (config_file m) = Dict (config m) ->
  let m' := run_monitor (worker_run envs fuel w m) in
  load_config (config_file m') = Dict (config m').
Proof.
  intros Hw Hm.
  apply (worker_run_keeps (fun e => config_writable e = true)
           (fun m' => load_config (config_file m') = Dict (config m'))); auto.
  clear. intros e m W Hm.
  destruct (cycle_store_cases e m) as [[Hc Hf]|(_ & Hk & Hf & _)]; simpl in *.
  - rewrite Hc, Hf. exact Hm.
  - rewrite (Hf W). simpl. f_equal. apply merge_defaults_complete.
    intros key Hd. apply Hk. apply (load_config_complete _ _ key Hm). exact Hd.
Qed.

Lemma X3_witness :
  let envs := fun _ : nat => world [nice_nano] true [(1, [1; 75; 60; 0; 0])] in
  let m := set_running true (loaded_from {[ "theme" := JStr "dark" ]}) in
  let m' := run_monitor (worker_run envs 50 AtWhile m) in
  load_config (config_file m') = Dict (config m').
Proof.
  intros envs m.
  apply (X3_restart_loads_current_config envs 50 AtWhile m).
  - intros i. reflexivity.
  - reflexivity.
Defined.

(** X22: loading and saving a dictionary.  Whatever [load_config] returns
    as a dictionary has the nine default keys.  From a file holding an
    object every stored value is loaded, the unknown keys included, and
    the missing keys get their defaults.  A save that writes its document
    stores the whole configuration, and a load of that file gives the
    configuration back: loading, saving and loading again gives what the
    first load gave.  After a save that emptied the file and failed, the
    defaults are loaded; a save that could not open the file changes
    nothing.  A missing file, or one on which the [try] raises, gives the
    defaults. *)
Theorem X22_dictionary_load_and_save (f : config_file_state) (c : gmap string json) :
  load_config f = Dict c ->
  (forall key,
     In key ["update_interval"; "low_battery_threshold"; "critical_battery_threshold";
             "vendor_id"; "product_id"; "device_name"; "report_id";
             "left_battery_index"; "right_battery_index"] ->
     is_Some (c !! key)) /\
  (forall d key v, f = Document d -> d !! key = Some v -> c !! key = Some v) /\
  (forall d key, f = Document d -> d !! key = None -> c !! key = DEFAULT_CONFIG !! key) /\
  (forall e site log,
     config_write e site = Written ->
     config_file (save_config e site (blank c f log)) = Document c /\
     load_config (config_file (save_config e site (blank c f log))) = Dict c) /\
  (forall e site log,
     config_write e site = Truncated ->
     load_config (config_file (save_config e site (blank c f log))) = Dict DEFAULT_CONFIG) /\
  (forall e site log,
     config_write e site = Refused ->
     save_config e site (blank c f log) = blank c f log) /\
  load_config Absent = Dict DEFAULT_CONFIG /\
  load_config Unparseable = Dict DEFAULT_CONFIG.
Proof.
  intros L. split; [|split; [|split; [|split; [|split; [|split; [|split]]]]]].
  - intros key Hin. apply (load_config_complete f c key L).
    apply default_keys_defined. exact Hin.
  - intros d key v -> Hv. cbn [load_config] in L. injection L as <-.
    rewrite merge_defaults_lookup, Hv. reflexivity.
  - intros d key -> Hv. cbn [load_config] in L. injection L as <-.
    rewrite merge_defaults_lookup, Hv. reflexivity.
  - intros e site log W. rewrite save_config_file, W. cbn [after_save blank config].
    split; [reflexivity|]. apply (load_config_idempotent f c L).
  - intros e site log W. rewrite save_config_file, W. reflexivity.
  - intros e site log W. unfold save_config. rewrite W. reflexivity.
  - reflexivity.
  - reflexivity.
Qed.

Lemma X22_witness :
  let d : gmap string json := {[ "update_interval" := JInt 60; "theme" := JStr "dark" ]} in
  let c := merge_defaults d in
  c !! "theme" = Some (JStr "dark") /\
  c !! "update_interval" = Some (JInt 60) /\
  c !! "low_battery_threshold" = Some (JInt 20) /\
  is_Some (c !! "report_id") /\
  load_config (config_file (save_config (world [] false []) OnSelect
                              (blank c (Document d) None))) = Dict c.
Proof.
  intros d c.
  destruct (X22_dictionary_load_and_save (Document d) c eq_refl)
    as (Hall & Hkeep & Hfill & Hsave & _).
  split; [|split; [|split; [|split]]].
  - apply (Hkeep d); [reflexivity|vm_compute; reflexivity].
  - apply (Hkeep d); [reflexivity|vm_compute; reflexivity].
  - rewrite (Hfill d); [vm_compute; reflexivity|reflexivity|vm_compute; reflexivity].
  - apply Hall. simpl. tauto.
  - apply (Hsave (world [] false []) OnSelect None). reflexivity.
Defined.

(** X23: what [load_config] can return.  It returns a dictionary that has
    every default key, except for a file whose document is a list that
    holds every default key as an element, or a string in which every
    default key occurs: that list or string is returned as it is. *)
Theorem X23_load_config_outcomes (f : config_file_state) :
  (exists c, load_config f = Dict c /\
             forall key, is_Some (DEFAULT_CONFIG !! key) -> is_Some (c !! key)) \/
  (exists v, f = Other v /\ load_config f = NotDict v /\
             ((exists l, v = JList l /\
                         forall key, is_Some (DEFAULT_CONFIG !! key) -> In (JStr key) l) \/
              (exists s, v = JStr s /\
                         forall key, is_Some (DEFAULT_CONFIG !! key) -> occurs_in key s))).
Proof.
  destruct (load_config f) as [c|v'] eqn:L.
  - left. exists c. split; [reflexivity|].
    intros key. apply (load_config_complete f c key L).
  - right. destruct f as [| |d|v]; cbn [load_config] in L; try discriminate.
    destruct v; try discriminate.
    + destruct (forallb _ default_items) eqn:A; [|discriminate]. injection L as <-.
      exists (JStr s). split; [reflexivity|]. split; [reflexivity|].
      right. exists s. split; [reflexivity|]. intros key Hk.
      apply contains_occurs.
      apply (proj1 (default_items_keys (fun key => contains key s)) A key Hk).
    + destruct (forallb _ default_items) eqn:A; [|discriminate]. injection L as <-.
      exists (JList l). split; [reflexivity|]. split; [reflexivity|].
      left. exists l. split; [reflexivity|]. intros key Hk.
      apply key_in_list_In.
      apply (proj1 (default_items_keys (fun key => key_in_list key l)) A key Hk).
Qed.

(** ** The worker over many steps *)

Lemma worker_run_S (envs : nat -> environment) (fuel : nat) (w : worker) (m : monitor) :
  worker_run envs (S fuel) w m =
    let s := worker_step (envs 0%nat) w m in
    let r := worker_run (fun i => envs (S i)) fuel s.1.1 s.1.2 in
    (run_worker r, run_monitor r, (s.2 ++ run_events r)%list).
Proof.
  cbn [worker_run]. destruct (worker_step (envs 0%nat) w m) as [[w1 m1] ev1]. simpl.
  destruct (worker_run (fun i => envs (S i)) fuel w1 m1) as [[w2 m2] ev2]. reflexivity.
Qed.

(** A cycle does not touch the interval. *)
Lemma cycle_sleep_rounds (e : environment) (m : monitor) :
  sleep_rounds (config (cycle e m)) = sleep_rounds (config m).
Proof.
  unfold sleep_rounds.
  destruct (cycle_store_cases e m) as [[-> _]|(Hf & _)]; [reflexivity|].
  simpl in Hf. rewrite Hf; [reflexivity|].
  unfold assigned_keys. simpl. intros [H|[H|[H|[H|[H|[H|[]]]]]]]; discriminate.
Qed.

(** X4: the worker never leaves its loop by itself.  With the flag set
    and an integer interval in the configuration, no number of steps
    brings a worker that is in the loop to its end, whatever happens to
    the device, the files or the tray in between. *)
Theorem X4_worker_runs_until_stopped (envs : nat -> environment) (fuel : nat)
    (w : worker) (m : monitor) (n : nat) :
  running m = true ->
  sleep_rounds (config m) = Ok n ->
  ended w = false ->
  ended (run_worker (worker_run envs fuel w m)) = false /\
  running (run_monitor (worker_run envs fuel w m)) = true.
Proof.
  revert envs w m. induction fuel as [|fuel IH]; intros envs w m Hrun Hn Hw.
  - simpl. auto.
  - rewrite worker_run_S. cbv zeta. unfold run_worker at 1, run_monitor at 1. simpl.
    destruct w as [| |[|k]|k| |x]; try discriminate; simpl; rewrite ?Hrun; simpl.
    + apply IH; auto.
    + rewrite cycle_sleep_rounds, Hn. simpl.
      apply IH; auto.
      * rewrite cycle_running. exact Hrun.
      * rewrite cycle_sleep_rounds. exact Hn.
    + apply IH; auto.
    + apply IH; auto.
    + apply IH; auto.
Qed.

Lemma X4_witness :
  let envs := fun _ : nat => world [] false [] in
  let m := start_monitoring fresh in
  ended (run_worker (worker_run envs 1000 AtWhile m)) = false /\
  running (run_monitor (worker_run envs 1000 AtWhile m)) = true.
Proof.
  intros envs m.
  apply (X4_worker_runs_until_stopped envs 1000 AtWhile m 300); reflexivity.
Defined.

Lemma worker_run_died (envs : nat -> environment) (fuel : nat) (x : exn) (m : monitor) :
  worker_run envs fuel (Died x) m = (Died x, m, []).
Proof.
  revert envs. induction fuel as [|fuel IH]; intros envs; [reflexivity|].
  rewrite worker_run_S. simpl. rewrite IH. reflexivity.
Qed.

(** X5: an interval that is not an integer ends the worker for good.  When
    the configuration holds no integer under [update_interval] (the key is
    missing, or its value is [null], a string, a list or an object), a
    started worker runs one cycle and then dies of the exception raised by
    [range]: it never sleeps and never runs a second cycle, although the
    flag is still set. *)
Theorem X5_worker_dies_on_bad_interval (envs : nat -> environment) (fuel : nat)
    (m : monitor) :
  running m = true ->
  threshold (config m) "update_interval" = None ->
  exists x,
    run_worker (worker_run envs (2 + fuel) AtWhile m) = Died x /\
    run_events (worker_run envs (2 + fuel) AtWhile m) = [Cycled] /\
    running (run_monitor (worker_run envs (2 + fuel) AtWhile m)) = true.
Proof.
  intros Hrun Hbad.
  assert (exists x, sleep_rounds (config m) = Raise x) as [x Hx].
  { unfold threshold in Hbad. unfold sleep_rounds.
    destruct (config m !! "update_interval") as [v|]; [|eauto].
    rewrite Hbad. eauto. }
  exists x. change (2 + fuel)%nat with (S (S fuel)).
  rewrite worker_run_S. simpl worker_step. rewrite Hrun. cbv zeta. cbn [fst snd].
  rewrite worker_run_S. simpl worker_step. rewrite cycle_sleep_rounds, Hx.
  cbv zeta. cbn [fst snd].
  rewrite worker_run_died. unfold run_worker, run_events, run_monitor. simpl.
  rewrite cycle_running. auto.
Qed.

Lemma X5_witness :
  let envs := fun _ : nat => world [keyboard] true [(1, [1; 75; 60; 0; 0])] in
  let m := start_monitoring
             (loaded_from {[ "update_interval" := JStr "300" ]}) in
  exists x,
    run_worker (worker_run envs 100 AtWhile m) = Died x /\
    run_events (worker_run envs 100 AtWhile m) = [Cycled] /\
    running (run_monitor (worker_run envs 100 AtWhile m)) = true.
Proof.
  intros envs m.
  apply (X5_worker_dies_on_bad_interval envs 98 m); vm_compute; reflexivity.
Defined.

(** X6: one round of the loop is one cycle followed by as many one-second
    sleeps as the interval says, no sleep at all for an interval of zero
    or less, after which the worker is back at the test of its [while]
    with the monitor as the cycle left it.  (The cycle is the second step
    of the round and meets the environment of that step.) *)
Theorem X6_round_of_the_loop (envs : nat -> environment) (m : monitor) (t : Z) :
  running m = true ->
  threshold (config m) "update_interval" = Some t ->
  worker_run envs (2 * Z.to_nat t + 3) AtWhile m =
    (AtWhile, cycle (envs 1%nat) m, Cycled :: repeat Slept (Z.to_nat t)).
Proof.
  intros Hrun Ht.
  assert (sleep_rounds (config m) = Ok (Z.to_nat t)) as Hn.
  { unfold threshold in Ht. unfold sleep_rounds.
    destruct (config m !! "update_interval") as [v|]; [|discriminate].
    rewrite Ht. reflexivity. }
  replace (2 * Z.to_nat t + 3)%nat with (S (S (2 * Z.to_nat t + 1))) by lia.
  rewrite worker_run_S. simpl worker_step. rewrite Hrun. cbv zeta. cbn [fst snd].
  rewrite worker_run_S. simpl worker_step. rewrite cycle_sleep_rounds, Hn.
  cbv zeta. cbn [fst snd].
  rewrite sleep_loop_rounds by (rewrite cycle_running; exact Hrun).
  reflexivity.
Qed.

Lemma X6_witness :
  let envs := fun _ : nat => world [keyboard] true [(1, [1; 75; 60; 0; 0])] in
  let eager := start_monitoring
                 (loaded_from {[ "update_interval" := JInt (-5) ]}) in
  let calm := start_monitoring (loaded_from {[ "update_interval" := JInt 2 ]}) in
  run_events (worker_run envs 3 AtWhile eager) = [Cycled] /\
  run_events (worker_run envs 7 AtWhile calm) = [Cycled; Slept; Slept].
Proof.
  intros envs eager calm. split.
  - change 3%nat with (2 * Z.to_nat (-5) + 3)%nat.
    rewrite (X6_round_of_the_loop envs eager (-5)); vm_compute; reflexivity.
  - change 7%nat with (2 * Z.to_nat 2 + 3)%nat.
    rewrite (X6_round_of_the_loop envs calm 2); vm_compute; reflexivity.
Defined.

(** ** Shutdown *)

(** While the flag stays set, [k] rounds of the sleep loop started for
    [n] rounds are [k] times a test of the flag and a sleep of one second,
    and leave the worker at the test of the flag with [n - k] rounds to
    go. *)
Lemma sleep_loop_prefix (envs : nat -> environment) (n k : nat) (m : monitor) :
  running m = true -> (k <= n)%nat ->
  worker_run envs (2 * k) (AtFor n) m = (AtFor (n - k), m, repeat Slept k).
Proof.
  intros Hrun. revert envs n. induction k as [|k IH]; intros envs n Hk.
  - rewrite Nat.sub_0_r. reflexivity.
  - destruct n as [|n]; [lia|].
    replace (2 * S k)%nat with (S (S (2 * k))) by lia.
    cbn [worker_run worker_step]. rewrite Hrun. cbn [worker_run worker_step].
    rewrite IH by lia. reflexivity.
Qed.

(** C9: the number of rounds of the sleep loop is the interval read from
    the configuration; each round is a test of the flag followed by a
    sleep of one second, so that after [k] seconds of sleep the worker
    stands at a test of the flag, and after as many seconds as the
    interval says it is back at the test of its [while].
    [stop_monitoring] clears the flag.  A
    worker that then reaches the test leaves both loops without sleeping
    again, a worker in the middle of a sleep finishes that one sleep and
    leaves, and from wherever it stands the worker has ended three steps
    later with at most one sleep on the way.  [stop_monitoring] joins a
    thread that was started with the timeout 2, and makes no other call
    that waits: it waits until the thread has ended or two seconds have
    passed, whichever comes first, two seconds for a thread that never
    ends, and not at all when no thread was started. *)
Theorem C9_stop_is_bounded (envs : nat -> environment) (w : worker) (m : monitor)
    (t : Z) :
  let stopped := (stop_monitoring m).1 in
  (running m = true ->
   threshold (config m) "update_interval" = Some t ->
   (forall k, (k <= Z.to_nat t)%nat ->
      worker_run envs (2 + 2 * k) AtWhile m
      = (AtFor (Z.to_nat t - k), cycle (envs 1%nat) m, Cycled :: repeat Slept k)) /\
   worker_run envs (3 + 2 * Z.to_nat t) AtWhile m
   = (AtWhile, cycle (envs 1%nat) m, Cycled :: repeat Slept (Z.to_nat t))) /\
  running stopped = false /\
  (forall k, worker_run envs 2 (AtFor (S k)) stopped = (Returned, stopped, [])) /\
  (forall k, worker_run envs 3 (InSleep k) stopped = (Returned, stopped, [Slept])) /\
  (let '(w', m', evs) := worker_run envs 3 w stopped in
   ended w' = true /\ (sleeps evs <= 1)%nat /\ running m' = false) /\
  (running m = false -> (stop_monitoring (start_monitoring m)).2 = Some 2) /\
  (monitor_thread m = true ->
   (stop_monitoring m).2 = Some 2 /\
   forall thread_ends_in,
     stop_wait m thread_ends_in
     = match thread_ends_in with Some s => Z.min 2 s | None => 2 end) /\
  (monitor_thread m = false ->
   (stop_monitoring m).2 = None /\
   forall thread_ends_in, stop_wait m thread_ends_in = 0) /\
  (forall thread_ends_in,
     match thread_ends_in with Some s => 0 <= s | None => True end ->
     0 <= stop_wait m thread_ends_in <= 2).
Proof.
  intros stopped.
  split; [|split; [|split; [|split; [|split; [|split; [|split; [|split]]]]]]].
  - intros Hrun Ht.
    assert (sleep_rounds (config m) = Ok (Z.to_nat t)) as Hn.
    { unfold threshold in Ht. unfold sleep_rounds.
      destruct (config m !! "update_interval") as [v|]; [|discriminate].
      rewrite Ht. reflexivity. }
    split.
    + intros k Hk. change (2 + 2 * k)%nat with (S (S (2 * k))).
      rewrite worker_run_S. simpl worker_step. rewrite Hrun. cbv zeta. cbn [fst snd].
      rewrite worker_run_S. simpl worker_step. rewrite cycle_sleep_rounds, Hn.
      cbv zeta. cbn [fst snd].
      rewrite sleep_loop_prefix by (rewrite ?cycle_running; assumption).
      reflexivity.
    + replace (3 + 2 * Z.to_nat t)%nat with (S (S (2 * Z.to_nat t + 1))) by lia.
      rewrite worker_run_S. simpl worker_step. rewrite Hrun. cbv zeta. cbn [fst snd].
      rewrite worker_run_S. simpl worker_step. rewrite cycle_sleep_rounds, Hn.
      cbv zeta. cbn [fst snd].
      rewrite sleep_loop_rounds by (rewrite cycle_running; exact Hrun).
      reflexivity.
  - reflexivity.
  - intros k. reflexivity.
  - intros [|k]; reflexivity.
  - apply worker_stops. reflexivity.
  - intros Hrun. unfold start_monitoring. rewrite Hrun. reflexivity.
  - intros Hthread. unfold stop_wait, stop_monitoring. cbn [fst snd]. rewrite Hthread.
    split; [reflexivity|]. intros [s|]; reflexivity.
  - intros Hthread. unfold stop_wait, stop_monitoring. cbn [fst snd]. rewrite Hthread.
    split; reflexivity.
  - intros ends Hends. unfold stop_wait, stop_monitoring, join_wait. cbn [fst snd].
    destruct (monitor_thread m); [|lia]. destruct ends as [s|]; lia.
Qed.

Lemma C9_witness :
  let envs := fun _ : nat => world [keyboard] true [(1, [1; 75; 60; 0; 0])] in
  let m := start_monitoring paired in
  let stopped := (stop_monitoring m).1 in
  run_events (worker_run envs 242 AtWhile m) = Cycled :: repeat Slept 120 /\
  run_worker (worker_run envs 242 AtWhile m) = AtFor 180 /\
  run_events (worker_run envs 603 AtWhile m) = Cycled :: repeat Slept 300 /\
  run_worker (worker_run envs 603 AtWhile m) = AtWhile /\
  worker_run envs 2 (AtFor 180) stopped = (Returned, stopped, []) /\
  worker_run envs 3 (InSleep 179) stopped = (Returned, stopped, [Slept]) /\
  (stop_monitoring m).2 = Some 2 /\
  stop_wait m (Some 1) = 1 /\
  stop_wait m None = 2.
Proof.
  intros envs m stopped.
  destruct (C9_stop_is_bounded envs (InSleep 179) m 300)
    as (Hrounds & _ & Htest & Hsleep & _ & _ & Hjoin & _).
  assert (running m = true) as Hrun by reflexivity.
  assert (threshold (config m) "update_interval" = Some 300) as Ht
    by (vm_compute; reflexivity).
  assert (monitor_thread m = true) as Hthread by reflexivity.
  destruct (Hrounds Hrun Ht) as (Hprefix & Hround).
  specialize (Hprefix 120%nat ltac:(vm_compute; lia)).
  change (2 + 2 * 120)%nat with 242%nat in Hprefix.
  change (3 + 2 * Z.to_nat 300)%nat with 603%nat in Hround.
  destruct (Hjoin Hthread) as (Hj & Hw).
  split; [rewrite Hprefix; reflexivity|].
  split; [rewrite Hprefix; reflexivity|].
  split; [rewrite Hround; reflexivity|].
  split; [rewrite Hround; reflexivity|].
  split; [apply Htest|]. split; [apply Hsleep|].
  split; [exact Hj|]. split; [apply (Hw (Some 1))|apply (Hw None)].
Defined.

(** ** The series file over time *)

Lemma string_app_assoc (a b c : string) : (a +:+ b) +:+ c = a +:+ (b +:+ c).
Proof.
  induction a as [|ch a IH]; [reflexivity|].
  change (String ch ((a +:+ b) +:+ c) = String ch (a +:+ (b +:+ c))).
  rewrite IH. reflexivity.
Qed.

Lemma string_app_empty (a : string) : a +:+ "" = a.
Proof.
  induction a as [|ch a IH]; [reflexivity|].
  change (String ch (a +:+ "") = String ch a). rewrite IH. reflexivity.
Qed.

Lemma result_eq_true (found : result bool) : found = Ok true \/ found <> Ok true.
Proof. destruct found as [[|]|x]; [left; reflexivity|right; discriminate|right; discriminate]. Qed.

(** A cycle leaves the series file alone or appends one row to it, after
    the header if the file was not there. *)
Lemma cycle_log_file (e : environment) (m : monitor) :
  log_file (cycle e m) = log_file m \/
  exists b, log_file (cycle e m) =
              Some (match log_file m with Some text => text | None => header end
                    +:+ row b).
Proof.
  destruct (find_keyboard_frame e m) as (_ & Fl & _).
  destruct (find_keyboard e m) as [found m1] eqn:F. simpl in Fl.
  destruct (result_eq_true found) as [->|Hne].
  - destruct (resolve_frame e m1) as (_ & Rl & _).
    destruct (resolve e m1) as [[l r] m2] eqn:R. simpl in Rl.
    rewrite (cycle_with_keyboard e m m1 m2 l r F R).
    destruct (log_writable e).
    + right. eexists.
      set (m3 := set_log_file _ _).
      destruct (update_tray_frame e m3) as (_ & _ & _ & Ul & _).
      assert (log_file (if icon m2 then (update_tray e m3).2 else m3) = log_file m3) as ->
        by (destruct (icon m2); [exact Ul|reflexivity]).
      subst m3. simpl. rewrite Rl, Fl. reflexivity.
    + left. simpl. congruence.
  - left. rewrite cycle_without_keyboard by (rewrite F; exact Hne).
    rewrite F. exact Fl.
Qed.

(** X7: the series file is append-only.  However long the worker runs,
    the text the file held before is still the beginning of the file, and
    a file the program created begins with the header line. *)
Theorem X7_series_is_append_only (envs : nat -> environment) (fuel : nat)
    (w : worker) (m : monitor) :
  let m' := run_monitor (worker_run envs fuel w m) in
  (forall text, log_file m = Some text ->
                exists suffix, log_file m' = Some (text +:+ suffix)) /\
  (log_file m = None ->
   log_file m' = None \/
   exists suffix,
     log_file m' = Some ("timestamp,left_battery,right_battery" +:+ newline +:+ suffix)).
Proof.
  apply (worker_run_keeps (fun _ => True)
    (fun m' =>
       (forall text, log_file m = Some text ->
                     exists suffix, log_file m' = Some (text +:+ suffix)) /\
       (log_file m = None ->
        log_file m' = None \/
        exists suffix,
          log_file m' = Some ("timestamp,left_battery,right_battery" +:+ newline +:+ suffix))));
    auto.
  - intros e m0 _ [Hsome Hnone].
    destruct (cycle_log_file e m0) as [->|[b Hb]]; [auto|]. rewrite Hb. split.
    + intros text Ht. destruct (Hsome text Ht) as [suffix ->].
      exists (suffix +:+ row b). rewrite string_app_assoc. reflexivity.
    + intros Hn. right. destruct (Hnone Hn) as [->|[suffix ->]].
      * exists (row b). reflexivity.
      * exists (suffix +:+ row b). unfold header.
        rewrite !string_app_assoc. reflexivity.
  - split.
    + intros text Ht. exists "". rewrite string_app_empty. exact Ht.
    + auto.
Qed.

Lemma X7_witness :
  let envs := fun _ : nat => world [keyboard] true [(1, [1; 75; 60; 0; 0])] in
  let m := set_log_file (Some "old text") (start_monitoring paired) in
  exists suffix,
    log_file (run_monitor (worker_run envs 20 AtWhile m)) = Some ("old text" +:+ suffix).
Proof.
  intros envs m.
  apply (proj1 (X7_series_is_append_only envs 20 AtWhile m)). reflexivity.
Defined.

(** ** Without a tray *)

Lemma cycle_without_icon (e : environment) (m : monitor) :
  icon m = false ->
  icon (cycle e m) = false /\ tooltips (cycle e m) = tooltips m /\
  notifications (cycle e m) = notifications m.
Proof.
  intros Hi. unfold cycle, cycle_body.
  destruct (find_keyboard_frame e m) as (_ & _ & Ft & Fn & _ & Fi & _).
  destruct (find_keyboard e m) as [[[|]|x] m1]; simpl in *;
    try (repeat split; congruence).
  unfold read_battery_levels.
  destruct (resolve_frame e m1) as (_ & _ & Rt & Rn & Ri & _).
  destruct (resolve e m1) as [[l r] m2]. simpl in *.
  unfold log_battery_levels. destruct (log_writable e); simpl.
  - assert (icon m2 = false) as -> by congruence. simpl. repeat split; congruence.
  - repeat split; congruence.
Qed.

(** X8: without a tray icon (command-line mode, or a tray that could not
    be created) the worker never dispatches a notification and never sets
    a tooltip, whatever levels it reads and however long it runs. *)
Theorem X8_no_tray_no_notification (envs : nat -> environment) (fuel : nat)
    (w : worker) (m : monitor) :
  icon m = false ->
  let m' := run_monitor (worker_run envs fuel w m) in
  notifications m' = notifications m /\ tooltips m' = tooltips m.
Proof.
  intros Hi.
  assert (icon (run_monitor (worker_run envs fuel w m)) = false /\
          tooltips (run_monitor (worker_run envs fuel w m)) = tooltips m /\
          notifications (run_monitor (worker_run envs fuel w m)) = notifications m)
    as (_ & Ht & Hn).
  { apply (worker_run_keeps (fun _ => True)
             (fun m' => icon m' = false /\ tooltips m' = tooltips m /\
                        notifications m' = notifications m)); auto.
    intros e m0 _ (Hi0 & Ht0 & Hn0).
    destruct (cycle_without_icon e m0 Hi0) as (H1 & H2 & H3).
    repeat split; congruence. }
  simpl. auto.
Qed.

Lemma X8_witness :
  let envs := fun _ : nat => world [keyboard] true [(1, [1; 5; 3; 0; 0])] in
  let m := start_monitoring paired in
  let m' := run_monitor (worker_run envs 20 AtWhile m) in
  left_battery (battery_levels m') = Some 5 /\
  notifications m' = [] /\ tooltips m' = [].
Proof.
  intros envs m m'. split.
  - vm_compute. reflexivity.
  - apply (X8_no_tray_no_notification envs 20 AtWhile m). reflexivity.
Defined.

(** ** Levels are percentages *)

Lemma scan_reports_percentages (e : environment) (valid_reports : list (Z * list Z))
    (m : monitor) :
  percentage (scan_reports e valid_reports m).1.1 /\
  percentage (scan_reports e valid_reports m).1.2.
Proof.
  induction valid_reports as [|[report_id report] rest IH]; simpl; [auto|].
  destruct (potential_battery_values report) as [|[i b] [|[i' b'] l]] eqn:P; simpl.
  - exact IH.
  - split; [|exact I].
    apply (potential_battery_values_elem report i b). rewrite P. left. reflexivity.
  - split.
    + apply (potential_battery_values_elem report i b). rewrite P. left. reflexivity.
    + apply (potential_battery_values_elem report i' b'). rewrite P. right. left. reflexivity.
Qed.

Lemma stored_byte_percentage (report : list Z) (i : Z) (level : option Z) :
  (if i <? Z.of_nat (length report)
   then match py_index report i with
        | Some b => Ok (if in_range b then Some b else None)
        | None => Raise IndexError
        end
   else Ok None) = Ok level ->
  percentage level.
Proof.
  destruct (i <? Z.of_nat (length report)); [|intros E; inversion E; exact I].
  destruct (py_index report i) as [b|]; [|discriminate].
  destruct (in_range b) eqn:R; intros E; inversion E; [|exact I].
  simpl. apply in_range_bounds. exact R.
Qed.

Lemma stored_value_percentage (index : json) (report : list Z) (level : option Z) :
  stored_value index report = Ok level -> percentage level.
Proof.
  unfold stored_value. intros H.
  destruct index; simpl in H; try discriminate.
  - inversion H. exact I.
  - apply stored_byte_percentage in H. exact H.
  - apply stored_byte_percentage in H. exact H.
Qed.

Lemma read_stored_percentages (get : nat -> Z -> option (list Z)) (k : nat)
    (c : gmap string json) :
  percentage (read_stored get k c).1.1 /\ percentage (read_stored get k c).1.2.
Proof.
  unfold read_stored.
  destruct (c !! "report_id") as [v|]; simpl; [|auto].
  destruct (as_int v) as [report_id|]; simpl; [|auto].
  destruct (get k report_id) as [report|]; simpl; [|auto].
  destruct (c !! "left_battery_index") as [li|]; simpl; [|auto].
  destruct (stored_value li report) as [l|x] eqn:L; simpl; [|auto].
  apply stored_value_percentage in L.
  destruct (c !! "right_battery_index") as [ri|]; simpl; [|auto].
  destruct (stored_value ri report) as [r|x] eqn:R; simpl; [|auto].
  apply stored_value_percentage in R. auto.
Qed.

Lemma resolve_percentages (e : environment) (m : monitor) :
  percentage (resolve e m).1.1 /\ percentage (resolve e m).1.2.
Proof.
  unfold resolve. destruct (open_device e (config m)); [|simpl; auto].
  pose proof (scan_reports_percentages e
    (collect_valid_reports (hid_get_feature_report e) 0 report_ids)
    (add_requests report_ids m)) as S.
  destruct (scan_reports e _ (add_requests report_ids m)) as [[l r] m1].
  simpl in S. destruct l as [l|]; [exact S|]. destruct r as [r|]; [exact S|].
  pose proof (read_stored_percentages (hid_get_feature_report e) (length report_ids)
                (config m1)) as T.
  destruct (read_stored _ _ (config m1)) as [[l' r'] asked]. exact T.
Qed.

(** The reading after a cycle is the one before it or the one that
    [read_battery_levels] stored. *)
Lemma cycle_battery_levels (e : environment) (m : monitor) :
  battery_levels (cycle e m) = battery_levels m \/
  battery_levels (cycle e m) =
    battery_levels (read_battery_levels e (find_keyboard e m).2).2.
Proof.
  destruct (find_keyboard_frame e m) as (Fb & _).
  destruct (find_keyboard e m) as [found m1] eqn:F. simpl in Fb.
  destruct (result_eq_true found) as [->|Hne].
  - right. simpl.
    destruct (resolve e m1) as [[l r] m2] eqn:R.
    rewrite (cycle_with_keyboard e m m1 m2 l r F R).
    destruct (read_battery_levels_reading e m1 m2 l r R) as (-> & _).
    destruct (log_writable e); [|reflexivity].
    set (m3 := set_log_file _ _).
    destruct (update_tray_frame e m3) as (_ & _ & Ub & _).
    destruct (icon m2); [rewrite Ub|]; reflexivity.
  - left. rewrite cycle_without_keyboard by (rewrite F; exact Hne).
    rewrite F. exact Fb.
Qed.

(** X9: every level the monitor retains is a percentage.  Whatever bytes
    the device sends and whatever the configuration holds, a level that
    [read_battery_levels] stores lies in 0..100; a monitor that starts
    with such levels (or none) keeps this however long the worker runs. *)
Theorem X9_levels_are_percentages (envs : nat -> environment) (fuel : nat)
    (w : worker) (m : monitor) :
  (forall e,
     percentage (left_battery (battery_levels (read_battery_levels e m).2)) /\
     percentage (right_battery (battery_levels (read_battery_levels e m).2))) /\
  (percentage (left_battery (battery_levels m)) ->
   percentage (right_battery (battery_levels m)) ->
   let m' := run_monitor (worker_run envs fuel w m) in
   percentage (left_battery (battery_levels m')) /\
   percentage (right_battery (battery_levels m'))).
Proof.
  assert (forall e m0,
     percentage (left_battery (battery_levels (read_battery_levels e m0).2)) /\
     percentage (right_battery (battery_levels (read_battery_levels e m0).2))) as Hread.
  { intros e m0. pose proof (resolve_percentages e m0) as H.
    destruct (resolve e m0) as [[l r] m1] eqn:R.
    destruct (read_battery_levels_reading e m0 m1 l r R) as (-> & _). exact H. }
  split; [intros e; apply Hread|].
  intros Hl Hr.
  apply (worker_run_keeps (fun _ => True)
           (fun m' => percentage (left_battery (battery_levels m')) /\
                      percentage (right_battery (battery_levels m')))); auto.
  intros e m0 _ H0. destruct (cycle_battery_levels e m0) as [->| ->]; [exact H0|].
  apply Hread.
Qed.

Lemma X9_witness :
  let envs := fun _ : nat => world [keyboard] true [(1, [1; 250; 101; 100; 255; 7])] in
  let m' := run_monitor (worker_run envs 20 AtWhile (start_monitoring paired)) in
  percentage (left_battery (battery_levels m')) /\
  percentage (right_battery (battery_levels m')).
Proof.
  intros envs.
  apply (proj2 (X9_levels_are_percentages envs 20 AtWhile (start_monitoring paired)));
    exact I.
Defined.

(** ** Reading twice *)

(** What a scan finds does not depend on the monitor: it finds nothing, or
    the same levels and the same mapping to learn. *)
Lemma scan_reports_learn (e : environment) (valid_reports : list (Z * list Z)) :
  (forall m, scan_reports e valid_reports m = (None, None, m)) \/
  (exists report_id i ri b r,
     forall m, scan_reports e valid_reports m = (Some b, r, learn e report_id i ri m)).
Proof.
  induction valid_reports as [|[report_id report] rest IH]; [left; reflexivity|].
  simpl. destruct (potential_battery_values report) as [|[i b] [|[i' b'] l]].
  - exact IH.
  - right. exists report_id, i, None, b, None. reflexivity.
  - right. exists report_id, i, (Some i'), b, (Some b'). reflexivity.
Qed.

(** Once learned, a mapping is not learned again. *)
Lemma learn_settles (e : environment) (report_id : Z) (i : nat) (ri : option nat)
    (m : monitor) :
  report_id_differs (config (learn e report_id i ri m)) report_id = false.
Proof.
  unfold learn. destruct (report_id_differs (config m) report_id) eqn:D; [|exact D].
  assert (config (save_config e OnLearn
            (set_config (store_mapping report_id i ri (config m)) m))
          = store_mapping report_id i ri (config m)) as ->
    by (unfold save_config; destruct (config_write e OnLearn); reflexivity).
  unfold report_id_differs.
  destruct (store_mapping_lookup report_id i ri (config m)) as (-> & _).
  unfold py_eq_int. simpl. rewrite Z.eqb_refl. reflexivity.
Qed.

Lemma open_device_same_ids (e : environment) (c c' : gmap string json) :
  c' !! "vendor_id" = c !! "vendor_id" ->
  c' !! "product_id" = c !! "product_id" ->
  open_device e c' = open_device e c.
Proof. intros Hv Hp. unfold open_device. rewrite Hv, Hp. reflexivity. Qed.

(** X10: reading again from a device that answers as before gives the
    same levels and writes nothing: after one [read_battery_levels], a
    second one in the same surroundings leaves the configuration and its
    file exactly as the first left them (a save that failed the first
    time is not tried again), and stores the same two levels. *)
Theorem X10_second_read_writes_nothing (e : environment) (m : monitor) :
  let m1 := (read_battery_levels e m).2 in
  let m2 := (read_battery_levels e m1).2 in
  config m2 = config m1 /\ config_file m2 = config_file m1 /\
  left_battery (battery_levels m2) = left_battery (battery_levels m1) /\
  right_battery (battery_levels m2) = right_battery (battery_levels m1).
Proof.
  intros m1 m2.
  destruct (resolve e m) as [[l r] n1] eqn:R1.
  destruct (read_battery_levels_reading e m n1 l r R1) as (Hb1 & Hc1 & Hf1 & _).
  fold m1 in Hb1, Hc1, Hf1.
  assert (config m1 !! "vendor_id" = config m !! "vendor_id" /\
          config m1 !! "product_id" = config m !! "product_id") as Hids.
  { destruct (read_battery_levels_store e m) as [[Hs _]|(rid & i & ri & Hs & _)];
      fold m1 in Hs; rewrite Hs; [auto|].
    unfold store_mapping. rewrite !lookup_insert_ne by done. auto. }
  assert (resolve e m1 = (l, r, (resolve e m1).2) /\
          config (resolve e m1).2 = config m1 /\
          config_file (resolve e m1).2 = config_file m1) as (R2 & Hc2 & Hf2).
  { unfold resolve in R1 |- *.
    destruct (open_device e (config m)) eqn:O.
    - assert (open_device e (config m1) = true) as ->
        by (rewrite <- O; apply open_device_same_ids; tauto).
      destruct (scan_reports_learn e
        (collect_valid_reports (hid_get_feature_report e) 0 report_ids))
        as [Hnone|(report_id & i & ri & b & r0 & Hwin)].
      + rewrite Hnone in R1 |- *. simpl in R1 |- *.
        assert (config n1 = config m) as Hsame.
        { destruct (read_stored _ _ (config m)) as [[l' r'] asked].
          inversion R1. reflexivity. }
        rewrite Hc1, Hsame.
        destruct (read_stored _ _ (config m)) as [[l' r'] asked].
        inversion R1; subst. simpl. auto.
      + rewrite Hwin in R1 |- *. simpl in R1 |- *. inversion R1; subst.
        assert (learn e report_id i ri (add_requests report_ids m1)
                = add_requests report_ids m1) as ->.
        { unfold learn at 1.
          assert (config (add_requests report_ids m1)
                  = config (learn e report_id i ri (add_requests report_ids m))) as ->
            by exact Hc1.
          rewrite learn_settles. reflexivity. }
        simpl. auto.
    - assert (open_device e (config m1) = false) as ->
        by (rewrite <- O; apply open_device_same_ids; tauto).
      inversion R1; subst. simpl. auto. }
  destruct (read_battery_levels_reading e m1 _ l r R2) as (Hb2 & Hc3 & Hf3 & _).
  fold m2 in Hb2, Hc3, Hf3.
  rewrite Hb2, Hb1, Hc3, Hf3, Hc2, Hf2. auto.
Qed.

Lemma X10_witness :
  let e := world [keyboard] true [(2, [2; 200; 42; 17; 0])] in
  let locked :=
    {| str_lower := str_lower e;
       hid_enumerate := hid_enumerate e; hid_open := hid_open e;
       hid_get_feature_report := hid_get_feature_report e; clock := clock e;
       config_write := fun _ => Refused;
       log_writable := true; gui_available := true |} in
  let m1 := (read_battery_levels locked paired).2 in
  config m1 !! "report_id" = Some (JInt 2) /\
  config_file m1 = Absent /\
  config_file (read_battery_levels locked m1).2 = Absent /\
  left_battery (battery_levels (read_battery_levels locked m1).2) = Some 42.
Proof.
  intros e locked m1.
  destruct (X10_second_read_writes_nothing locked paired) as (_ & Hf & Hl & _).
  fold m1 in Hf, Hl.
  split; [vm_compute; reflexivity|]. split; [vm_compute; reflexivity|].
  split.
  - rewrite Hf. vm_compute. reflexivity.
  - rewrite Hl. vm_compute. reflexivity.
Defined.

(** ** Requests made of the device *)

Lemma read_stored_asked (get : nat -> Z -> option (list Z)) (k : nat)
    (c : gmap string json) :
  (read_stored get k c).2 = [] \/
  exists report_id, threshold c "report_id" = Some report_id /\
                    (read_stored get k c).2 = [report_id].
Proof.
  unfold read_stored, threshold.
  destruct (c !! "report_id") as [v|]; simpl; [|auto].
  destruct (as_int v) as [report_id|]; simpl; [|auto].
  right. exists report_id. split; [reflexivity|].
  destruct (get k report_id) as [report|]; simpl; [|auto].
  destruct (c !! "left_battery_index") as [li|]; simpl; [|auto].
  destruct (stored_value li report) as [l|x]; simpl; [|auto].
  destruct (c !! "right_battery_index") as [ri|]; simpl; [|auto].
  destruct (stored_value ri report) as [r|x]; reflexivity.
Qed.

(** X11: one [read_battery_levels] asks the device for nothing when it
    cannot be opened, and otherwise for the eight probe reports, in order,
    followed by at most one more request; that ninth request, if made, is
    for the integer stored under [report_id].  No other report is ever
    requested. *)
Theorem X11_requests_of_a_read (e : environment) (m : monitor) :
  let m' := (read_battery_levels e m).2 in
  (open_device e (config m) = false -> requests m' = requests m) /\
  (open_device e (config m) = true ->
   requests m' = (requests m ++ [1; 2; 3; 4; 5; 6; 7; 8])%list \/
   exists report_id,
     threshold (config m) "report_id" = Some report_id /\
     requests m' = (requests m ++ [1; 2; 3; 4; 5; 6; 7; 8] ++ [report_id])%list).
Proof.
  intros m'.
  destruct (resolve e m) as [[l r] m1] eqn:R.
  destruct (read_battery_levels_reading e m m1 l r R) as (_ & _ & _ & Hq).
  fold m' in Hq. rewrite Hq. clear Hq. unfold resolve in R. split.
  - intros O. rewrite O in R. inversion R. reflexivity.
  - intros O. rewrite O in R.
    destruct (scan_reports_learn e
      (collect_valid_reports (hid_get_feature_report e) 0 report_ids))
      as [Hnone|(report_id & i & ri & b & r0 & Hwin)].
    + rewrite Hnone in R. simpl in R.
      destruct (read_stored_asked (hid_get_feature_report e) 8 (config m))
        as [Ha|(report_id & Ht & Ha)];
        destruct (read_stored _ _ (config m)) as [[l' r'] asked];
        simpl in Ha; subst asked; inversion R; subst; simpl.
      * left. rewrite app_nil_r. reflexivity.
      * right. exists report_id. split; [exact Ht|]. rewrite <- app_assoc. reflexivity.
    + rewrite Hwin in R. simpl in R. inversion R; subst. left.
      destruct (learn_frame e report_id i ri (add_requests report_ids m)) as (-> & _).
      reflexivity.
Qed.

Lemma X11_witness :
  let closed := world [keyboard] false [(1, [1; 75; 60; 0; 0])] in
  let quiet := world [keyboard] true [(9, [9; 70; 80])] in
  requests (read_battery_levels closed paired).2 = [] /\
  requests (read_battery_levels quiet (learned 9 1 (Some 2%nat))).2
    = [1; 2; 3; 4; 5; 6; 7; 8; 9].
Proof.
  intros closed quiet. split.
  - apply (proj1 (X11_requests_of_a_read closed paired)). vm_compute. reflexivity.
  - destruct (proj2 (X11_requests_of_a_read quiet (learned 9 1 (Some 2%nat))))
      as [H|(report_id & Ht & H)]; [vm_compute; reflexivity| |].
    + vm_compute. reflexivity.
    + rewrite H. vm_compute in Ht. inversion Ht. reflexivity.
Defined.

(** ** The bytes a scan looks at *)

(** X12: the scan looks at the bytes in positions 1 to 4 and at nothing
    else: the report-id byte at position 0 is never a candidate, at most
    four candidates are collected, and cutting a report after its fifth
    byte, or changing what follows it, changes nothing. *)
Theorem X12_scan_reads_four_bytes (report : list Z) :
  potential_battery_values (take 5 report) = potential_battery_values report /\
  (forall tail tail', (5 <= length report)%nat ->
     potential_battery_values (take 5 report ++ tail)
     = potential_battery_values (take 5 report ++ tail')) /\
  (length (potential_battery_values report) <= 4)%nat /\
  (forall b, ~ In (0%nat, b) (potential_battery_values report)).
Proof.
  assert (forall l : list Z, potential_battery_values (take 5 l) = potential_battery_values l)
    as Htake.
  { intros l. rewrite !potential_battery_values_positions. unfold candidate_at.
    rewrite !lookup_take_lt by lia. reflexivity. }
  split; [apply Htake|]. split; [|split].
  - intros tail tail' Hlen.
    rewrite <- (Htake (take 5 report ++ tail)%list), <- (Htake (take 5 report ++ tail')%list).
    rewrite !take_app_le by (rewrite length_take; lia).
    reflexivity.
  - rewrite potential_battery_values_positions. unfold candidate_at.
    rewrite !length_app.
    destruct (report !! 1%nat) as [b1|]; [destruct (in_range b1)|];
      destruct (report !! 2%nat) as [b2|]; try destruct (in_range b2);
      destruct (report !! 3%nat) as [b3|]; try destruct (in_range b3);
      destruct (report !! 4%nat) as [b4|]; try destruct (in_range b4);
      simpl; lia.
  - intros b H. apply potential_battery_values_elem in H as (Hi & _). lia.
Qed.

Lemma X12_witness :
  potential_battery_values ([1; 200; 60; 255; 30] ++ [5; 6; 7])
  = potential_battery_values ([1; 200; 60; 255; 30] ++ [99]).
Proof.
  apply (proj1 (proj2 (X12_scan_reads_four_bytes [1; 200; 60; 255; 30]))
           [5; 6; 7] [99]).
  simpl. lia.
Defined.

(** ** The stored mapping at its edges *)

Lemma stored_value_beyond (report : list Z) (i : nat) :
  (length report <= i)%nat -> stored_value (JInt (Z.of_nat i)) report = Ok None.
Proof.
  intros H. unfold stored_value. simpl.
  assert ((Z.of_nat i <? Z.of_nat (length report)) = false) as ->
    by (apply Z.ltb_ge; lia).
  reflexivity.
Qed.

(** X13: in the fallback to the stored mapping the two indices are not
    treated alike when the left one is bad.  A left index at or beyond the
    end of the stored report is skipped and the right level is still read;
    a left index that is not a number (a string, a list or an object)
    raises inside the block, so the right level is never read and the
    reading has no level at all. *)
Theorem X13_bad_left_index (e : environment) (m : monitor) (report_id : Z)
    (report : list Z) (left_index : json) (ri : nat) (r : Z) :
  open_device e (config m) = true ->
  (forall j id, report_ids !! j = Some id -> silent (hid_get_feature_report e j id)) ->
  config m !! "report_id" = Some (JInt report_id) ->
  hid_get_feature_report e 8%nat report_id = Some report ->
  config m !! "left_battery_index" = Some left_index ->
  config m !! "right_battery_index" = Some (JInt (Z.of_nat ri)) ->
  report !! ri = Some r -> 0 <= r <= 100 ->
  let b := battery_levels (read_battery_levels e m).2 in
  (forall li, left_index = JInt (Z.of_nat li) -> (length report <= li)%nat ->
              left_battery b = None /\ right_battery b = Some r) /\
  (left_index <> JNull -> as_int left_index = None ->
   left_battery b = None /\ right_battery b = None).
Proof.
  intros Hopen Hsilent Hid Hget Hli Hri Hr Hrr b.
  pose proof (resolve_after_silent_scan e m Hopen Hsilent) as R.
  unfold read_stored in R. rewrite Hid in R. simpl in R.
  rewrite Hget, Hli, Hri in R. split.
  - intros li -> Hlen. rewrite (stored_value_beyond _ _ Hlen) in R.
    rewrite (stored_value_hit _ _ _ Hr Hrr) in R.
    destruct (read_battery_levels_reading e m _ _ _ R) as (Hb & _).
    subst b. rewrite Hb. auto.
  - intros Hnull Hint.
    assert (stored_value left_index report = Raise TypeError) as Hraise.
    { unfold stored_value. rewrite Hint. destruct left_index; congruence. }
    rewrite Hraise in R.
    destruct (read_battery_levels_reading e m _ _ _ R) as (Hb & _).
    subst b. rewrite Hb. auto.
Qed.

Lemma X13_witness :
  let e := world [keyboard] true [(9, [9; 70; 80])] in
  let far := set_config (<["left_battery_index" := JInt 7]>
                           (config (learned 9 1 (Some 2%nat)))) paired in
  let text := set_config (<["left_battery_index" := JStr "1"]>
                            (config (learned 9 1 (Some 2%nat)))) paired in
  right_battery (battery_levels (read_battery_levels e far).2) = Some 80 /\
  right_battery (battery_levels (read_battery_levels e text).2) = None.
Proof.
  intros e far text.
  assert (forall j id, report_ids !! j = Some id ->
                       silent (hid_get_feature_report e j id)) as Hsilent
    by (intros j id Hj; each_probe j Hj).
  assert (open_device e (config far) = true) as Ofar by (vm_compute; reflexivity).
  assert (open_device e (config text) = true) as Otext by (vm_compute; reflexivity).
  assert (config far !! "report_id" = Some (JInt 9)) as Ifar by (vm_compute; reflexivity).
  assert (config text !! "report_id" = Some (JInt 9)) as Itext by (vm_compute; reflexivity).
  assert (config far !! "left_battery_index" = Some (JInt (Z.of_nat 7))) as Lfar
    by (vm_compute; reflexivity).
  assert (config text !! "left_battery_index" = Some (JStr "1")) as Ltext
    by (vm_compute; reflexivity).
  assert (config far !! "right_battery_index" = Some (JInt (Z.of_nat 2))) as Rfar
    by (vm_compute; reflexivity).
  assert (config text !! "right_battery_index" = Some (JInt (Z.of_nat 2))) as Rtext
    by (vm_compute; reflexivity).
  split.
  - apply (proj1 (X13_bad_left_index e far 9 [9; 70; 80] (JInt (Z.of_nat 7)) 2%nat 80
                    Ofar Hsilent Ifar eq_refl Lfar Rfar eq_refl ltac:(lia)) 7%nat);
      [reflexivity|simpl; lia].
  - apply (proj2 (X13_bad_left_index e text 9 [9; 70; 80] (JStr "1") 2%nat 80
                    Otext Hsilent Itext eq_refl Ltext Rtext eq_refl ltac:(lia)));
      [discriminate|reflexivity].
Defined.

(** ** A series file that cannot be written *)

(** X14: when a keyboard is found but the series file cannot be written,
    the retained reading has already been replaced by the new one when the
    write fails; the exception then ends the cycle before the tray is
    updated, so no tooltip and no notification follow, even with the tray
    active and a level below the critical threshold. *)
Theorem X14_series_write_failure (e : environment) (m : monitor) :
  (find_keyboard e m).1 = Ok true ->
  log_writable e = false ->
  let m' := cycle e m in
  timestamp (battery_levels m') = Some (clock e) /\
  battery_levels m' = battery_levels (read_battery_levels e (find_keyboard e m).2).2 /\
  log_file m' = log_file m /\
  tooltips m' = tooltips m /\
  notifications m' = notifications m.
Proof.
  intros Hfound W m'. subst m'.
  destruct (find_keyboard_frame e m) as (_ & Fl & Ft & Fn & _).
  destruct (find_keyboard e m) as [found m1] eqn:F. simpl in *. subst found.
  destruct (resolve_frame e m1) as (_ & Rl & Rt & Rn & _).
  destruct (resolve e m1) as [[l r] m2] eqn:R. simpl in *.
  rewrite (cycle_with_keyboard e m m1 m2 l r F R), W.
  destruct (read_battery_levels_reading e m1 m2 l r R) as (-> & _).
  simpl. repeat split; congruence.
Qed.

Lemma X14_witness :
  let e := world [keyboard] true [(1, [1; 5; 3; 0; 0])] in
  let full :=
    {| str_lower := str_lower e;
       hid_enumerate := hid_enumerate e; hid_open := hid_open e;
       hid_get_feature_report := hid_get_feature_report e; clock := clock e;
       config_write := fun _ => Written;
       log_writable := false; gui_available := true |} in
  let m' := cycle full (init_gui paired) in
  left_battery (battery_levels m') = Some 5 /\
  notifications m' = [] /\ tooltips m' = [] /\ log_file m' = None.
Proof.
  intros e full m'.
  destruct (X14_series_write_failure full (init_gui paired)) as (_ & Hb & Hl & Ht & Hn);
    [vm_compute; reflexivity|reflexivity|].
  fold m' in Hb, Hl, Ht, Hn.
  rewrite Hb, Hl, Ht, Hn. split; [vm_compute; reflexivity|]. auto.
Defined.

(** ** The locator with stored identifiers *)

Lemma configured_present_In (ids : json * json) (devices : list hid_info)
    (device : hid_info) :
  In device devices -> matches_configured ids device = true ->
  configured_present (Some ids) devices = true.
Proof.
  intros Hin Hm. simpl. apply existsb_exists. exists device. auto.
Qed.

(** X15: a stored pair of identifiers, both non-zero, whose device is
    still connected is used as it is: [find_keyboard] returns [True] and
    changes nothing, neither the configuration nor its file, whatever the
    names of the connected devices are. *)
Theorem X15_configured_device_is_kept (e : environment) (m : monitor)
    (devices : list hid_info) (device : hid_info) :
  hid_enumerate e = Ok devices ->
  In device devices ->
  vendor_id device <> 0 -> product_id device <> 0 ->
  config m !! "vendor_id" = Some (JInt (vendor_id device)) ->
  config m !! "product_id" = Some (JInt (product_id device)) ->
  find_keyboard e m = (Ok true, m).
Proof.
  intros Henum Hin Hv Hp Cv Cp. unfold find_keyboard. rewrite Henum.
  unfold configured_ids. rewrite Cv, Cp. simpl.
  apply Z.eqb_neq in Hv, Hp. rewrite Hv, Hp. simpl.
  assert (existsb (matches_configured (JInt (vendor_id device), JInt (product_id device)))
            devices = true) as ->.
  { apply existsb_exists. exists device. split; [exact Hin|].
    unfold matches_configured, py_eq_int. simpl. rewrite !Z.eqb_refl. reflexivity. }
  reflexivity.
Qed.

Lemma X15_witness :
  find_keyboard (world [nice_nano; mouse; keyboard] true []) paired = (Ok true, paired).
Proof.
  apply (X15_configured_device_is_kept _ paired [nice_nano; mouse; keyboard] keyboard).
  - reflexivity.
  - simpl. auto.
  - discriminate.
  - discriminate.
  - vm_compute. reflexivity.
  - vm_compute. reflexivity.
Defined.

Lemma select_device_twice (device : hid_info) (c : gmap string json) :
  select_device device (select_device device c) = select_device device c.
Proof.
  apply map_eq. intros key. unfold select_device.
  destruct (decide (key = "device_name")) as [->|H1];
    [rewrite !lookup_insert_eq; reflexivity|].
  rewrite !(lookup_insert_ne _ "device_name") by congruence.
  destruct (decide (key = "product_id")) as [->|H2];
    [rewrite !lookup_insert_eq; reflexivity|].
  rewrite !(lookup_insert_ne _ "product_id") by congruence.
  destruct (decide (key = "vendor_id")) as [->|H3];
    [rewrite !lookup_insert_eq; reflexivity|].
  rewrite !(lookup_insert_ne _ "vendor_id") by congruence.
  rewrite !(lookup_insert_ne _ "device_name") by congruence.
  rewrite !(lookup_insert_ne _ "product_id") by congruence.
  rewrite !(lookup_insert_ne _ "vendor_id") by congruence.
  reflexivity.
Qed.

Lemma filter_head_In (e : environment) (devices rest : list hid_info)
    (device : hid_info) :
  List.filter (is_candidate e) devices = device :: rest -> In device devices.
Proof.
  intros H.
  assert (In device (List.filter (is_candidate e) devices)) as Hin
    by (rewrite H; left; reflexivity).
  apply filter_In in Hin. tauto.
Qed.

(** X16: locating twice is locating once.  With the same devices
    connected, a second [find_keyboard] gives the answer of the first and
    leaves the monitor, its configuration and the configuration file as
    the first left them. *)
Theorem X16_find_keyboard_twice (e : environment) (m : monitor) :
  find_keyboard e (find_keyboard e m).2 = find_keyboard e m.
Proof.
  destruct (find_keyboard e m) as [found m1] eqn:F. cbn [snd].
  unfold find_keyboard in F.
  destruct (hid_enumerate e) as [devices|x] eqn:Henum;
    [|inversion F; subst; unfold find_keyboard; rewrite Henum; reflexivity].
  destruct (configured_ids (config m)) as [ids|x] eqn:Hids;
    [|inversion F; subst; unfold find_keyboard; rewrite Henum, Hids; reflexivity].
  destruct (configured_present ids devices) eqn:Hpresent;
    [inversion F; subst; unfold find_keyboard; rewrite Henum, Hids, Hpresent;
     reflexivity|].
  destruct (List.filter (is_candidate e) devices) as [|device rest] eqn:Hfilter;
    [inversion F; subst; unfold find_keyboard;
     rewrite Henum, Hids, Hpresent, Hfilter; reflexivity|].
  injection F as Hfound Hm1. subst found.
  assert (config m1 = select_device device (config m)) as Hc
    by (rewrite <- Hm1; unfold save_config; destruct (config_write e OnSelect); reflexivity).
  assert (save_config e OnSelect (set_config (select_device device (config m1)) m1) = m1)
    as Hsame.
  { rewrite Hc, select_device_twice. rewrite <- Hm1. unfold save_config.
    destruct (config_write e OnSelect); reflexivity. }
  assert (configured_ids (config m1)
          = if negb (vendor_id device =? 0)
            then if negb (product_id device =? 0)
                 then Ok (Some (JInt (vendor_id device), JInt (product_id device)))
                 else Ok None
            else Ok None) as Hids1.
  { rewrite Hc. unfold configured_ids, select_device.
    rewrite !lookup_insert_ne by done. rewrite lookup_insert_eq. simpl.
    destruct (vendor_id device =? 0); simpl; [reflexivity|].
    rewrite lookup_insert_ne by done. rewrite lookup_insert_eq. reflexivity. }
  assert (configured_present
            (Some (JInt (vendor_id device), JInt (product_id device))) devices = true)
    as Hagain.
  { apply (configured_present_In _ devices device).
    - apply (filter_head_In e devices rest device Hfilter).
    - unfold matches_configured, py_eq_int. simpl. rewrite !Z.eqb_refl. reflexivity. }
  unfold find_keyboard. rewrite Henum, Hids1.
  destruct (vendor_id device =? 0); cbn [negb].
  - cbn [configured_present]. rewrite Hfilter, Hsame. reflexivity.
  - destruct (product_id device =? 0); cbn [negb].
    + cbn [configured_present]. rewrite Hfilter, Hsame. reflexivity.
    + rewrite Hagain. reflexivity.
Qed.

(** X17: an identifier stored as a falsy value (0, [null], [false], the
    empty string, list or object) counts as not configured.  The stored
    pair is then ignored even when a device with exactly these identifiers
    is connected: when no connected device passes the name filter, its
    strings lowered by [str.lower] of the runtime, [find_keyboard] returns
    [False] and changes nothing. *)
Theorem X17_falsy_identifier_is_unconfigured (e : environment) (m : monitor)
    (devices : list hid_info) (vid pid : json) :
  hid_enumerate e = Ok devices ->
  config m !! "vendor_id" = Some vid ->
  config m !! "product_id" = Some pid ->
  truthy vid = false \/ truthy pid = false ->
  (forall d, In d devices -> ~ looks_like_zmk e d) ->
  find_keyboard e m = (Ok false, m).
Proof.
  intros Henum Cv Cp Hfalsy Hnone. unfold find_keyboard. rewrite Henum.
  assert (configured_ids (config m) = Ok None) as ->.
  { unfold configured_ids. rewrite Cv. destruct (truthy vid); [|reflexivity].
    rewrite Cp. destruct Hfalsy as [H|H]; [discriminate|]. rewrite H. reflexivity. }
  simpl. rewrite (filter_no_candidate e devices Hnone). reflexivity.
Qed.

Lemma X17_witness :
  let m := set_config (<["product_id" := JInt 1]>
                         (<["vendor_id" := JInt 0]> DEFAULT_CONFIG)) fresh in
  matches_configured (JInt 0, JInt 1) virtual_pad = true /\
  find_keyboard (world [virtual_pad] true []) m = (Ok false, m).
Proof.
  intros m. split; [reflexivity|].
  apply (X17_falsy_identifier_is_unconfigured _ m [virtual_pad] (JInt 0) (JInt 1)).
  - reflexivity.
  - vm_compute. reflexivity.
  - vm_compute. reflexivity.
  - left. reflexivity.
  - intros d [<-|[]] H. apply is_candidate_looks_like_zmk in H. vm_compute in H. discriminate.
Defined.

(** ** Warnings *)

(** The notifications after [update_tray] are those [notify_critical]
    leaves, or the ones before when drawing the icon raised. *)
Lemma update_tray_notifications (e : environment) (m : monitor) :
  notifications (update_tray e m).2 = notifications m \/
  notifications (update_tray e m).2
    = notifications (notify_critical (add_tooltip (tooltip_of (battery_levels m)) m)).2.
Proof.
  unfold update_tray. destruct (generate_tray_icon e m); auto.
Qed.

(** The notifications after a cycle are the ones before it, or the ones
    [update_tray] leaves for a monitor with the same notifications and the
    configuration the cycle ends with. *)
Lemma cycle_notifications (e : environment) (m : monitor) :
  notifications (cycle e m) = notifications m \/
  exists m3, notifications (cycle e m) = notifications (update_tray e m3).2 /\
             notifications m3 = notifications m /\
             config m3 = config (cycle e m).
Proof.
  destruct (find_keyboard_frame e m) as (_ & _ & _ & Fn & _).
  destruct (find_keyboard e m) as [found m1] eqn:F. simpl in Fn.
  destruct (result_eq_true found) as [->|Hne].
  - destruct (resolve_frame e m1) as (_ & _ & _ & Rn & _).
    destruct (resolve e m1) as [[l r] m2] eqn:R. simpl in Rn.
    rewrite (cycle_with_keyboard e m m1 m2 l r F R).
    destruct (log_writable e); [|left; simpl; congruence].
    set (m3 := set_log_file _ _).
    destruct (icon m2); [|left; simpl; congruence].
    right. exists m3. split; [reflexivity|]. split; [simpl; congruence|].
    destruct (update_tray_frame e m3) as (-> & _). reflexivity.
  - left. rewrite cycle_without_keyboard by (rewrite F; exact Hne).
    rewrite F. exact Fn.
Qed.

Lemma cycle_keeps_threshold (e : environment) (m : monitor) (key : string) :
  ~ In key assigned_keys ->
  threshold (config (cycle e m)) key = threshold (config m) key.
Proof.
  intros Hk. unfold threshold.
  destruct (cycle_store_cases e m) as [[-> _]|(Hf & _)]; [reflexivity|].
  simpl in Hf. rewrite (Hf key Hk). reflexivity.
Qed.

(** X18: a critical threshold that is no number switches every warning
    off.  When [critical_battery_threshold] is missing from the
    configuration, or is [null], a string, a list or an object, the
    comparison of a level with it raises, and the worker never dispatches
    a notification, however low the levels it reads and however long it
    runs. *)
Theorem X18_threshold_no_number_means_no_warning (envs : nat -> environment)
    (fuel : nat) (w : worker) (m : monitor) :
  (forall v, config m !! "critical_battery_threshold" = Some v -> not_a_number v) ->
  notifications (run_monitor (worker_run envs fuel w m)) = notifications m.
Proof.
  intros Hshape.
  assert (threshold (config m) "critical_battery_threshold" = None) as Hbad.
  { unfold threshold.
    destruct (config m !! "critical_battery_threshold") as [v|]; [|reflexivity].
    specialize (Hshape v eq_refl). destruct v; simpl in *; tauto. }
  assert (threshold (config (run_monitor (worker_run envs fuel w m)))
            "critical_battery_threshold" = None /\
          notifications (run_monitor (worker_run envs fuel w m)) = notifications m)
    as [_ H]; [|exact H].
  apply (worker_run_keeps (fun _ => True)
           (fun m' => threshold (config m') "critical_battery_threshold" = None /\
                      notifications m' = notifications m)); auto.
  intros e m0 _ [Ht Hn].
  assert (threshold (config (cycle e m0)) "critical_battery_threshold" = None) as Ht'.
  { rewrite cycle_keeps_threshold; [exact Ht|].
    unfold assigned_keys. simpl. intros [H|[H|[H|[H|[H|[H|[]]]]]]]; discriminate. }
  split; [exact Ht'|].
  destruct (cycle_notifications e m0) as [->|(m3 & -> & Hn3 & Hc3)]; [exact Hn|].
  destruct (update_tray_notifications e m3) as [->| ->]; [congruence|].
  destruct (notify_critical_cases (add_tooltip (tooltip_of (battery_levels m3)) m3))
    as (new & Hnew & Hcases).
  simpl in Hnew, Hcases. rewrite Hnew, Hc3, Ht' in *.
  destruct Hcases as [-> | [(lv & t & _ & Hsome & _) | (rv & t & _ & Hsome & _)]];
    [|discriminate|discriminate].
  rewrite app_nil_r. congruence.
Qed.

Lemma X18_witness :
  let envs := fun _ : nat => world [keyboard] true [(1, [1; 2; 3; 0; 0])] in
  let m := init_gui (start_monitoring
             (set_config (<["critical_battery_threshold" := JStr "10"]> (config paired))
                         paired)) in
  left_battery (battery_levels (run_monitor (worker_run envs 20 AtWhile m))) = Some 2 /\
  notifications (run_monitor (worker_run envs 20 AtWhile m)) = [].
Proof.
  intros envs m. split; [vm_compute; reflexivity|].
  apply (X18_threshold_no_number_means_no_warning envs 20 AtWhile m).
  intros v Hv. vm_compute in Hv. injection Hv as <-. exact I.
Defined.

(** X19: only the critical threshold ever causes a notification.  When
    every level present is above it, [update_tray] dispatches nothing,
    whatever the low threshold is: a level between the two thresholds
    changes the colour of the icon and nothing else. *)
Theorem X19_no_warning_above_critical (e : environment) (m : monitor) (t : Z) :
  threshold (config m) "critical_battery_threshold" = Some t ->
  (forall l, left_battery (battery_levels m) = Some l -> t < l) ->
  (forall r, right_battery (battery_levels m) = Some r -> t < r) ->
  notifications (update_tray e m).2 = notifications m.
Proof.
  intros Ht Hl Hr.
  destruct (update_tray_notifications e m) as [->| ->]; [reflexivity|].
  destruct (notify_critical_cases (add_tooltip (tooltip_of (battery_levels m)) m))
    as (new & Hnew & Hcases).
  simpl in Hnew, Hcases. rewrite Hnew.
  destruct Hcases as [-> | [(lv & t' & Hlv & Ht' & Hle & _) | (rv & t' & Hrv & Ht' & Hle & _)]].
  - apply app_nil_r.
  - specialize (Hl lv Hlv). assert (t' = t) by congruence. lia.
  - specialize (Hr rv Hrv). assert (t' = t) by congruence. lia.
Qed.

Lemma X19_witness :
  let m := set_battery_levels
             {| left_battery := Some 15; right_battery := Some 11;
                timestamp := Some "2025-03-01 12:00:00" |} (init_gui paired) in
  get_color (config m) (Some 15) = Ok Orange /\
  notifications (update_tray (world [keyboard] true []) m).2 = [].
Proof.
  intros m. split; [vm_compute; reflexivity|].
  apply (X19_no_warning_above_critical _ m 10).
  - vm_compute. reflexivity.
  - intros l H. inversion H. lia.
  - intros r H. inversion H. lia.
Defined.

(** X20: a warning is not remembered.  As long as the left level stays at
    or below the critical threshold, every [update_tray] dispatches the
    left-half warning again: two updates in a row leave two copies of it.
    (The icon must be drawable: a right level above the critical threshold
    needs an integer low threshold to get its colour.) *)
Theorem X20_warning_repeats (e : environment) (m : monitor) (l t : Z) :
  left_battery (battery_levels m) = Some l ->
  threshold (config m) "critical_battery_threshold" = Some t ->
  l <= t ->
  (forall r, right_battery (battery_levels m) = Some r ->
             r <= t \/ is_Some (threshold (config m) "low_battery_threshold")) ->
  notifications (update_tray e (update_tray e m).2).2
  = (notifications m ++ [critical_warning "Left" l; critical_warning "Left" l])%list.
Proof.
  intros Hl Ht Hle Hright.
  assert (at_most l (config m) "critical_battery_threshold" = Ok true) as A
    by (apply at_most_threshold; exists t; split; [exact Ht|];
        symmetry; apply Z.leb_le; exact Hle).
  assert (forall m0, config m0 = config m -> battery_levels m0 = battery_levels m ->
            update_tray e m0 =
              (Ok tt, show_notification (critical_warning "Left" l)
                        (add_tooltip (tooltip_of (battery_levels m0)) m0))) as Hone.
  { intros m0 Hc Hb. unfold update_tray.
    assert (exists img, generate_tray_icon e m0 = Ok img) as [img ->].
    { unfold generate_tray_icon. destruct (gui_available e); [|eauto].
      rewrite Hc, Hb, Hl. unfold get_color at 1. rewrite A.
      destruct (right_battery (battery_levels m)) as [r|] eqn:Hr; [|simpl; eauto].
      unfold get_color.
      destruct (at_most r (config m) "critical_battery_threshold") as [[|]|x] eqn:B;
        [eauto| |].
      - destruct (Hright r eq_refl) as [Hrt|[low Hlow]].
        + apply at_most_threshold in B as (t' & Ht' & Hb').
          assert (t' = t) by congruence. subst t'.
          symmetry in Hb'. apply Z.leb_gt in Hb'. lia.
        + assert (at_most r (config m) "low_battery_threshold" = Ok (r <=? low)) as ->
            by (apply at_most_threshold; eauto).
          destruct (r <=? low); eauto.
      - exfalso. unfold at_most, threshold in *.
        destruct (config m !! "critical_battery_threshold") as [v|]; [|discriminate].
        destruct (as_int v); discriminate. }
    unfold notify_critical. simpl. rewrite Hb, Hl, Hc, A. reflexivity. }
  rewrite (Hone m eq_refl eq_refl). cbn [snd].
  rewrite Hone by reflexivity. simpl. rewrite <- app_assoc. reflexivity.
Qed.

Lemma X20_witness :
  let m := set_battery_levels
             {| left_battery := Some 5; right_battery := None;
                timestamp := Some "2025-03-01 12:00:00" |} (init_gui paired) in
  let e := world [keyboard] true [] in
  length (notifications (update_tray e (update_tray e m).2).2) = 2%nat.
Proof.
  intros m e.
  rewrite (X20_warning_repeats e m 5 10).
  - reflexivity.
  - reflexivity.
  - vm_compute. reflexivity.
  - lia.
  - intros r H. discriminate.
Defined.

(** ** No keyboard *)

(** X21: while no keyboard is found the worker changes nothing at all.
    The configuration, both files, the requests and the tray stay as they
    are, and so does the retained reading: the levels of a keyboard that
    has gone away remain in place and are not reset to absent. *)
Theorem X21_nothing_changes_without_keyboard (envs : nat -> environment) (fuel : nat)
    (w : worker) (m : monitor) :
  (forall i, (find_keyboard (envs i) m).1 <> Ok true) ->
  run_monitor (worker_run envs fuel w m) = m.
Proof.
  intros Hnone.
  apply (worker_run_keeps (fun e => (find_keyboard e m).1 <> Ok true)
           (fun m' => m' = m)); auto.
  intros e m0 He ->. rewrite (cycle_without_keyboard e m He).
  unfold find_keyboard in *.
  destruct (hid_enumerate e) as [devices|x]; [|reflexivity].
  destruct (configured_ids (config m)) as [ids|x]; [|reflexivity].
  destruct (configured_present ids devices); [reflexivity|].
  destruct (List.filter (is_candidate e) devices) as [|device rest]; [reflexivity|].
  simpl in He. congruence.
Qed.

Lemma X21_witness :
  let there := world [keyboard] true [(1, [1; 75; 60; 0; 0])] in
  let gone := fun _ : nat => world [mouse] true [] in
  let m := (read_battery_levels there (start_monitoring paired)).2 in
  left_battery (battery_levels (run_monitor (worker_run gone 20 AtWhile m))) = Some 75.
Proof.
  intros there gone m.
  rewrite (X21_nothing_changes_without_keyboard gone 20 AtWhile m).
  - vm_compute. reflexivity.
  - intros i. vm_compute. discriminate.
Defined.
